(** * VIB34D working core: registries, shader composition, dirty-tracked
      parameters and context recovery

    A shallow embedding of [VIB34D_WORKING_CORE_ARCHITECTURE.js]
    ([GeometryManager], [ProjectionManager], [ShaderManager],
    [HypercubeCore]) and the properties of it that the specification
    states.

    Conventions of the embedding:
    - a JavaScript object used as a dictionary is a [gmap string _]
      (inherited properties of [Object.prototype] are not looked up);
    - a plain data object whose key order is observable (through
      [JSON.stringify]) is a property list in enumeration order;
    - a [Set] of uniform names is a duplicate-free list in insertion order,
      which is the order [Set.prototype.forEach] visits;
    - numbers are rationals extended with NaN and the infinities; double
      rounding is not modelled (no property below depends on it);
    - strings are byte strings; [toLowerCase] maps the ASCII letters. *)

From Stdlib Require Import Ascii QArith Qround.
From stdpp Require Import gmap strings list pretty.

#[local] Set Warnings "-register-all".

Local Open Scope string_scope.
Local Open Scope Z_scope.
Local Open Scope list_scope.

(** ** JavaScript strings *)

Module JSString.

Definition toLowerCase_ascii (c : ascii) : ascii :=
  let n := nat_of_ascii c in
  if ((65 <=? n)%nat && (n <=? 90)%nat)%bool then ascii_of_nat (n + 32) else c.

Fixpoint toLowerCase (s : string) : string :=
  match s with
  | EmptyString => EmptyString
  | String c s' => String (toLowerCase_ascii c) (toLowerCase s')
  end.

(** [s.indexOf(p)]: position of the first occurrence. *)
Definition indexOf (s p : string) : option nat := String.index 0 p s.

(** [s.includes(p)] *)
Definition includes (s p : string) : bool :=
  match indexOf s p with Some _ => true | None => false end.

Definition slice_from (i : nat) (s : string) : string :=
  String.substring i (String.length s - i) s.

(** The replacement text of [String.prototype.replace] with a string
    pattern (GetSubstitution without captures): [$$] is a dollar sign,
    [$&] the matched text, [$`] the text before the match, [$'] the text
    after it; any other dollar sign stands for itself. *)
Fixpoint getSubstitution (matched before after replacement : string) : string :=
  match replacement with
  | EmptyString => EmptyString
  | String "$" (String "$" r) => String "$" (getSubstitution matched before after r)
  | String "$" (String "&" r) => matched +:+ getSubstitution matched before after r
  | String "$" (String "`" r) => before +:+ getSubstitution matched before after r
  | String "$" (String "'" r) => after +:+ getSubstitution matched before after r
  | String c r => String c (getSubstitution matched before after r)
  end.

(** [s.replace(p, r)] for a string pattern [p]: only the first occurrence
    is replaced. *)
Definition replace (s p r : string) : string :=
  match indexOf s p with
  | None => s
  | Some i =>
      let before := String.substring 0 i s in
      let after := slice_from (i + String.length p) s in
      before +:+ getSubstitution p before after r +:+ after
  end.

End JSString.

(** ** JavaScript values *)

Inductive JSNumber :=
| JFinite (q : Q)
| JNaN
| JInfinity (negative : bool).

(** The values a parameter map or [this.state] holds.  Objects list their
    own enumerable properties in enumeration order. *)
Inductive JSValue :=
| JUndefined
| JNull
| JBoolean (b : bool)
| JNum (n : JSNumber)
| JString (s : string)
| JArray (elems : list JSValue)
| JObject (props : list (string * JSValue)).

Definition JInt (z : Z) : JSValue := JNum (JFinite (inject_Z z)).

(** Exceptions thrown by the modelled code. *)
Inductive JSError :=
| TypeError (msg : string)
| Error (msg : string).

Module JS.

(** ToBoolean *)
Definition truthy (v : JSValue) : bool :=
  match v with
  | JUndefined | JNull => false
  | JBoolean b => b
  | JNum (JFinite q) => negb (Qeq_bool q 0)
  | JNum JNaN => false
  | JNum (JInfinity _) => true
  | JString s => negb (String.eqb s "")
  | JArray _ | JObject _ => true
  end.

(** ToNumber on undefined, null, booleans and numbers.  ToNumber of a
    string parses it and ToNumber of an object goes through ToPrimitive;
    those two are outside the embedding ([None]). *)
Definition toNumber (v : JSValue) : option JSNumber :=
  match v with
  | JUndefined => Some JNaN
  | JNull => Some (JFinite 0)
  | JBoolean b => Some (JFinite (if b then 1 else 0))
  | JNum n => Some n
  | JString _ | JArray _ | JObject _ => None
  end.

Definition num_lt (a b : JSNumber) : bool :=
  match a, b with
  | JNaN, _ | _, JNaN => false
  | JFinite p, JFinite q => negb (Qle_bool q p)
  | JFinite _, JInfinity neg => negb neg
  | JInfinity neg, JFinite _ => neg
  | JInfinity n1, JInfinity n2 => n1 && negb n2
  end.

(** [a >= b] is false when either side is NaN, else [!(a < b)]. *)
Definition num_ge (a b : JSNumber) : bool :=
  match a, b with
  | JNaN, _ | _, JNaN => false
  | _, _ => negb (num_lt a b)
  end.

Definition num_add (a b : JSNumber) : JSNumber :=
  match a, b with
  | JNaN, _ | _, JNaN => JNaN
  | JFinite p, JFinite q => JFinite (Qred (p + q))
  | JInfinity n, JFinite _ | JFinite _, JInfinity n => JInfinity n
  | JInfinity n1, JInfinity n2 => if Bool.eqb n1 n2 then JInfinity n1 else JNaN
  end.

Definition num_neg (a : JSNumber) : JSNumber :=
  match a with
  | JNaN => JNaN
  | JFinite p => JFinite (Qred (- p))
  | JInfinity n => JInfinity (negb n)
  end.

Definition num_sub (a b : JSNumber) : JSNumber := num_add a (num_neg b).

Definition num_mul (a b : JSNumber) : JSNumber :=
  match a, b with
  | JNaN, _ | _, JNaN => JNaN
  | JFinite p, JFinite q => JFinite (Qred (p * q))
  | JInfinity n, JFinite q | JFinite q, JInfinity n =>
      if Qeq_bool q 0 then JNaN
      else JInfinity (if Qle_bool 0 q then n else negb n)
  | JInfinity n1, JInfinity n2 => JInfinity (xorb n1 n2)
  end.

(** *** Property lists *)

Definition digit_of (c : ascii) : option N :=
  let n := N_of_ascii c in
  if ((48 <=? n) && (n <=? 57))%N then Some (n - 48)%N else None.

Fixpoint digits_value (acc : N) (s : string) : option N :=
  match s with
  | EmptyString => Some acc
  | String c s' =>
      match digit_of c with
      | Some d => digits_value (acc * 10 + d)%N s'
      | None => None
      end
  end.

(** A property key that is a canonical array index ([0 .. 2^32-2]). *)
Definition array_index (k : string) : option N :=
  match k with
  | EmptyString => None
  | String "0" EmptyString => Some 0%N
  | String "0" _ => None
  | _ =>
      match digits_value 0 k with
      | Some n => if (n <? 4294967295)%N then Some n else None
      | None => None
      end
  end.

Definition get (ps : list (string * JSValue)) (k : string) : JSValue :=
  match List.find (fun p => String.eqb (fst p) k) ps with
  | Some p => snd p
  | None => JUndefined
  end.

Definition has (ps : list (string * JSValue)) (k : string) : bool :=
  existsb (fun p => String.eqb (fst p) k) ps.

Fixpoint update (k : string) (v : JSValue) (ps : list (string * JSValue)) :=
  match ps with
  | [] => []
  | (k', v') :: ps' =>
      if String.eqb k' k then (k', v) :: ps' else (k', v') :: update k v ps'
  end.

Fixpoint insert_index (n : N) (k : string) (v : JSValue)
    (ps : list (string * JSValue)) :=
  match ps with
  | [] => [(k, v)]
  | (k', v') :: ps' =>
      match array_index k' with
      | Some m => if (n <? m)%N then (k, v) :: ps
                  else (k', v') :: insert_index n k v ps'
      | None => (k, v) :: ps
      end
  end.

(** [o[k] = v] on a plain object: an existing key keeps its place; a new
    array-index key goes among the index keys in ascending order, any
    other new key goes last (the order of OrdinaryOwnPropertyKeys). *)
Definition define (k : string) (v : JSValue) (ps : list (string * JSValue)) :=
  if has ps k then update k v ps
  else match array_index k with
       | Some n => insert_index n k v ps
       | None => ps ++ [(k, v)]
       end.

Fixpoint indexed (i : nat) (xs : list JSValue) : list (string * JSValue) :=
  match xs with
  | [] => []
  | x :: xs' => (pretty i, x) :: indexed (S i) xs'
  end.

Fixpoint chars (s : string) : list JSValue :=
  match s with
  | EmptyString => []
  | String c s' => JString (String c EmptyString) :: chars s'
  end.

(** The own enumerable properties copied by a spread [{...v}]. *)
Definition ownEnumerable (v : JSValue) : list (string * JSValue) :=
  match v with
  | JObject ps => ps
  | JArray xs => indexed 0 xs
  | JString s => indexed 0 (chars s)
  | JUndefined | JNull | JBoolean _ | JNum _ => []
  end.

(** [{ ...a, ...b }] *)
Definition spread2 (a b : JSValue) : JSValue :=
  JObject (fold_left (fun o p => define (fst p) (snd p) o) (ownEnumerable b)
            (fold_left (fun o p => define (fst p) (snd p) o) (ownEnumerable a) [])).

(** [v.hasOwnProperty(k)] for a key [k] that is neither an index nor
    [length]: reading the method off [undefined] or [null] throws. *)
Definition hasOwnProperty (v : JSValue) (k : string) : JSError + bool :=
  match v with
  | JUndefined | JNull =>
      inl (TypeError "Cannot read properties of undefined or null (reading 'hasOwnProperty')")
  | JObject ps => inr (has ps k)
  | JBoolean _ | JNum _ | JString _ | JArray _ => inr false
  end.

(** [typeof v === 'object' && v !== null && !Array.isArray(v)] *)
Definition isPlainObject (v : JSValue) : bool :=
  match v with JObject _ => true | _ => false end.

End JS.

(** ** JSON.stringify

    [updateParameters] only compares two serialisations for equality, so the
    embedding keeps the JSON document as a tree: two documents are equal
    exactly when their texts are.  [None] is the [undefined] that
    [JSON.stringify(undefined)] returns. *)

Inductive Json :=
| JsonNull
| JsonBool (b : bool)
| JsonNumber (q : Q)
| JsonString (s : string)
| JsonArray (elems : list Json)
| JsonObject (members : list (string * Json)).

Fixpoint JSON_stringify (v : JSValue) : option Json :=
  match v with
  | JUndefined => None
  | JNull => Some JsonNull
  | JBoolean b => Some (JsonBool b)
  | JNum (JFinite q) => Some (JsonNumber (Qred q))
  | JNum JNaN | JNum (JInfinity _) => Some JsonNull
  | JString s => Some (JsonString s)
  | JArray xs =>
      Some (JsonArray
        ((fix elems (xs : list JSValue) : list Json :=
            match xs with
            | [] => []
            | x :: xs' =>
                match JSON_stringify x with
                | Some j => j :: elems xs'
                | None => JsonNull :: elems xs'
                end
            end) xs))
  | JObject ps =>
      Some (JsonObject
        ((fix members (ps : list (string * JSValue)) : list (string * Json) :=
            match ps with
            | [] => []
            | (k, x) :: ps' =>
                match JSON_stringify x with
                | Some j => (k, j) :: members ps'
                | None => members ps'
                end
            end) ps))
  end.

Fixpoint Json_eqb (a b : Json) {struct a} : bool :=
  match a, b with
  | JsonNull, JsonNull => true
  | JsonBool x, JsonBool y => Bool.eqb x y
  | JsonNumber x, JsonNumber y =>
      (Qnum x =? Qnum y)%Z && (Qden x =? Qden y)%positive
  | JsonString x, JsonString y => String.eqb x y
  | JsonArray xs, JsonArray ys =>
      (fix go (xs ys : list Json) : bool :=
         match xs, ys with
         | [], [] => true
         | x :: xs', y :: ys' => Json_eqb x y && go xs' ys'
         | _, _ => false
         end) xs ys
  | JsonObject ps, JsonObject qs =>
      (fix go (ps qs : list (string * Json)) : bool :=
         match ps, qs with
         | [], [] => true
         | (k, x) :: ps', (l, y) :: qs' =>
             String.eqb k l && Json_eqb x y && go ps' qs'
         | _, _ => false
         end) ps qs
  | _, _ => false
  end.

(** [JSON.stringify(a) !== JSON.stringify(b)] *)
Definition stringify_differs (a b : JSValue) : bool :=
  match JSON_stringify a, JSON_stringify b with
  | None, None => false
  | Some x, Some y => negb (Json_eqb x y)
  | _, _ => true
  end.

(** ** Shader sources

    The GLSL texts are the template literals of the source, character for
    character.  [PerspectiveProjection] and [StereographicProjection] are
    taken with their default constructor arguments, as [_initProjections]
    creates them: [viewDistance.toFixed(2)] is [2.50] and
    [baseProjectionPoleW.toFixed(2)] is [-1.50]. *)

Module GLSL.

Definition HypercubeGeometry : string :=
"
            // Uniforms used: u_dimension, u_time, u_morphFactor, u_gridDensity, u_lineThickness
            // u_universeModifier, u_audioBass, u_audioMid, u_audioHigh, u_rotationSpeed
            float calculateLattice(vec3 p) {
                float dynamicGridDensity = max(0.1, u_gridDensity * (1.0 + u_audioBass * 0.7));
                float dynamicLineThickness = max(0.002, u_lineThickness * (1.0 - u_audioMid * 0.6));

                vec3 p_grid3D = fract(p * dynamicGridDensity * 0.5 + u_time * 0.01);
                vec3 dist3D = abs(p_grid3D - 0.5);
                float box3D = max(dist3D.x, max(dist3D.y, dist3D.z));
                float lattice3D = smoothstep(0.5, 0.5 - dynamicLineThickness, box3D);

                float finalLattice = lattice3D;
                float dim_factor = smoothstep(3.0, 4.5, u_dimension);

                if (dim_factor > 0.01) {
                    float w_coord = sin(p.x*1.4 - p.y*0.7 + p.z*1.5 + u_time * 0.25)
                                  * cos(length(p) * 1.1 - u_time * 0.35 + u_audioMid * 2.5)
                                  * dim_factor * (0.4 + u_morphFactor * 0.6 + u_audioHigh * 0.6);

                    vec4 p4d = vec4(p, w_coord);
                    float baseSpeed = u_rotationSpeed * 1.0;
                    float time_rot1 = u_time * 0.33 * baseSpeed + u_audioHigh * 0.25 + u_morphFactor * 0.45;
                    float time_rot2 = u_time * 0.28 * baseSpeed - u_audioMid * 0.28;
                    float time_rot3 = u_time * 0.25 * baseSpeed + u_audioBass * 0.35;
                    p4d = rotXW(time_rot1) * rotYZ(time_rot2 * 1.1) * rotZW(time_rot3 * 0.9) * p4d;
                    p4d = rotYW(u_time * -0.22 * baseSpeed + u_morphFactor * 0.3) * p4d;

                    vec3 projectedP = project4Dto3D(p4d);
                    vec3 p_grid4D_proj = fract(projectedP * dynamicGridDensity * 0.5 + u_time * 0.015);
                    vec3 dist4D_proj = abs(p_grid4D_proj - 0.5);
                    float box4D_proj = max(dist4D_proj.x, max(dist4D_proj.y, dist4D_proj.z));
                    float lattice4D_proj = smoothstep(0.5, 0.5 - dynamicLineThickness, box4D_proj);
                    finalLattice = mix(lattice3D, lattice4D_proj, smoothstep(0.0, 1.0, u_morphFactor));
                }
                return pow(finalLattice, 1.0 / max(0.1, u_universeModifier));
            }
        ".

Definition HypersphereGeometry : string :=
"
            // Uniforms used: u_dimension, u_time, u_morphFactor, u_gridDensity, u_shellWidth
            // u_universeModifier, u_audioBass, u_audioMid, u_audioHigh, u_rotationSpeed
            float calculateLattice(vec3 p) {
                float radius3D = length(p);
                float densityFactor = max(0.1, u_gridDensity * 0.7 * (1.0 + u_audioBass * 0.5));
                float dynamicShellWidth = max(0.005, u_shellWidth * (1.0 + u_audioMid * 1.5));
                float phase = radius3D * densityFactor * 6.28318 - u_time * u_rotationSpeed * 0.8 + u_audioHigh * 3.0;
                float shells3D = 0.5 + 0.5 * sin(phase);
                shells3D = smoothstep(1.0 - dynamicShellWidth, 1.0, shells3D);

                float finalLattice = shells3D;
                float dim_factor = smoothstep(3.0, 4.5, u_dimension);

                if (dim_factor > 0.01) {
                    float w_coord = cos(radius3D * 2.5 - u_time * 0.55)
                                  * sin(p.x*1.0 + p.y*1.3 - p.z*0.7 + u_time*0.2)
                                  * dim_factor * (0.5 + u_morphFactor * 0.5 + u_audioMid * 0.5);

                    vec4 p4d = vec4(p, w_coord);
                    float baseSpeed = u_rotationSpeed * 0.85;
                    float time_rot1 = u_time * 0.38 * baseSpeed + u_audioHigh * 0.2;
                    float time_rot2 = u_time * 0.31 * baseSpeed + u_morphFactor * 0.6;
                    float time_rot3 = u_time * -0.24 * baseSpeed + u_audioBass * 0.25;
                    p4d = rotXW(time_rot1 * 1.05) * rotYZ(time_rot2) * rotYW(time_rot3 * 0.95) * p4d;

                    vec3 projectedP = project4Dto3D(p4d);
                    float radius4D_proj = length(projectedP);
                    float phase4D = radius4D_proj * densityFactor * 6.28318 - u_time * u_rotationSpeed * 0.8 + u_audioHigh * 3.0;
                    float shells4D_proj = 0.5 + 0.5 * sin(phase4D);
                    shells4D_proj = smoothstep(1.0 - dynamicShellWidth, 1.0, shells4D_proj);
                    finalLattice = mix(shells3D, shells4D_proj, smoothstep(0.0, 1.0, u_morphFactor));
                }
                return pow(max(0.0, finalLattice), max(0.1, u_universeModifier));
            }
        ".

Definition HypertetrahedronGeometry : string :=
"
            // Uniforms used: u_dimension, u_time, u_morphFactor, u_gridDensity, u_tetraThickness
            // u_universeModifier, u_audioBass, u_audioMid, u_audioHigh, u_rotationSpeed
            float calculateLattice(vec3 p) {
                float density = max(0.1, u_gridDensity * 0.65 * (1.0 + u_audioBass * 0.4));
                float dynamicThickness = max(0.003, u_tetraThickness * (1.0 - u_audioMid * 0.7));

                vec3 c1=normalize(vec3(1,1,1)), c2=normalize(vec3(-1,-1,1)), c3=normalize(vec3(-1,1,-1)), c4=normalize(vec3(1,-1,-1));
                vec3 p_mod3D = fract(p * density * 0.5 + 0.5 + u_time * 0.005) - 0.5;
                float d1=dot(p_mod3D, c1), d2=dot(p_mod3D, c2), d3=dot(p_mod3D, c3), d4=dot(p_mod3D, c4);
                float minDistToPlane3D = min(min(abs(d1), abs(d2)), min(abs(d3), abs(d4)));
                float lattice3D = 1.0 - smoothstep(0.0, dynamicThickness, minDistToPlane3D);

                float finalLattice = lattice3D;
                float dim_factor = smoothstep(3.0, 4.5, u_dimension);

                if (dim_factor > 0.01) {
                    float w_coord = cos(p.x*1.8 - p.y*1.5 + p.z*1.2 + u_time*0.24) * sin(length(p)*1.4 + u_time*0.18 - u_audioMid*2.0) * dim_factor * (0.45 + u_morphFactor*0.55 + u_audioHigh*0.4);
                    vec4 p4d = vec4(p, w_coord);
                    float baseSpeed = u_rotationSpeed * 1.15;
                    float time_rot1 = u_time*0.28*baseSpeed + u_audioHigh*0.25; 
                    float time_rot2 = u_time*0.36*baseSpeed - u_audioBass*0.2 + u_morphFactor*0.4; 
                    float time_rot3 = u_time*0.32*baseSpeed + u_audioMid*0.15;
                    p4d = rotXW(time_rot1*0.95) * rotYW(time_rot2*1.05) * rotZW(time_rot3) * p4d;
                    vec3 projectedP = project4Dto3D(p4d);

                    vec3 p_mod4D_proj = fract(projectedP * density * 0.5 + 0.5 + u_time * 0.008) - 0.5;
                    float dp1=dot(p_mod4D_proj,c1), dp2=dot(p_mod4D_proj,c2), dp3=dot(p_mod4D_proj,c3), dp4=dot(p_mod4D_proj,c4);
                    float minDistToPlane4D = min(min(abs(dp1), abs(dp2)), min(abs(dp3), abs(dp4)));
                    float lattice4D_proj = 1.0 - smoothstep(0.0, dynamicThickness, minDistToPlane4D);
                    finalLattice = mix(lattice3D, lattice4D_proj, smoothstep(0.0, 1.0, u_morphFactor));
                }
                return pow(max(0.0, finalLattice), max(0.1, u_universeModifier));
            }
        ".

Definition TorusGeometry : string :=
"
            float calculateLattice(vec3 p) {
                float density = max(0.1, u_gridDensity * 0.8 * (1.0 + u_audioBass * 0.6));
                vec3 p_mod = fract(p * density) - 0.5;
                float r1 = sqrt(p_mod.x*p_mod.x + p_mod.y*p_mod.y);
                float r2 = sqrt((r1 - 0.3)*(r1 - 0.3) + p_mod.z*p_mod.z);
                float torus = 1.0 - smoothstep(0.0, 0.1, r2);
                return pow(max(0.0, torus), max(0.1, u_universeModifier));
            }
        ".

Definition KleinGeometry : string :=
"
            float calculateLattice(vec3 p) {
                float density = max(0.1, u_gridDensity * 0.9 * (1.0 + u_audioBass * 0.5));
                vec3 q = fract(p * density);
                float u = q.x * 2.0 * 3.14159;
                float v = q.y * 2.0 * 3.14159;
                float x = cos(u) * (3.0 + cos(u/2.0) * sin(v) - sin(u/2.0) * sin(2.0*v));
                float klein = length(vec2(x, q.z)) - 0.1;
                return 1.0 - smoothstep(0.0, 0.05, abs(klein));
            }
        ".

Definition FractalGeometry : string :=
"
            float calculateLattice(vec3 p) {
                vec3 q = p * u_gridDensity;
                float scale = 1.0;
                float fractal = 0.0;
                for(int i = 0; i < 4; i++) {
                    q = fract(q) - 0.5;
                    fractal += abs(length(q)) / scale;
                    scale *= 2.0;
                    q *= 2.0;
                }
                return 1.0 - smoothstep(0.0, 1.0, fractal);
            }
        ".

Definition WaveGeometry : string :=
"
            float calculateLattice(vec3 p) {
                vec3 q = p * u_gridDensity;
                float wave = sin(q.x * 2.0) * sin(q.y * 2.0) * sin(q.z * 2.0 + u_time);
                return smoothstep(-0.5, 0.5, wave);
            }
        ".

Definition CrystalGeometry : string :=
"
            float calculateLattice(vec3 p) {
                vec3 q = fract(p * u_gridDensity) - 0.5;
                float d = max(max(abs(q.x), abs(q.y)), abs(q.z));
                return 1.0 - smoothstep(0.3, 0.5, d);
            }
        ".

Definition PerspectiveProjection : string :=
"vec3 project4Dto3D(vec4 p) { 
            float baseDistance = 2.50; 
            float dynamicDistance = max(0.2, baseDistance * (1.0 + u_morphFactor * 0.4 - u_audioMid * 0.35)); 
            float denominator = dynamicDistance + p.w; 
            float w_factor = dynamicDistance / max(0.1, denominator); 
            return p.xyz * w_factor; 
        }".

Definition OrthographicProjection : string :=
"vec3 project4Dto3D(vec4 p) { 
            vec3 orthoP = p.xyz; 
            float basePerspectiveDistance = 2.5; 
            float dynamicPerspectiveDistance = max(0.2, basePerspectiveDistance * (1.0 - u_audioMid * 0.4)); 
            float perspDenominator = dynamicPerspectiveDistance + p.w; 
            float persp_w_factor = dynamicPerspectiveDistance / max(0.1, perspDenominator); 
            vec3 perspP = p.xyz * persp_w_factor; 
            float morphT = smoothstep(0.0, 1.0, u_morphFactor); 
            return mix(orthoP, perspP, morphT); 
        }".

Definition StereographicProjection : string :=
"vec3 project4Dto3D(vec4 p) { 
            float basePoleW = -1.50; 
            float dynamicPoleW = sign(basePoleW) * max(0.1, abs(basePoleW + u_audioHigh * 0.4 * sign(basePoleW))); 
            float denominator = p.w - dynamicPoleW; 
            vec3 projectedP; 
            float epsilon = 0.001; 
            if (abs(denominator) < epsilon) { 
                projectedP = normalize(p.xyz + vec3(epsilon)) * 1000.0; 
            } else { 
                float scale = (-dynamicPoleW) / denominator; 
                projectedP = p.xyz * scale; 
            } 
            float morphT = smoothstep(0.0, 1.0, u_morphFactor * 0.8); 
            vec3 orthoP = p.xyz; 
            return mix(projectedP, orthoP, morphT); 
        }".

Definition baseVertexShaderSource : string :=
"attribute vec2 a_position; varying vec2 v_uv; void main() { v_uv = a_position * 0.5 + 0.5; gl_Position = vec4(a_position, 0.0, 1.0); }".

Definition baseFragmentShaderSource : string :=
"
            precision highp float;
            uniform vec2 u_resolution; uniform float u_time;
            uniform float u_dimension; uniform float u_morphFactor; uniform float u_rotationSpeed;
            uniform float u_universeModifier; uniform float u_patternIntensity; uniform float u_gridDensity;
            uniform float u_lineThickness; uniform float u_shellWidth; uniform float u_tetraThickness;
            uniform float u_audioBass; uniform float u_audioMid; uniform float u_audioHigh;
            uniform float u_glitchIntensity; uniform float u_colorShift;
            uniform vec3 u_primaryColor; uniform vec3 u_secondaryColor; uniform vec3 u_backgroundColor;
            varying vec2 v_uv;
            mat4 rotXW(float a){float c=cos(a),s=sin(a);return mat4(c,0,0,-s, 0,1,0,0, 0,0,1,0, s,0,0,c);} 
            mat4 rotYW(float a){float c=cos(a),s=sin(a);return mat4(1,0,0,0, 0,c,0,-s, 0,0,1,0, 0,s,0,c);} 
            mat4 rotZW(float a){float c=cos(a),s=sin(a);return mat4(1,0,0,0, 0,1,0,0, 0,0,c,-s, 0,0,s,c);} 
            mat4 rotXY(float a){float c=cos(a),s=sin(a);return mat4(c,-s,0,0, s,c,0,0, 0,0,1,0, 0,0,0,1);} 
            mat4 rotYZ(float a){float c=cos(a),s=sin(a);return mat4(1,0,0,0, 0,c,-s,0, 0,s,c,0, 0,0,0,1);} 
            mat4 rotXZ(float a){float c=cos(a),s=sin(a);return mat4(c,0,-s,0, 0,1,0,0, s,0,c,0, 0,0,0,1);}
            vec3 rgb2hsv(vec3 c){vec4 K=vec4(0.,-1./3.,2./3.,-1.);vec4 p=mix(vec4(c.bg,K.wz),vec4(c.gb,K.xy),step(c.b,c.g));vec4 q=mix(vec4(p.xyw,c.r),vec4(c.r,p.yzx),step(p.x,c.r));float d=q.x-min(q.w,q.y);float e=1e-10;return vec3(abs(q.z+(q.w-q.y)/(6.*d+e)),d/(q.x+e),q.x);} 
            vec3 hsv2rgb(vec3 c){vec4 K=vec4(1.,2./3.,1./3.,3.);vec3 p=abs(fract(c.xxx+K.xyz)*6.-K.www);return c.z*mix(K.xxx,clamp(p-K.xxx,0.,1.),c.y);}
            //__PROJECTION_CODE_INJECTION_POINT__
            //__GEOMETRY_CODE_INJECTION_POINT__
            void main() {
                vec2 aspect = vec2(u_resolution.x / u_resolution.y, 1.0); 
                vec2 uv = (v_uv * 2.0 - 1.0) * aspect;
                vec3 rayOrigin = vec3(0.0, 0.0, -2.5); 
                vec3 rayDirection = normalize(vec3(uv, 1.0));
                float camRotY = u_time * 0.05 * u_rotationSpeed + u_audioMid * 0.1; 
                float camRotX = sin(u_time * 0.03 * u_rotationSpeed) * 0.15 + u_audioHigh * 0.1;
                mat4 camMat = rotXY(camRotX) * rotYZ(camRotY); 
                rayDirection = (camMat * vec4(rayDirection, 0.0)).xyz;
                vec3 p = rayDirection * 1.5; 
                float latticeValue = calculateLattice(p);
                vec3 color = mix(u_backgroundColor, u_primaryColor, latticeValue);
                color = mix(color, u_secondaryColor, smoothstep(0.2, 0.7, u_audioMid) * latticeValue * 0.6);
                if (abs(u_colorShift) > 0.01) { 
                    vec3 hsv = rgb2hsv(color); 
                    hsv.x = fract(hsv.x + u_colorShift * 0.5 + u_audioHigh * 0.1); 
                    color = hsv2rgb(hsv); 
                }
                color *= (0.8 + u_patternIntensity * 0.7);
                color = pow(clamp(color, 0.0, 1.5), vec3(0.9));
                gl_FragColor = vec4(color, 1.0);
            }
        ".

Definition GEOMETRY_CODE_INJECTION_POINT : string :=
  "//__GEOMETRY_CODE_INJECTION_POINT__".
Definition PROJECTION_CODE_INJECTION_POINT : string :=
  "//__PROJECTION_CODE_INJECTION_POINT__".

End GLSL.

(** ** Geometry and projection strategies *)

(** What a call of [getShaderCode()] does: return a value or throw. *)
Class ShaderProvider (A : Type) := getShaderCode : A -> JSError + JSValue.

(** The objects [x] with [x instanceof BaseGeometry]: a bare
    [new BaseGeometry()], an instance of one of the eight classes of the
    file, or an instance of a subclass defined by a caller, whose
    [getShaderCode()] returns [code]. *)
Inductive BaseGeometry :=
| NewBaseGeometry
| HypercubeGeometry
| HypersphereGeometry
| HypertetrahedronGeometry
| TorusGeometry
| KleinGeometry
| FractalGeometry
| WaveGeometry
| CrystalGeometry
| GeometrySubclass (code : JSValue).

#[global] Instance BaseGeometry_provider : ShaderProvider BaseGeometry :=
  fun g =>
    match g with
    | NewBaseGeometry => inl (Error "getShaderCode() must be implemented.")
    | HypercubeGeometry => inr (JString GLSL.HypercubeGeometry)
    | HypersphereGeometry => inr (JString GLSL.HypersphereGeometry)
    | HypertetrahedronGeometry => inr (JString GLSL.HypertetrahedronGeometry)
    | TorusGeometry => inr (JString GLSL.TorusGeometry)
    | KleinGeometry => inr (JString GLSL.KleinGeometry)
    | FractalGeometry => inr (JString GLSL.FractalGeometry)
    | WaveGeometry => inr (JString GLSL.WaveGeometry)
    | CrystalGeometry => inr (JString GLSL.CrystalGeometry)
    | GeometrySubclass code => inr code
    end.

(** The objects [x] with [x instanceof BaseProjection]. *)
Inductive BaseProjection :=
| NewBaseProjection
| PerspectiveProjection
| OrthographicProjection
| StereographicProjection
| ProjectionSubclass (code : JSValue).

#[global] Instance BaseProjection_provider : ShaderProvider BaseProjection :=
  fun p =>
    match p with
    | NewBaseProjection => inl (Error "getShaderCode() must be implemented.")
    | PerspectiveProjection => inr (JString GLSL.PerspectiveProjection)
    | OrthographicProjection => inr (JString GLSL.OrthographicProjection)
    | StereographicProjection => inr (JString GLSL.StereographicProjection)
    | ProjectionSubclass code => inr code
    end.

(** The second argument of a registration: an instance of the role's base
    class, or any other value. *)
Inductive Registrant (T : Type) :=
| InstanceOf (obj : T)
| NotAnInstance (v : JSValue).

Arguments InstanceOf {T} obj.
Arguments NotAnInstance {T} v.

(** [name ? name.toLowerCase() : fallback]: a truthy value that is not a
    string has no [toLowerCase] method. *)
Definition lowerCaseName_or (name : JSValue) (fallback : string) : JSError + string :=
  if JS.truthy name then
    match name with
    | JString s => inr (JSString.toLowerCase s)
    | _ => inl (TypeError "name.toLowerCase is not a function")
    end
  else inr fallback.

(** ** GeometryManager *)

Record GeometryManager := {
  defaultGeometry : string;                 (* options.defaultGeometry *)
  geometries : gmap string BaseGeometry
}.

Definition registerGeometry (name : string) (instance : Registrant BaseGeometry)
    (this : GeometryManager) : GeometryManager :=
  let lowerCaseName := JSString.toLowerCase name in
  match instance with
  | NotAnInstance _ => this
  | InstanceOf g =>
      {| defaultGeometry := defaultGeometry this;
         geometries := <[lowerCaseName := g]> (geometries this) |}
  end.

Definition _initGeometries (this : GeometryManager) : GeometryManager :=
  registerGeometry "crystal" (InstanceOf CrystalGeometry)
  (registerGeometry "wave" (InstanceOf WaveGeometry)
  (registerGeometry "fractal" (InstanceOf FractalGeometry)
  (registerGeometry "klein" (InstanceOf KleinGeometry)
  (registerGeometry "torus" (InstanceOf TorusGeometry)
  (registerGeometry "hypertetrahedron" (InstanceOf HypertetrahedronGeometry)
  (registerGeometry "hypersphere" (InstanceOf HypersphereGeometry)
  (registerGeometry "hypercube" (InstanceOf HypercubeGeometry) this))))))).

(** [new GeometryManager(options)]; [None] is the default option. *)
Definition new_GeometryManager (option_defaultGeometry : option string) : GeometryManager :=
  _initGeometries
    {| defaultGeometry := default "hypercube" option_defaultGeometry;
       geometries := ∅ |}.

(** [getGeometry(name)]: the result is the registered instance, or the
    default one after a warning, or [undefined] ([None]) when the default
    is not registered either. *)
Definition getGeometry (name : JSValue) (this : GeometryManager)
    : JSError + option BaseGeometry :=
  match lowerCaseName_or name (defaultGeometry this) with
  | inl e => inl e
  | inr lowerCaseName =>
      match geometries this !! lowerCaseName with
      | Some geometry => inr (Some geometry)
      | None => inr (geometries this !! JSString.toLowerCase (defaultGeometry this))
      end
  end.

(** ** ProjectionManager *)

Record ProjectionManager := {
  defaultProjection : string;               (* options.defaultProjection *)
  projections : gmap string BaseProjection
}.

Definition registerProjection (name : string) (instance : Registrant BaseProjection)
    (this : ProjectionManager) : ProjectionManager :=
  let lowerCaseName := JSString.toLowerCase name in
  match instance with
  | NotAnInstance _ => this
  | InstanceOf p =>
      {| defaultProjection := defaultProjection this;
         projections := <[lowerCaseName := p]> (projections this) |}
  end.

Definition _initProjections (this : ProjectionManager) : ProjectionManager :=
  registerProjection "stereographic" (InstanceOf StereographicProjection)
  (registerProjection "orthographic" (InstanceOf OrthographicProjection)
  (registerProjection "perspective" (InstanceOf PerspectiveProjection) this)).

Definition new_ProjectionManager (option_defaultProjection : option string) : ProjectionManager :=
  _initProjections
    {| defaultProjection := default "perspective" option_defaultProjection;
       projections := ∅ |}.

Definition getProjection (name : JSValue) (this : ProjectionManager)
    : JSError + option BaseProjection :=
  match lowerCaseName_or name (defaultProjection this) with
  | inl e => inl e
  | inr lowerCaseName =>
      match projections this !! lowerCaseName with
      | Some projection => inr (Some projection)
      | None => inr (projections this !! JSString.toLowerCase (defaultProjection this))
      end
  end.

(** ** The WebGL context

    The context object of the canvas, as far as the core drives it.  What
    the GPU driver decides (whether a source compiles, whether two stages
    link, which uniforms and attributes survive linking) is a [Driver]. *)

Inductive ShaderType := VERTEX_SHADER | FRAGMENT_SHADER.

Record Driver := {
  compiles : ShaderType -> string -> bool;
  links : string -> string -> bool;            (* vertex source, fragment source *)
  activeUniform : string -> string -> bool;    (* fragment source, uniform name *)
  activeAttribute : string -> string -> option nat  (* vertex source, attribute name *)
}.

Record WebGLShader := {
  shaderType : ShaderType;
  source : string;
  COMPILE_STATUS : bool
}.

Record WebGLProgram := {
  attachedShaders : list nat;
  LINK_STATUS : bool;
  linkedVertexSource : string;
  linkedFragmentSource : string
}.

(** A [WebGLUniformLocation]: a slot of one linked program. *)
Record WebGLUniformLocation := {
  ofProgram : nat;
  uniformName : string
}.

(** The calls that change GPU state or draw. *)
Inductive GLCall :=
| CreateShader (shader : nat)
| ShaderSource (shader : nat) (text : string)
| CompileShader (shader : nat)
| DeleteShader (shader : nat)
| CreateProgram (program : nat)
| AttachShader (program shader : nat)
| DetachShader (program shader : nat)
| LinkProgram (program : nat)
| DeleteProgram (program : nat)
| UseProgram (program : option nat)
| Uniform (location : WebGLUniformLocation) (value : JSValue)
| EnableVertexAttribArray (index : nat)
| ClearColor (background : JSValue)
| Clear
| Viewport (w h : Z)
| Enable (capability : string)
| Disable (capability : string)
| BlendFunc
| CreateBuffer (buffer : nat)
| BindBuffer (buffer : option nat)
| BufferData
| VertexAttribPointer (index : nat)
| DrawArrays.

Record WebGLContext := {
  driver : Driver;
  contextLost : bool;                          (* isContextLost() *)
  nextName : nat;                              (* next fresh object name *)
  shaders : gmap nat WebGLShader;              (* live shader objects *)
  glPrograms : gmap nat WebGLProgram;          (* live program objects *)
  CURRENT_PROGRAM : option nat;
  calls : list GLCall                          (* oldest first *)
}.

Module GL.

Definition log (c : GLCall) (gl : WebGLContext) : WebGLContext :=
  {| driver := driver gl; contextLost := contextLost gl; nextName := nextName gl;
     shaders := shaders gl; glPrograms := glPrograms gl;
     CURRENT_PROGRAM := CURRENT_PROGRAM gl; calls := calls gl ++ [c] |}.

Definition with_shaders (f : gmap nat WebGLShader -> gmap nat WebGLShader)
    (gl : WebGLContext) : WebGLContext :=
  {| driver := driver gl; contextLost := contextLost gl; nextName := nextName gl;
     shaders := f (shaders gl); glPrograms := glPrograms gl;
     CURRENT_PROGRAM := CURRENT_PROGRAM gl; calls := calls gl |}.

Definition with_programs (f : gmap nat WebGLProgram -> gmap nat WebGLProgram)
    (gl : WebGLContext) : WebGLContext :=
  {| driver := driver gl; contextLost := contextLost gl; nextName := nextName gl;
     shaders := shaders gl; glPrograms := f (glPrograms gl);
     CURRENT_PROGRAM := CURRENT_PROGRAM gl; calls := calls gl |}.

Definition fresh (gl : WebGLContext) : WebGLContext :=
  {| driver := driver gl; contextLost := contextLost gl; nextName := S (nextName gl);
     shaders := shaders gl; glPrograms := glPrograms gl;
     CURRENT_PROGRAM := CURRENT_PROGRAM gl; calls := calls gl |}.

(** [gl.createShader(type)]: [null] on a lost context. *)
Definition createShader (type : ShaderType) (gl : WebGLContext)
    : option nat * WebGLContext :=
  if contextLost gl then (None, gl)
  else
    let h := nextName gl in
    (Some h,
     log (CreateShader h)
       (with_shaders (insert h {| shaderType := type; source := ""; COMPILE_STATUS := false |})
          (fresh gl))).

Definition shaderSource (h : nat) (src : string) (gl : WebGLContext) : WebGLContext :=
  log (ShaderSource h src)
    (with_shaders (alter (fun s => {| shaderType := shaderType s; source := src;
                                      COMPILE_STATUS := COMPILE_STATUS s |}) h) gl).

Definition compileShader (h : nat) (gl : WebGLContext) : WebGLContext :=
  log (CompileShader h)
    (with_shaders (alter (fun s => {| shaderType := shaderType s; source := source s;
                                      COMPILE_STATUS := compiles (driver gl) (shaderType s) (source s) |}) h) gl).

(** [gl.getShaderParameter(shader, gl.COMPILE_STATUS)] *)
Definition getShaderCompileStatus (h : nat) (gl : WebGLContext) : bool :=
  match shaders gl !! h with Some s => COMPILE_STATUS s | None => false end.

Definition deleteShader (h : nat) (gl : WebGLContext) : WebGLContext :=
  log (DeleteShader h) (with_shaders (delete h) gl).

(** [gl.createProgram()]: [null] on a lost context. *)
Definition createProgram (gl : WebGLContext) : option nat * WebGLContext :=
  if contextLost gl then (None, gl)
  else
    let h := nextName gl in
    (Some h,
     log (CreateProgram h)
       (with_programs (insert h {| attachedShaders := []; LINK_STATUS := false;
                                   linkedVertexSource := ""; linkedFragmentSource := "" |})
          (fresh gl))).

Definition attachShader (p s : nat) (gl : WebGLContext) : WebGLContext :=
  log (AttachShader p s)
    (with_programs (alter (fun pr => {| attachedShaders := attachedShaders pr ++ [s];
                                        LINK_STATUS := LINK_STATUS pr;
                                        linkedVertexSource := linkedVertexSource pr;
                                        linkedFragmentSource := linkedFragmentSource pr |}) p) gl).

Definition detachShader (p s : nat) (gl : WebGLContext) : WebGLContext :=
  log (DetachShader p s)
    (with_programs (alter (fun pr => {| attachedShaders := List.filter (fun x => negb (x =? s)%nat) (attachedShaders pr);
                                        LINK_STATUS := LINK_STATUS pr;
                                        linkedVertexSource := linkedVertexSource pr;
                                        linkedFragmentSource := linkedFragmentSource pr |}) p) gl).

(** [gl.getAttachedShaders(program)] *)
Definition getAttachedShaders (p : nat) (gl : WebGLContext) : list nat :=
  match glPrograms gl !! p with Some pr => attachedShaders pr | None => [] end.

(** The source of the attached compiled stage of the given type. *)
Definition stage_source (type : ShaderType) (gl : WebGLContext) (hs : list nat)
    : option string :=
  match List.find (fun h =>
          match shaders gl !! h with
          | Some s => COMPILE_STATUS s &&
                      match shaderType s, type with
                      | VERTEX_SHADER, VERTEX_SHADER
                      | FRAGMENT_SHADER, FRAGMENT_SHADER => true
                      | _, _ => false
                      end
          | None => false
          end) hs with
  | Some h => source <$> shaders gl !! h
  | None => None
  end.

(** [gl.linkProgram(program)]: linking needs one compiled stage of each
    type and the driver's consent. *)
Definition linkProgram (p : nat) (gl : WebGLContext) : WebGLContext :=
  log (LinkProgram p)
    (with_programs (alter (fun pr =>
        match stage_source VERTEX_SHADER gl (attachedShaders pr),
              stage_source FRAGMENT_SHADER gl (attachedShaders pr) with
        | Some vs, Some fs =>
            {| attachedShaders := attachedShaders pr;
               LINK_STATUS := links (driver gl) vs fs;
               linkedVertexSource := vs; linkedFragmentSource := fs |}
        | _, _ =>
            {| attachedShaders := attachedShaders pr; LINK_STATUS := false;
               linkedVertexSource := ""; linkedFragmentSource := "" |}
        end) p) gl).

(** [gl.getProgramParameter(program, gl.LINK_STATUS)] *)
Definition getProgramLinkStatus (p : nat) (gl : WebGLContext) : bool :=
  match glPrograms gl !! p with Some pr => LINK_STATUS pr | None => false end.

Definition deleteProgram (p : nat) (gl : WebGLContext) : WebGLContext :=
  log (DeleteProgram p) (with_programs (delete p) gl).

Definition useProgram (p : option nat) (gl : WebGLContext) : WebGLContext :=
  log (UseProgram p)
    {| driver := driver gl; contextLost := contextLost gl; nextName := nextName gl;
       shaders := shaders gl; glPrograms := glPrograms gl;
       CURRENT_PROGRAM := p; calls := calls gl |}.

(** [gl.createBuffer()]: [null] on a lost context. *)
Definition createBuffer (gl : WebGLContext) : option nat * WebGLContext :=
  if contextLost gl then (None, gl)
  else let h := nextName gl in (Some h, log (CreateBuffer h) (fresh gl)).

(** [gl.getUniformLocation(program, name)]: [null] unless the program is
    linked and the uniform is active in it. *)
Definition getUniformLocation (p : nat) (name : string) (gl : WebGLContext)
    : option WebGLUniformLocation :=
  match glPrograms gl !! p with
  | Some pr =>
      if LINK_STATUS pr && activeUniform (driver gl) (linkedFragmentSource pr) name
      then Some {| ofProgram := p; uniformName := name |}
      else None
  | None => None
  end.

(** [gl.getAttribLocation(program, name)]: [None] is [-1]. *)
Definition getAttribLocation (p : nat) (name : string) (gl : WebGLContext)
    : option nat :=
  match glPrograms gl !! p with
  | Some pr =>
      if LINK_STATUS pr then activeAttribute (driver gl) (linkedVertexSource pr) name
      else None
  | None => None
  end.

End GL.

(** ** ShaderManager *)

Record ShaderManager := {
  baseVertexShaderName : string;              (* options.baseVertexShaderName *)
  baseFragmentShaderName : string;            (* options.baseFragmentShaderName *)
  shaderSources : gmap string (string * ShaderType);
  compiledShaders : gmap string (option nat);           (* [None] is a stored null *)
  programs : gmap string (option nat);                  (* [None] is a stored null *)
  uniformLocations : gmap string (gmap string (option WebGLUniformLocation));
  attributeLocations : gmap string (gmap string (option nat));
  currentProgramName : option string                    (* [None] is null *)
}.

(** ** The core and its host

    One [HypercubeCore] together with what it shares with its host: the
    WebGL context of its canvas (the object behind [this.gl] and
    [this.shaderManager.gl]), the canvas sizes, the pending animation
    frames and timers, and the calls made to [state.callbacks].

    [this.state] is split in three: [state] holds its data properties,
    [_dirtyUniforms] the [Set] stored under that name, and the two
    callbacks are observed through [callbackLog].  The managers referenced
    from both the core and the shader manager are the same objects, hence
    single fields here. *)

Record Canvas := {
  width : Z; height : Z; clientWidth : Z; clientHeight : Z
}.

(** The closures given to [setTimeout] by [_attemptContextRecovery]. *)
Inductive Timer :=
| RecoveryTimer      (* the 500 ms closure that reacquires the context *)
| RetryTimer.        (* the 1000 ms closure [() => this._attemptContextRecovery()] *)

Record Scheduler := {
  nextRequestId : Z;               (* next id of requestAnimationFrame *)
  animationFrames : list Z;        (* requested frames of [_render], not yet run *)
  timeouts : list Timer            (* pending timers *)
}.

Inductive CallbackCall :=
| OnError (e : JSError)            (* state.callbacks.onError?.(e) *)
| OnRender.                        (* state.callbacks.onRender?.(state) *)

Record World := {
  state : gmap string JSValue;
  _dirtyUniforms : list string;
  gl : bool;                       (* [this.gl] is the context ([true]) or null *)
  shaderManager : ShaderManager;
  geometryManager : GeometryManager;
  projectionManager : ProjectionManager;
  quadBuffer : option nat;
  aPositionLoc : option Z;         (* [None] is null *)
  context : WebGLContext;
  canvas : Canvas;
  scheduler : Scheduler;
  callbackLog : list CallbackCall  (* oldest first *)
}.

Definition upd_shaderSources (f : gmap string (string * ShaderType) -> gmap string (string * ShaderType)) (this : ShaderManager) : ShaderManager :=
  {| baseVertexShaderName := baseVertexShaderName this;
     baseFragmentShaderName := baseFragmentShaderName this;
     shaderSources := f (shaderSources this);
     compiledShaders := compiledShaders this; programs := programs this;
     uniformLocations := uniformLocations this;
     attributeLocations := attributeLocations this;
     currentProgramName := currentProgramName this |}.

Definition upd_compiledShaders (f : gmap string (option nat) -> gmap string (option nat)) (this : ShaderManager) : ShaderManager :=
  {| baseVertexShaderName := baseVertexShaderName this;
     baseFragmentShaderName := baseFragmentShaderName this;
     shaderSources := shaderSources this;
     compiledShaders := f (compiledShaders this); programs := programs this;
     uniformLocations := uniformLocations this;
     attributeLocations := attributeLocations this;
     currentProgramName := currentProgramName this |}.

Definition upd_programs (f : gmap string (option nat) -> gmap string (option nat)) (this : ShaderManager) : ShaderManager :=
  {| baseVertexShaderName := baseVertexShaderName this;
     baseFragmentShaderName := baseFragmentShaderName this;
     shaderSources := shaderSources this;
     compiledShaders := compiledShaders this; programs := f (programs this);
     uniformLocations := uniformLocations this;
     attributeLocations := attributeLocations this;
     currentProgramName := currentProgramName this |}.

Definition upd_uniformLocations (f : gmap string (gmap string (option WebGLUniformLocation)) -> gmap string (gmap string (option WebGLUniformLocation))) (this : ShaderManager) : ShaderManager :=
  {| baseVertexShaderName := baseVertexShaderName this;
     baseFragmentShaderName := baseFragmentShaderName this;
     shaderSources := shaderSources this;
     compiledShaders := compiledShaders this; programs := programs this;
     uniformLocations := f (uniformLocations this);
     attributeLocations := attributeLocations this;
     currentProgramName := currentProgramName this |}.

Definition upd_attributeLocations (f : gmap string (gmap string (option nat)) -> gmap string (gmap string (option nat))) (this : ShaderManager) : ShaderManager :=
  {| baseVertexShaderName := baseVertexShaderName this;
     baseFragmentShaderName := baseFragmentShaderName this;
     shaderSources := shaderSources this;
     compiledShaders := compiledShaders this; programs := programs this;
     uniformLocations := uniformLocations this;
     attributeLocations := f (attributeLocations this);
     currentProgramName := currentProgramName this |}.

Definition upd_currentProgramName (f : option string -> option string) (this : ShaderManager) : ShaderManager :=
  {| baseVertexShaderName := baseVertexShaderName this;
     baseFragmentShaderName := baseFragmentShaderName this;
     shaderSources := shaderSources this;
     compiledShaders := compiledShaders this; programs := programs this;
     uniformLocations := uniformLocations this;
     attributeLocations := attributeLocations this;
     currentProgramName := f (currentProgramName this) |}.

Definition upd_state (f : gmap string JSValue -> gmap string JSValue) (w : World) : World :=
  {| state := f (state w); _dirtyUniforms := _dirtyUniforms w; gl := gl w;
     shaderManager := shaderManager w; geometryManager := geometryManager w;
     projectionManager := projectionManager w; quadBuffer := quadBuffer w;
     aPositionLoc := aPositionLoc w; context := context w;
     canvas := canvas w; scheduler := scheduler w;
     callbackLog := callbackLog w |}.

Definition upd__dirtyUniforms (f : list string -> list string) (w : World) : World :=
  {| state := state w; _dirtyUniforms := f (_dirtyUniforms w); gl := gl w;
     shaderManager := shaderManager w; geometryManager := geometryManager w;
     projectionManager := projectionManager w; quadBuffer := quadBuffer w;
     aPositionLoc := aPositionLoc w; context := context w;
     canvas := canvas w; scheduler := scheduler w;
     callbackLog := callbackLog w |}.

Definition upd_gl (f : bool -> bool) (w : World) : World :=
  {| state := state w; _dirtyUniforms := _dirtyUniforms w; gl := f (gl w);
     shaderManager := shaderManager w; geometryManager := geometryManager w;
     projectionManager := projectionManager w; quadBuffer := quadBuffer w;
     aPositionLoc := aPositionLoc w; context := context w;
     canvas := canvas w; scheduler := scheduler w;
     callbackLog := callbackLog w |}.

Definition upd_shaderManager (f : ShaderManager -> ShaderManager) (w : World) : World :=
  {| state := state w; _dirtyUniforms := _dirtyUniforms w; gl := gl w;
     shaderManager := f (shaderManager w);
     geometryManager := geometryManager w;
     projectionManager := projectionManager w; quadBuffer := quadBuffer w;
     aPositionLoc := aPositionLoc w; context := context w;
     canvas := canvas w; scheduler := scheduler w;
     callbackLog := callbackLog w |}.

Definition upd_geometryManager (f : GeometryManager -> GeometryManager) (w : World) : World :=
  {| state := state w; _dirtyUniforms := _dirtyUniforms w; gl := gl w;
     shaderManager := shaderManager w;
     geometryManager := f (geometryManager w);
     projectionManager := projectionManager w; quadBuffer := quadBuffer w;
     aPositionLoc := aPositionLoc w; context := context w;
     canvas := canvas w; scheduler := scheduler w;
     callbackLog := callbackLog w |}.

Definition upd_projectionManager (f : ProjectionManager -> ProjectionManager) (w : World) : World :=
  {| state := state w; _dirtyUniforms := _dirtyUniforms w; gl := gl w;
     shaderManager := shaderManager w; geometryManager := geometryManager w;
     projectionManager := f (projectionManager w);
     quadBuffer := quadBuffer w; aPositionLoc := aPositionLoc w;
     context := context w; canvas := canvas w; scheduler := scheduler w;
     callbackLog := callbackLog w |}.

Definition upd_quadBuffer (f : option nat -> option nat) (w : World) : World :=
  {| state := state w; _dirtyUniforms := _dirtyUniforms w; gl := gl w;
     shaderManager := shaderManager w; geometryManager := geometryManager w;
     projectionManager := projectionManager w;
     quadBuffer := f (quadBuffer w); aPositionLoc := aPositionLoc w;
     context := context w; canvas := canvas w; scheduler := scheduler w;
     callbackLog := callbackLog w |}.

Definition upd_aPositionLoc (f : option Z -> option Z) (w : World) : World :=
  {| state := state w; _dirtyUniforms := _dirtyUniforms w; gl := gl w;
     shaderManager := shaderManager w; geometryManager := geometryManager w;
     projectionManager := projectionManager w; quadBuffer := quadBuffer w;
     aPositionLoc := f (aPositionLoc w); context := context w;
     canvas := canvas w; scheduler := scheduler w;
     callbackLog := callbackLog w |}.

Definition upd_context (f : WebGLContext -> WebGLContext) (w : World) : World :=
  {| state := state w; _dirtyUniforms := _dirtyUniforms w; gl := gl w;
     shaderManager := shaderManager w; geometryManager := geometryManager w;
     projectionManager := projectionManager w; quadBuffer := quadBuffer w;
     aPositionLoc := aPositionLoc w; context := f (context w);
     canvas := canvas w; scheduler := scheduler w;
     callbackLog := callbackLog w |}.

Definition upd_canvas (f : Canvas -> Canvas) (w : World) : World :=
  {| state := state w; _dirtyUniforms := _dirtyUniforms w; gl := gl w;
     shaderManager := shaderManager w; geometryManager := geometryManager w;
     projectionManager := projectionManager w; quadBuffer := quadBuffer w;
     aPositionLoc := aPositionLoc w; context := context w;
     canvas := f (canvas w); scheduler := scheduler w;
     callbackLog := callbackLog w |}.

Definition upd_scheduler (f : Scheduler -> Scheduler) (w : World) : World :=
  {| state := state w; _dirtyUniforms := _dirtyUniforms w; gl := gl w;
     shaderManager := shaderManager w; geometryManager := geometryManager w;
     projectionManager := projectionManager w; quadBuffer := quadBuffer w;
     aPositionLoc := aPositionLoc w; context := context w;
     canvas := canvas w; scheduler := f (scheduler w);
     callbackLog := callbackLog w |}.

Definition upd_callbackLog (f : list CallbackCall -> list CallbackCall) (w : World) : World :=
  {| state := state w; _dirtyUniforms := _dirtyUniforms w; gl := gl w;
     shaderManager := shaderManager w; geometryManager := geometryManager w;
     projectionManager := projectionManager w; quadBuffer := quadBuffer w;
     aPositionLoc := aPositionLoc w; context := context w;
     canvas := canvas w; scheduler := scheduler w;
     callbackLog := f (callbackLog w) |}.

(** ** Computations of the core

    A method runs on a [World] and returns, throws, or leaves the fragment
    of JavaScript that is embedded ([Unsupported]: a numeric or string
    coercion of an object, or of a string to a number). *)

Inductive Outcome (A : Type) :=
| Returns (a : A) (w : World)
| Throws (e : JSError) (w : World)
| Unsupported.

Arguments Returns {A} a w.
Arguments Throws {A} e w.
Arguments Unsupported {A}.

Definition M (A : Type) : Type := World -> Outcome A.

Definition ret {A} (a : A) : M A := fun w => Returns a w.

Definition bind {A B} (m : M A) (k : A -> M B) : M B :=
  fun w =>
    match m w with
    | Returns a w' => k a w'
    | Throws e w' => Throws e w'
    | Unsupported => Unsupported
    end.

Definition throw {A} (e : JSError) : M A := fun w => Throws e w.

Definition unsupported {A} : M A := fun _ => Unsupported.

(** [try { m } catch (e) { h e }] *)
Definition try_catch {A} (m : M A) (h : JSError -> M A) : M A :=
  fun w =>
    match m w with
    | Returns a w' => Returns a w'
    | Throws e w' => h e w'
    | Unsupported => Unsupported
    end.

Definition gets {A} (f : World -> A) : M A := fun w => Returns (f w) w.

Definition modify (f : World -> World) : M unit := fun w => Returns tt (f w).

Definition lift_sum {A} (r : JSError + A) : M A :=
  match r with inl e => throw e | inr a => ret a end.

Declare Scope js_scope.
Delimit Scope js_scope with js.

Notation "'let*' x ':=' m 'in' k" := (bind m (fun x => k))
  (at level 10, x name, m at level 100, k at level 200) : js_scope.
Notation "m ';;' k" := (bind m (fun _ => k))
  (at level 100, k at level 200, right associativity) : js_scope.

Local Open Scope js_scope.

(** A call on the context that returns a value. *)
Definition gl_call {A} (f : WebGLContext -> A * WebGLContext) : M A :=
  fun w => let r := f (context w) in Returns (fst r) (upd_context (fun _ => snd r) w).

Definition gl_do (f : WebGLContext -> WebGLContext) : M unit :=
  modify (upd_context f).

Definition gl_read {A} (f : WebGLContext -> A) : M A :=
  gets (fun w => f (context w)).

Definition sm_modify (f : ShaderManager -> ShaderManager) : M unit :=
  modify (upd_shaderManager f).

(** ** ShaderManager methods *)

Module ShaderManagerMethods.

Definition _registerShaderSource (name source : string) (type : ShaderType)
    (this : ShaderManager) : ShaderManager :=
  upd_shaderSources (insert name (source, type)) this.

(** [new ShaderManager(gl, geometryManager, projectionManager, options)]:
    each flag says whether the argument was passed non-null; the two names
    are the merged options. *)
Definition new_ShaderManager (gl geometryManager projectionManager : bool)
    (option_baseVertexShaderName option_baseFragmentShaderName : option string)
    : JSError + ShaderManager :=
  if negb gl then inl (Error "WebGL context needed.")
  else if negb geometryManager then inl (Error "GeometryManager needed.")
  else if negb projectionManager then inl (Error "ProjectionManager needed.")
  else
    let vsName := default "base-vertex" option_baseVertexShaderName in
    let fsName := default "base-fragment" option_baseFragmentShaderName in
    inr (_registerShaderSource fsName GLSL.baseFragmentShaderSource FRAGMENT_SHADER
          (_registerShaderSource vsName GLSL.baseVertexShaderSource VERTEX_SHADER
             {| baseVertexShaderName := vsName;
                baseFragmentShaderName := fsName;
                shaderSources := ∅; compiledShaders := ∅; programs := ∅;
                uniformLocations := ∅; attributeLocations := ∅;
                currentProgramName := None |})).

Definition _compileShader (shaderIdentifier source : string) (type : ShaderType)
    : M (option nat) :=
  let* this := gets shaderManager in
  match compiledShaders this !! shaderIdentifier with
  | Some (Some shader) => ret (Some shader)
  | _ =>
      let* created := gl_call (GL.createShader type) in
      match created with
      | None =>
          sm_modify (upd_compiledShaders (insert shaderIdentifier None));;
          ret None
      | Some shader =>
          gl_do (GL.shaderSource shader source);;
          gl_do (GL.compileShader shader);;
          let* ok := gl_read (GL.getShaderCompileStatus shader) in
          if negb ok then
            gl_do (GL.deleteShader shader);;
            sm_modify (upd_compiledShaders (insert shaderIdentifier None));;
            ret None
          else
            sm_modify (upd_compiledShaders (insert shaderIdentifier (Some shader)));;
            ret (Some shader)
      end
  end.

Definition _createProgram (programName : string) (vertexShader fragmentShader : nat)
    : M (option nat) :=
  let* this := gets shaderManager in
  (match programs this !! programName with
   | Some (Some old) =>
       let* attached := gl_read (GL.getAttachedShaders old) in
       gl_do (fun gl => fold_left (fun gl s => GL.detachShader old s gl) attached gl);;
       gl_do (GL.deleteProgram old);;
       sm_modify (upd_programs (delete programName));;
       sm_modify (upd_uniformLocations (delete programName));;
       sm_modify (upd_attributeLocations (delete programName))
   | _ => ret tt
   end);;
  let* created := gl_call GL.createProgram in
  match created with
  | None => ret None
  | Some program =>
      gl_do (GL.attachShader program vertexShader);;
      gl_do (GL.attachShader program fragmentShader);;
      gl_do (GL.linkProgram program);;
      let* linked := gl_read (GL.getProgramLinkStatus program) in
      if negb linked then
        gl_do (GL.detachShader program vertexShader);;
        gl_do (GL.detachShader program fragmentShader);;
        gl_do (GL.deleteProgram program);;
        sm_modify (upd_programs (insert programName None));;
        ret None
      else
        sm_modify (upd_programs (insert programName (Some program)));;
        sm_modify (upd_uniformLocations (insert programName ∅));;
        sm_modify (upd_attributeLocations (insert programName ∅));;
        ret (Some program)
  end.

(** The text a template literal gives for a strategy name.  A name that
    reaches the shader identifier is a string or a falsy value (a truthy
    value of another type has made the lookup throw before). *)
Definition templateText (v : JSValue) : option string :=
  match v with
  | JString s => Some s
  | JUndefined => Some "undefined"
  | JNull => Some "null"
  | JBoolean b => Some (if b then "true" else "false")
  | JNum JNaN => Some "NaN"
  | JNum (JFinite q) => if Qeq_bool q 0 then Some "0" else None
  | JNum (JInfinity _) | JArray _ | JObject _ => None
  end.

Definition asString (v : JSValue) : option string :=
  match v with JString s => Some s | _ => None end.

Definition createDynamicProgram (programName : string)
    (geometryTypeName projectionMethodName : JSValue) : M (option nat) :=
  let* this := gets shaderManager in
  let vsName := baseVertexShaderName this in
  match shaderSources this !! vsName with
  | None => ret None
  | Some (vsSource, vsType) =>
      let* vs := _compileShader vsName vsSource vsType in
      match vs with
      | None => ret None
      | Some vs =>
          let* geom := bind (gets geometryManager)
                         (fun gm => lift_sum (getGeometry geometryTypeName gm)) in
          let* proj := bind (gets projectionManager)
                         (fun pm => lift_sum (getProjection projectionMethodName pm)) in
          match geom, proj with
          | Some geom, Some proj =>
              let* geomGLSL := lift_sum (getShaderCode geom) in
              let* projGLSL := lift_sum (getShaderCode proj) in
              match asString geomGLSL, asString projGLSL with
              | Some geomGLSL, Some projGLSL =>
                  if negb (JSString.includes geomGLSL "calculateLattice") then ret None
                  else if negb (JSString.includes projGLSL "project4Dto3D") then ret None
                  else
                    let fsName := baseFragmentShaderName this in
                    match shaderSources this !! fsName with
                    | None => ret None
                    | Some (fsTemplate, fsType) =>
                        let fsSource := JSString.replace fsTemplate GLSL.GEOMETRY_CODE_INJECTION_POINT geomGLSL in
                        let fsSource := JSString.replace fsSource GLSL.PROJECTION_CODE_INJECTION_POINT projGLSL in
                        if JSString.includes fsSource GLSL.GEOMETRY_CODE_INJECTION_POINT
                           || JSString.includes fsSource GLSL.PROJECTION_CODE_INJECTION_POINT
                        then ret None
                        else
                          match templateText geometryTypeName, templateText projectionMethodName with
                          | Some g, Some p =>
                              let fsId := "fragment-" +:+ g +:+ "-" +:+ p in
                              let* fs := _compileShader fsId fsSource fsType in
                              match fs with
                              | None => ret None
                              | Some fs =>
                                  let* newProg := _createProgram programName vs fs in
                                  let* this' := gets shaderManager in
                                  (if bool_decide (currentProgramName this' = Some programName) then
                                     match newProg with
                                     | Some p => gl_do (GL.useProgram (Some p))
                                     | None =>
                                         gl_do (GL.useProgram None);;
                                         sm_modify (upd_currentProgramName (fun _ => None))
                                     end
                                   else ret tt);;
                                  ret newProg
                              end
                          | _, _ => unsupported
                          end
                    end
              | _, _ => ret None
              end
          | _, _ => ret None
          end
      end
  end.

(** [useProgram(programName)]; [None] is the call with [null]. *)
Definition useProgram (programName : option string) : M bool :=
  let* this := gets shaderManager in
  match programName with
  | None =>
      (if bool_decide (currentProgramName this = None) then ret tt
       else gl_do (GL.useProgram None);;
            sm_modify (upd_currentProgramName (fun _ => None)));;
      ret true
  | Some programName =>
      match programs this !! programName with
      | Some (Some program) =>
          let* currentGLProgram := gl_read CURRENT_PROGRAM in
          (if bool_decide (currentGLProgram = Some program) then ret tt
           else gl_do (GL.useProgram (Some program)));;
          sm_modify (upd_currentProgramName (fun _ => Some programName));;
          ret true
      | _ =>
          (if bool_decide (currentProgramName this = Some programName) then
             sm_modify (upd_currentProgramName (fun _ => None));;
             gl_do (GL.useProgram None)
           else ret tt);;
          ret false
      end
  end.

(** The linked program behind [currentProgramName], when both the name
    and the stored program are truthy. *)
Definition currentProgram (this : ShaderManager) : option (string * nat) :=
  match currentProgramName this with
  | Some name =>
      if String.eqb name "" then None
      else match programs this !! name with
           | Some (Some program) => Some (name, program)
           | _ => None
           end
  | None => None
  end.

Definition getUniformLocation (name : string) : M (option WebGLUniformLocation) :=
  let* this := gets shaderManager in
  match currentProgram this with
  | None => ret None
  | Some (current, program) =>
      match uniformLocations this !! current with
      | None => throw (TypeError "Cannot read properties of undefined (reading 'hasOwnProperty')")
      | Some cache =>
          match cache !! name with
          | Some loc => ret loc
          | None =>
              let* loc := gl_read (GL.getUniformLocation program name) in
              sm_modify (upd_uniformLocations (insert current (<[name := loc]> cache)));;
              ret loc
          end
      end
  end.

(** [getAttributeLocation(name)]: [None] is null. *)
Definition getAttributeLocation (name : string) : M (option nat) :=
  let* this := gets shaderManager in
  match currentProgram this with
  | None => ret None
  | Some (current, program) =>
      match attributeLocations this !! current with
      | None => throw (TypeError "Cannot read properties of undefined (reading 'hasOwnProperty')")
      | Some cache =>
          match cache !! name with
          | Some loc => ret loc
          | None =>
              let* loc := gl_read (GL.getAttribLocation program name) in
              sm_modify (upd_attributeLocations (insert current (<[name := loc]> cache)));;
              ret loc
          end
      end
  end.

(** [this.shaderManager.setupShaderPrograms()]: the class defines no such
    method, so the call throws. *)
Definition setupShaderPrograms : M unit :=
  throw (TypeError "this.shaderManager.setupShaderPrograms is not a function").

End ShaderManagerMethods.

(** ** HypercubeCore *)

Definition Q_of_decimal (mantissa : Z) (exponent10 : nat) : Q :=
  Qred (mantissa # Pos.of_nat (10 ^ exponent10)).

Definition JDec (mantissa : Z) (exponent10 : nat) : JSValue :=
  JNum (JFinite (Q_of_decimal mantissa exponent10)).

(** The keys of [DEFAULT_STATE] in declaration order, as [for ... in]
    enumerates them. *)
Definition DEFAULT_STATE_keys : list string :=
  ["startTime"; "lastUpdateTime"; "deltaTime"; "time"; "resolution";
   "geometryType"; "projectionMethod"; "dimensions";
   "morphFactor"; "rotationSpeed"; "universeModifier"; "patternIntensity";
   "gridDensity"; "lineThickness"; "shellWidth"; "tetraThickness";
   "glitchIntensity"; "colorShift";
   "audioLevels"; "colorScheme";
   "needsShaderUpdate"; "_dirtyUniforms"; "isRendering"; "animationFrameId";
   "shaderProgramName"; "callbacks"].

(** The data properties of [DEFAULT_STATE] ([_dirtyUniforms] and
    [callbacks] are kept apart, see [World]). *)
Definition DEFAULT_STATE : list (string * JSValue) :=
  [("startTime", JInt 0); ("lastUpdateTime", JInt 0); ("deltaTime", JInt 0);
   ("time", JInt 0); ("resolution", JArray [JInt 0; JInt 0]);
   ("geometryType", JString "hypercube"); ("projectionMethod", JString "perspective");
   ("dimensions", JInt 4);
   ("morphFactor", JDec 5 1); ("rotationSpeed", JDec 2 1);
   ("universeModifier", JInt 1); ("patternIntensity", JInt 1);
   ("gridDensity", JInt 8); ("lineThickness", JDec 3 2);
   ("shellWidth", JDec 25 3); ("tetraThickness", JDec 35 3);
   ("glitchIntensity", JInt 0); ("colorShift", JInt 0);
   ("audioLevels", JObject [("bass", JInt 0); ("mid", JInt 0); ("high", JInt 0)]);
   ("colorScheme",
      JObject [("primary", JArray [JInt 1; JDec 2 1; JDec 8 1]);
               ("secondary", JArray [JDec 2 1; JInt 1; JInt 1]);
               ("background", JArray [JDec 5 2; JInt 0; JDec 2 1])]);
   ("needsShaderUpdate", JBoolean false); ("isRendering", JBoolean false);
   ("animationFrameId", JNull);
   ("shaderProgramName", JString "maleficarumViz")].

Module HypercubeCore.

Import ShaderManagerMethods.

(** [this.state[key]]; a missing property reads as [undefined]. *)
Definition state_get (key : string) : M JSValue :=
  gets (fun w => default JUndefined (state w !! key)).

Definition state_set (key : string) (v : JSValue) : M unit :=
  modify (upd_state (insert key v)).

(** [set.add(name)] *)
Definition Set_add (name : string) (s : list string) : list string :=
  if bool_decide (name ∈ s) then s else s ++ [name].

(** The [switch] of [_markUniformDirty]: the uniforms pushed for a state
    key; a key without a [case] pushes none. *)
Definition uniformNames (stateKey : string) : list string :=
  if String.eqb stateKey "time" then ["u_time"]
  else if String.eqb stateKey "resolution" then ["u_resolution"]
  else if String.eqb stateKey "dimensions" then ["u_dimension"]
  else if String.eqb stateKey "morphFactor" then ["u_morphFactor"]
  else if String.eqb stateKey "rotationSpeed" then ["u_rotationSpeed"]
  else if String.eqb stateKey "universeModifier" then ["u_universeModifier"]
  else if String.eqb stateKey "patternIntensity" then ["u_patternIntensity"]
  else if String.eqb stateKey "gridDensity" then ["u_gridDensity"]
  else if String.eqb stateKey "lineThickness" then ["u_lineThickness"]
  else if String.eqb stateKey "shellWidth" then ["u_shellWidth"]
  else if String.eqb stateKey "tetraThickness" then ["u_tetraThickness"]
  else if String.eqb stateKey "glitchIntensity" then ["u_glitchIntensity"]
  else if String.eqb stateKey "colorShift" then ["u_colorShift"]
  else if String.eqb stateKey "audioLevels" then ["u_audioBass"; "u_audioMid"; "u_audioHigh"]
  else if String.eqb stateKey "colorScheme" then ["u_primaryColor"; "u_secondaryColor"; "u_backgroundColor"]
  else [].

Definition _markUniformDirty (stateKey : string) : M unit :=
  modify (upd__dirtyUniforms (fun dirty => fold_left (fun s name => Set_add name s) (uniformNames stateKey) dirty)).

(** The keys skipped by the loop of [_markAllUniformsDirty]. *)
Definition notUniformKeys : list string :=
  ["_dirtyUniforms"; "isRendering"; "animationFrameId"; "callbacks"; "startTime";
   "lastUpdateTime"; "deltaTime"; "needsShaderUpdate"; "geometryType";
   "projectionMethod"; "shaderProgramName"].

Definition _markAllUniformsDirty : M unit :=
  modify (upd__dirtyUniforms (fun _ => []));;
  fold_left (fun m key =>
      m;; if bool_decide (key ∈ notUniformKeys) then ret tt else _markUniformDirty key)
    DEFAULT_STATE_keys (ret tt).

(** *** Scheduling *)

Definition requestAnimationFrame : M Z :=
  let* s := gets scheduler in
  let id := nextRequestId s in
  modify (upd_scheduler (fun _ =>
    {| nextRequestId := id + 1; animationFrames := animationFrames s ++ [id];
       timeouts := timeouts s |}));;
  ret id.

(** [cancelAnimationFrame(handle)]: the handle is converted to an integer. *)
Definition cancelAnimationFrame (handle : JSValue) : M unit :=
  match JS.toNumber handle with
  | None => unsupported
  | Some (JFinite q) =>
      modify (upd_scheduler (fun s =>
        {| nextRequestId := nextRequestId s;
           animationFrames := List.filter (fun id => negb (id =? Qfloor q)) (animationFrames s);
           timeouts := timeouts s |}))
  | Some _ => ret tt
  end.

Definition setTimeout (t : Timer) : M unit :=
  modify (upd_scheduler (fun s =>
    {| nextRequestId := nextRequestId s; animationFrames := animationFrames s;
       timeouts := timeouts s ++ [t] |})).

Definition onError (e : JSError) : M unit :=
  modify (upd_callbackLog (fun l => l ++ [OnError e])).

Definition onRender : M unit :=
  modify (upd_callbackLog (fun l => l ++ [OnRender])).

Definition stop : M unit :=
  let* isRendering := state_get "isRendering" in
  if negb (JS.truthy isRendering) then ret tt
  else
    let* animationFrameId := state_get "animationFrameId" in
    (if JS.truthy animationFrameId then cancelAnimationFrame animationFrameId else ret tt);;
    state_set "isRendering" (JBoolean false);;
    state_set "animationFrameId" JNull.

(** *** Shader updates *)

(** [state.shaderProgramName] as the property key of [programs]; names
    that are not strings are outside the embedding. *)
Definition programNameOf (v : JSValue) : M string :=
  match v with JString s => ret s | _ => unsupported end.

Definition _updateShaderIfNeeded : M bool :=
  let* needsShaderUpdate := state_get "needsShaderUpdate" in
  if negb (JS.truthy needsShaderUpdate) then ret true
  else
    let* progName := bind (state_get "shaderProgramName") programNameOf in
    let* geomName := state_get "geometryType" in
    let* projName := state_get "projectionMethod" in
    let* program := createDynamicProgram progName geomName projName in
    match program with
    | None =>
        onError (Error "Shader update failed");;
        stop;;
        ret false
    | Some _ =>
        state_set "needsShaderUpdate" (JBoolean false);;
        useProgram (Some progName);;
        let* loc := getAttributeLocation "a_position" in
        modify (upd_aPositionLoc (fun _ => Z.of_nat <$> loc));;
        (match loc with
         | None => ret tt
         | Some i =>
             let* gl := gets gl in
             if gl then gl_do (GL.log (EnableVertexAttribArray i))
             else modify (upd_aPositionLoc (fun _ => Some (-1)))
         end);;
        _markAllUniformsDirty;;
        ret true
    end.

(** *** updateParameters *)

(** The body of the loop of [updateParameters] for one key; the result is
    the flag [shaderNeedsUpdate]. *)
Definition updateParameter (key : string) (newValue : JSValue)
    (shaderNeedsUpdate : bool) : M bool :=
  if String.eqb key "_dirtyUniforms" || String.eqb key "callbacks" then unsupported
  else
    let* st := gets state in
    match st !! key with
    | None => ret shaderNeedsUpdate
    | Some oldValue =>
        if JS.isPlainObject oldValue then
          if stringify_differs oldValue newValue then
            state_set key (JS.spread2 oldValue newValue);;
            (if String.eqb key "colorScheme" then
               let* p := lift_sum (JS.hasOwnProperty newValue "primary") in
               (if p then _markUniformDirty "colorScheme.primary" else ret tt);;
               let* s := lift_sum (JS.hasOwnProperty newValue "secondary") in
               (if s then _markUniformDirty "colorScheme.secondary" else ret tt);;
               let* b := lift_sum (JS.hasOwnProperty newValue "background") in
               (if b then _markUniformDirty "colorScheme.background" else ret tt)
             else if String.eqb key "audioLevels" then
               let* b := lift_sum (JS.hasOwnProperty newValue "bass") in
               (if b then _markUniformDirty "audioLevels.bass" else ret tt);;
               let* m := lift_sum (JS.hasOwnProperty newValue "mid") in
               (if m then _markUniformDirty "audioLevels.mid" else ret tt);;
               let* h := lift_sum (JS.hasOwnProperty newValue "high") in
               (if h then _markUniformDirty "audioLevels.high" else ret tt)
             else ret tt);;
            ret shaderNeedsUpdate
          else ret shaderNeedsUpdate
        else if stringify_differs oldValue newValue then
          state_set key newValue;;
          _markUniformDirty key;;
          ret (shaderNeedsUpdate
               || String.eqb key "geometryType" || String.eqb key "projectionMethod")
        else ret shaderNeedsUpdate
    end.

Fixpoint updateParameters_loop (newParams : list (string * JSValue))
    (shaderNeedsUpdate : bool) : M bool :=
  match newParams with
  | [] => ret shaderNeedsUpdate
  | (key, newValue) :: rest =>
      let* flag := updateParameter key newValue shaderNeedsUpdate in
      updateParameters_loop rest flag
  end.

(** [updateParameters(newParams)]: [newParams] lists the own properties of
    the argument in enumeration order. *)
Definition updateParameters (newParams : list (string * JSValue)) : M unit :=
  let* shaderNeedsUpdate := updateParameters_loop newParams false in
  if shaderNeedsUpdate then state_set "needsShaderUpdate" (JBoolean true)
  else ret tt.

(** *** Uploading uniforms *)

(** [v.k] for a data value [v]: reading a property of [undefined] or
    [null] throws; a value without the property gives [undefined]. *)
Definition member (v : JSValue) (k : string) : JSError + JSValue :=
  match v with
  | JUndefined | JNull => inl (TypeError "Cannot read properties of undefined or null")
  | JObject ps => inr (JS.get ps k)
  | JBoolean _ | JNum _ | JString _ | JArray _ => inr JUndefined
  end.

Inductive UniformSetter := uniform1f | uniform2fv | uniform3fv.

(** The [switch] of [_setUniforms]: the setter and the state path of each
    uniform; a name without a [case] uploads nothing. *)
Definition uniformSource (name : string) : option (UniformSetter * string * option string) :=
  if String.eqb name "u_resolution" then Some (uniform2fv, "resolution", None)
  else if String.eqb name "u_dimension" then Some (uniform1f, "dimensions", None)
  else if String.eqb name "u_morphFactor" then Some (uniform1f, "morphFactor", None)
  else if String.eqb name "u_rotationSpeed" then Some (uniform1f, "rotationSpeed", None)
  else if String.eqb name "u_universeModifier" then Some (uniform1f, "universeModifier", None)
  else if String.eqb name "u_patternIntensity" then Some (uniform1f, "patternIntensity", None)
  else if String.eqb name "u_gridDensity" then Some (uniform1f, "gridDensity", None)
  else if String.eqb name "u_lineThickness" then Some (uniform1f, "lineThickness", None)
  else if String.eqb name "u_shellWidth" then Some (uniform1f, "shellWidth", None)
  else if String.eqb name "u_tetraThickness" then Some (uniform1f, "tetraThickness", None)
  else if String.eqb name "u_glitchIntensity" then Some (uniform1f, "glitchIntensity", None)
  else if String.eqb name "u_colorShift" then Some (uniform1f, "colorShift", None)
  else if String.eqb name "u_audioBass" then Some (uniform1f, "audioLevels", Some "bass")
  else if String.eqb name "u_audioMid" then Some (uniform1f, "audioLevels", Some "mid")
  else if String.eqb name "u_audioHigh" then Some (uniform1f, "audioLevels", Some "high")
  else if String.eqb name "u_primaryColor" then Some (uniform3fv, "colorScheme", Some "primary")
  else if String.eqb name "u_secondaryColor" then Some (uniform3fv, "colorScheme", Some "secondary")
  else if String.eqb name "u_backgroundColor" then Some (uniform3fv, "colorScheme", Some "background")
  else None.

(** One of [gl.uniform1f], [gl.uniform2fv], [gl.uniform3fv] on [this.gl]:
    the vector setters throw on a value that is not a sequence. *)
Definition gl_uniform (setter : UniformSetter) (loc : WebGLUniformLocation)
    (v : JSValue) : M unit :=
  let* gl := gets gl in
  if negb gl then throw (TypeError "Cannot read properties of null")
  else
    match setter, v with
    | uniform1f, _ | _, JArray _ => gl_do (GL.log (Uniform loc v))
    | _, _ => throw (TypeError "Argument is not a sequence")
    end.

(** The guarded [switch] of the [forEach] callback for a resolved name. *)
Definition uploadUniform (name : string) (loc : WebGLUniformLocation) : M unit :=
  try_catch
    (match uniformSource name with
     | None => ret tt
     | Some (setter, key, sub) =>
         let* v := state_get key in
         let* v := match sub with
                   | None => ret v
                   | Some k => lift_sum (member v k)
                   end in
         gl_uniform setter loc v
     end)
    (fun _ => ret tt).

(** [dirty.forEach(name => ...)], collecting [uniformsToRetry]. *)
Fixpoint forEachDirty (dirty : list string) (uniformsToRetry : list string)
    : M (list string) :=
  match dirty with
  | [] => ret uniformsToRetry
  | name :: rest =>
      if String.eqb name "u_time" then forEachDirty rest uniformsToRetry
      else
        let* loc := getUniformLocation name in
        match loc with
        | Some loc =>
            uploadUniform name loc;;
            forEachDirty rest uniformsToRetry
        | None => forEachDirty rest (Set_add name uniformsToRetry)
        end
  end.

(** The argument of [useProgram] read from [state.shaderProgramName]. *)
Definition programArgument (v : JSValue) : M (option string) :=
  match v with
  | JString s => ret (Some s)
  | JNull => ret None
  | _ => unsupported
  end.

Definition _setUniforms : M unit :=
  let* programName := bind (state_get "shaderProgramName") programArgument in
  let* used := useProgram programName in
  let* current := gets (fun w => currentProgramName (shaderManager w)) in
  if negb used || negb (bool_decide (current = programName)) then ret tt
  else
    let* timeLoc := getUniformLocation "u_time" in
    (match timeLoc with
     | Some loc => let* time := state_get "time" in gl_uniform uniform1f loc time
     | None => modify (upd__dirtyUniforms (Set_add "u_time"))
     end);;
    let* dirty := gets _dirtyUniforms in
    let* uniformsToRetry := forEachDirty dirty [] in
    modify (upd__dirtyUniforms (fun _ => uniformsToRetry)).

(** *** The render loop *)

Definition toNumberM (v : JSValue) : M JSNumber :=
  match JS.toNumber v with Some n => ret n | None => unsupported end.

Definition _checkResize : M bool :=
  let* c := gets canvas in
  let dw := clientWidth c in
  let dh := clientHeight c in
  if negb (width c =? dw) || negb (height c =? dh) then
    modify (upd_canvas (fun _ =>
      {| width := dw; height := dh; clientWidth := dw; clientHeight := dh |}));;
    gl_do (GL.log (Viewport dw dh));;
    state_set "resolution" (JArray [JInt dw; JInt dh]);;
    _markUniformDirty "resolution";;
    ret true
  else ret false.

(** [const bg = this.state.colorScheme.background; gl.clearColor(bg[0],
    bg[1], bg[2], 1.0)] *)
Definition clearColor_background : M unit :=
  let* colorScheme := state_get "colorScheme" in
  let* bg := lift_sum (member colorScheme "background") in
  match bg with
  | JUndefined | JNull => throw (TypeError "Cannot read properties of undefined (reading '0')")
  | _ => gl_do (GL.log (ClearColor bg))
  end.

Definition start (now : Q) : M unit :=
  let* isRendering := state_get "isRendering" in
  if JS.truthy isRendering then ret tt
  else
    state_set "isRendering" (JBoolean true);;
    state_set "startTime" (JNum (JFinite now));;
    state_set "time" (JInt 0);;
    state_set "lastUpdateTime" (JNum (JFinite now));;
    let* needsShaderUpdate := state_get "needsShaderUpdate" in
    let* ok := (if JS.truthy needsShaderUpdate then _updateShaderIfNeeded else ret true) in
    if negb ok then state_set "isRendering" (JBoolean false)
    else
      _markAllUniformsDirty;;
      let* id := requestAnimationFrame in
      state_set "animationFrameId" (JInt id).

(** The uniform names written by the recovery closure. *)
Definition recoveredDirtyUniforms : list string :=
  ["u_resolution"; "u_time"; "u_dimension"; "u_morphFactor";
   "u_rotationSpeed"; "u_universeModifier"; "u_patternIntensity";
   "u_gridDensity"; "u_lineThickness"; "u_shellWidth";
   "u_tetraThickness"; "u_glitchIntensity"; "u_colorShift";
   "u_audioBass"; "u_audioMid"; "u_audioHigh"; "u_primaryColor"].

(** The synchronous part of [_attemptContextRecovery]; the closure it
    hands to [setTimeout] is [recoveryTimer]. *)
Definition _attemptContextRecovery : M unit :=
  let* attempts := bind (state_get "contextRecoveryAttempts") toNumberM in
  if JS.num_ge attempts (JFinite 3) then
    stop;;
    onError (Error "WebGL context permanently lost")
  else
    let* attempts := state_get "contextRecoveryAttempts" in
    let* base := (if JS.truthy attempts then toNumberM attempts else ret (JFinite 0)) in
    state_set "contextRecoveryAttempts" (JNum (JS.num_add base (JFinite 1)));;
    let* animationFrameId := state_get "animationFrameId" in
    (if JS.truthy animationFrameId then
       cancelAnimationFrame animationFrameId;;
       state_set "animationFrameId" JNull
     else ret tt);;
    setTimeout RecoveryTimer.

(** The closure run 500 ms after [_attemptContextRecovery]; [acquired]
    says whether [canvas.getContext] returned the context. *)
Definition recoveryTimer (acquired : bool) : M unit :=
  try_catch
    (modify (upd_gl (fun _ => acquired));;
     let* lost := gl_read contextLost in
     if acquired && negb lost then
       let* sm := lift_sum (new_ShaderManager true false false None None) in
       modify (upd_shaderManager (fun _ => sm));;
       setupShaderPrograms;;
       modify (upd__dirtyUniforms (fun _ => recoveredDirtyUniforms));;
       state_set "contextRecoveryAttempts" (JInt 0);;
       let* isRendering := state_get "isRendering" in
       if JS.truthy isRendering then
         let* id := requestAnimationFrame in
         state_set "animationFrameId" (JInt id)
       else ret tt
     else throw (Error "Failed to recreate WebGL context"))
    (fun _ =>
       let* attempts := bind (state_get "contextRecoveryAttempts") toNumberM in
       if JS.num_lt attempts (JFinite 3) then setTimeout RetryTimer
       else
         stop;;
         onError (Error "WebGL context recovery failed permanently")).

Definition _render (timestamp : Q) : M unit :=
  let* isRendering := state_get "isRendering" in
  if negb (JS.truthy isRendering) then ret tt
  else
    let* gl := gets gl in
    let* lost := gl_read contextLost in
    if negb gl || lost then _attemptContextRecovery
    else
      let* startTime := state_get "startTime" in
      (if negb (JS.truthy startTime) then state_set "startTime" (JNum (JFinite timestamp))
       else ret tt);;
      let* startTime := bind (state_get "startTime") toNumberM in
      let currentTime :=
        JS.num_mul (JS.num_sub (JFinite timestamp) startTime) (JFinite (1 # 1000)) in
      let* time := bind (state_get "time") toNumberM in
      state_set "deltaTime" (JNum (JS.num_sub currentTime time));;
      state_set "time" (JNum currentTime);;
      state_set "lastUpdateTime" (JNum (JFinite timestamp));;
      _markUniformDirty "time";;
      _checkResize;;
      let* needsShaderUpdate := state_get "needsShaderUpdate" in
      let* ok := (if JS.truthy needsShaderUpdate then _updateShaderIfNeeded else ret true) in
      if negb ok then ret tt
      else
        _setUniforms;;
        clearColor_background;;
        gl_do (GL.log Clear);;
        let* quadBuffer := gets quadBuffer in
        let* aPositionLoc := gets aPositionLoc in
        (match quadBuffer, aPositionLoc with
         | Some buffer, Some loc =>
             if 0 <=? loc then
               gl_do (GL.log (BindBuffer (Some buffer)));;
               gl_do (GL.log (EnableVertexAttribArray (Z.to_nat loc)));;
               gl_do (GL.log (VertexAttribPointer (Z.to_nat loc)));;
               gl_do (GL.log DrawArrays)
             else ret tt
         | _, _ => ret tt
         end);;
        onRender;;
        let* id := requestAnimationFrame in
        state_set "animationFrameId" (JInt id).

(** *** Construction *)

(** The part of [initWebGL] that acts on the context (the listeners it
    installs are [on_webglcontextlost] and [on_webglcontextrestored]). *)
Definition initWebGL : M unit :=
  modify (upd_gl (fun _ => true));;
  gl_do (GL.log (ClearColor (JArray [JInt 0; JInt 0; JInt 0])));;
  gl_do (GL.log (Enable "BLEND"));;
  gl_do (GL.log BlendFunc).

Definition _setupWebGLState : M unit :=
  clearColor_background;;
  let* c := gets canvas in
  gl_do (GL.log (Viewport (width c) (height c)));;
  gl_do (GL.log (Disable "DEPTH_TEST"));;
  gl_do (GL.log (Enable "BLEND"));;
  gl_do (GL.log BlendFunc).

Definition _initBuffers : M unit :=
  let* buffer := gl_call GL.createBuffer in
  modify (upd_quadBuffer (fun _ => buffer));;
  match buffer with
  | None => throw (Error "Buffer creation failed.")
  | Some b =>
      gl_do (GL.log (BindBuffer (Some b)));;
      gl_do (GL.log BufferData);;
      gl_do (GL.log (BindBuffer None))
  end.

(** [a ?? b] *)
Definition nullish_or (a b : JSValue) : JSValue :=
  match a with JUndefined | JNull => b | _ => a end.

(** [{ ...DEFAULT_STATE.k, ...(options.k || {}) }] *)
Definition merged_group (key : string) (options : list (string * JSValue)) : JSValue :=
  let given := JS.get options key in
  JS.spread2 (JS.get DEFAULT_STATE key) (if JS.truthy given then given else JObject []).

(** The data properties of the initial [this.state]. *)
Definition initial_state (options : list (string * JSValue)) : gmap string JSValue :=
  let spread :=
    fold_left (fun st p => <[fst p := snd p]> st)
      (List.filter (fun p => negb (String.eqb (fst p) "_dirtyUniforms"
                                   || String.eqb (fst p) "callbacks"))
         (DEFAULT_STATE ++ options)) ∅ in
  <["tetraThickness" := nullish_or (JS.get options "tetraThickness") (JS.get DEFAULT_STATE "tetraThickness")]>
  (<["shellWidth" := nullish_or (JS.get options "shellWidth") (JS.get DEFAULT_STATE "shellWidth")]>
  (<["lineThickness" := nullish_or (JS.get options "lineThickness") (JS.get DEFAULT_STATE "lineThickness")]>
  (<["audioLevels" := merged_group "audioLevels" options]>
  (<["colorScheme" := merged_group "colorScheme" options]> spread)))).

(** The host before the constructor runs: a live context without objects
    and nothing scheduled. *)
Definition blank_World (drv : Driver) (cv : Canvas) : World :=
  {| state := ∅; _dirtyUniforms := []; gl := false;
     shaderManager :=
       {| baseVertexShaderName := ""; baseFragmentShaderName := "";
          shaderSources := ∅; compiledShaders := ∅; programs := ∅;
          uniformLocations := ∅; attributeLocations := ∅;
          currentProgramName := None |};
     geometryManager := {| defaultGeometry := ""; geometries := ∅ |};
     projectionManager := {| defaultProjection := ""; projections := ∅ |};
     quadBuffer := None; aPositionLoc := Some (-1);
     context :=
       {| driver := drv; contextLost := false; nextName := 1;
          shaders := ∅; glPrograms := ∅; CURRENT_PROGRAM := None; calls := [] |};
     canvas := cv;
     scheduler := {| nextRequestId := 1; animationFrames := []; timeouts := [] |};
     callbackLog := [] |}.

(** [new HypercubeCore(canvas, options)] on a canvas whose context can be
    created. *)
Definition constructor (options : list (string * JSValue)) : M unit :=
  initWebGL;;
  modify (upd_geometryManager (fun _ => new_GeometryManager None));;
  modify (upd_projectionManager (fun _ => new_ProjectionManager None));;
  let* sm := lift_sum (new_ShaderManager true true true None None) in
  modify (upd_shaderManager (fun _ => sm));;
  modify (upd_quadBuffer (fun _ => None));;
  modify (upd_aPositionLoc (fun _ => Some (-1)));;
  modify (upd_state (fun _ => initial_state options));;
  _markAllUniformsDirty;;
  try_catch
    (_setupWebGLState;;
     _initBuffers;;
     state_set "needsShaderUpdate" (JBoolean true);;
     let* _ := _updateShaderIfNeeded in ret tt)
    (fun error => onError error).

(** *** Events of the host *)

(** The listener of [webglcontextlost]. *)
Definition on_webglcontextlost : M unit := stop.

Definition _reinitializeAfterContextRestore (now : Q) : M unit :=
  try_catch
    (initWebGL;;
     _setupWebGLState;;
     _initBuffers;;
     state_set "needsShaderUpdate" (JBoolean true);;
     let* _ := _updateShaderIfNeeded in
     let* isRendering := state_get "isRendering" in
     if JS.truthy isRendering then start now else ret tt)
    (fun _ => ret tt).

(** What the host can do to a core between two calls of the caller. *)
Inductive Event :=
| AnimationFrame (timestamp : Q)   (* the oldest requested frame runs [_render] *)
| TimerFires (i : nat) (acquired : bool)
                                   (* the [i]-th pending timer fires *)
| ContextLost                      (* the GPU drops the context *)
| ContextRestored                  (* the GPU gives the context back *)
| WebglContextLostEvent            (* the listener of [webglcontextlost] runs *)
| WebglContextRestoredEvent (now : Q).
                                   (* the listener of [webglcontextrestored] runs *)

Definition set_contextLost (b : bool) : M unit :=
  gl_do (fun gl =>
    {| driver := driver gl; contextLost := b; nextName := nextName gl;
       shaders := shaders gl; glPrograms := glPrograms gl;
       CURRENT_PROGRAM := CURRENT_PROGRAM gl; calls := calls gl |}).

Definition take_frame : M (option Z) :=
  let* s := gets scheduler in
  match animationFrames s with
  | [] => ret None
  | id :: rest =>
      modify (upd_scheduler (fun _ =>
        {| nextRequestId := nextRequestId s; animationFrames := rest;
           timeouts := timeouts s |}));;
      ret (Some id)
  end.

Definition take_timer (i : nat) : M (option Timer) :=
  let* s := gets scheduler in
  match timeouts s !! i with
  | None => ret None
  | Some t =>
      modify (upd_scheduler (fun _ =>
        {| nextRequestId := nextRequestId s; animationFrames := animationFrames s;
           timeouts := take i (timeouts s) ++ drop (S i) (timeouts s) |}));;
      ret (Some t)
  end.

Definition handle (e : Event) : M unit :=
  match e with
  | AnimationFrame timestamp =>
      let* frame := take_frame in
      match frame with Some _ => _render timestamp | None => ret tt end
  | TimerFires i acquired =>
      let* timer := take_timer i in
      match timer with
      | Some RecoveryTimer => recoveryTimer acquired
      | Some RetryTimer => _attemptContextRecovery
      | None => ret tt
      end
  | ContextLost => set_contextLost true
  | ContextRestored => set_contextLost false
  | WebglContextLostEvent => on_webglcontextlost
  | WebglContextRestoredEvent now => _reinitializeAfterContextRestore now
  end.

(** The world after a call; an exception that escapes a callback leaves
    the world as the callback left it.  [None]: outside the embedding. *)
Definition after {A} (m : M A) (w : World) : option World :=
  match m w with
  | Returns _ w' | Throws _ w' => Some w'
  | Unsupported => None
  end.

Fixpoint run (es : list Event) (w : World) : option World :=
  match es with
  | [] => Some w
  | e :: es' =>
      match after (handle e) w with
      | Some w' => run es' w'
      | None => None
      end
  end.

(** [getStatus().isAnimating] *)
Definition isAnimating (w : World) : JSValue :=
  default JUndefined (state w !! "isRendering").

End HypercubeCore.

(** * Vocabulary of the properties *)

Import HypercubeCore ShaderManagerMethods.

(** The value a call returned, if it returned. *)
Definition returned {A} (o : Outcome A) : option A :=
  match o with Returns a _ => Some a | _ => None end.

(** [preserves I m]: every world a run of [m] ends in, by return or by
    exception, satisfies [I] when the initial one does. *)
Definition preserves {A} (I : World -> Prop) (m : M A) : Prop :=
  forall w, I w ->
    match m w with
    | Returns _ w' | Throws _ w' => I w'
    | Unsupported => True
    end.

(** [supported m]: no run of [m] leaves the embedding. *)
Definition supported {A} (m : M A) : Prop :=
  forall w, m w <> Unsupported.

(** [ends o P]: the call stayed within the embedding and the world it
    ended in, by return or by exception, satisfies [P]. *)
Definition ends {A} (o : Outcome A) (P : World -> Prop) : Prop :=
  match o with
  | Returns _ w' | Throws _ w' => P w'
  | Unsupported => False
  end.


(** The location [getUniformLocation(name)] gives in world [w] for the
    program [p] stored under [current]: the cached one, else the one the
    context reports. *)
Definition resolved (current : string) (p : nat) (w : World) (name : string)
    : option WebGLUniformLocation :=
  match uniformLocations (shaderManager w) !! current with
  | Some cache =>
      match cache !! name with
      | Some loc => loc
      | None => GL.getUniformLocation p name (context w)
      end
  | None => None
  end.

(** A write that names neither the dirty set nor the callback table. *)
Definition data_write (newParams : list (string * JSValue)) : Prop :=
  Forall (fun p => fst p ≠ "_dirtyUniforms" /\ fst p ≠ "callbacks") newParams.


(** The range that [MassiveParameterSystem] (VIB34D_TOTAL_REACTIVE_CORE.js)
    declares for [u_dimension]: [{ min: 3.0, max: 8.0 }]. *)
Definition u_dimension_range : Q * Q := (3, 8)%Q.

Definition within (range : Q * Q) (v : JSValue) : Prop :=
  match v with
  | JNum (JFinite q) => (fst range <= q)%Q /\ (q <= snd range)%Q
  | _ => False
  end.

(** *** Hosts used in the examples *)

(** A driver that compiles and links everything and keeps every uniform. *)
Definition permissive : Driver :=
  {| compiles := fun _ _ => true;
     links := fun _ _ => true;
     activeUniform := fun _ _ => true;
     activeAttribute := fun _ _ => Some 0%nat |}.

(** A driver that drops [u_glitchIntensity], which the base fragment
    shader declares and no shader code reads. *)
Definition optimizing : Driver :=
  {| compiles := fun _ _ => true;
     links := fun _ _ => true;
     activeUniform := fun _ name => negb (String.eqb name "u_glitchIntensity");
     activeAttribute := fun _ _ => Some 0%nat |}.

Definition canvas300x150 : Canvas :=
  {| width := 300; height := 150; clientWidth := 300; clientHeight := 150 |}.

(** Consecutive calls and events on a world. *)
Definition steps (fs : list (World -> option World)) (w : World) : option World :=
  fold_left (fun o f => o ≫= f) fs (Some w).

(** [new HypercubeCore(canvas)] *)
Definition constructed (drv : Driver) : option World :=
  after (constructor []) (blank_World drv canvas300x150).

(** [core.start()] and one rendered frame. *)
Definition running (drv : Driver) : option World :=
  constructed drv ≫= steps [after (start 1000); run [AnimationFrame 1016]].

(** A fragment without [densityField] and without [calculateLattice]. *)
Definition plainFragment : string := "float shade(vec3 p) { return 1.0; }".

(** A base fragment template without injection points. *)
Definition bareTemplate : string :=
  "precision highp float; void main() { gl_FragColor = vec4(1.0); }".

(** The world inside an [option], for examples that go on from a
    scenario. *)
Definition world_of (drv : Driver) (o : option World) : World :=
  default (blank_World drv canvas300x150) o.

(** A constructed core in whose registry [plainFragment] is registered. *)
Definition world_with_plain : World :=
  upd_geometryManager
    (registerGeometry "plain" (InstanceOf (GeometrySubclass (JString plainFragment))))
    (world_of permissive (constructed permissive)).

(** The call [c] has been issued on the context. *)
Definition issued (c : GLCall) (w : World) : Prop := c ∈ calls (context w).





(** A driver on which no shader compiles. *)
Definition rejecting : Driver :=
  {| compiles := fun _ _ => false;
     links := fun _ _ => true;
     activeUniform := fun _ _ => true;
     activeAttribute := fun _ _ => Some 0%nat |}.

(** The fragment source [createDynamicProgram] assembles from a template
    and the two fragments. *)
Definition assembledSource (template geomGLSL projGLSL : string) : string :=
  JSString.replace
    (JSString.replace template GLSL.GEOMETRY_CODE_INJECTION_POINT geomGLSL)
    GLSL.PROJECTION_CODE_INJECTION_POINT projGLSL.

(** An injection marker is still present in a source. *)
Definition marker_left (fsSource : string) : bool :=
  JSString.includes fsSource GLSL.GEOMETRY_CODE_INJECTION_POINT
  || JSString.includes fsSource GLSL.PROJECTION_CODE_INJECTION_POINT.

(** The identifier under which a fragment stage is cached. *)
Definition fragmentId (g p : string) : string :=
  "fragment-" +:+ g +:+ "-" +:+ p.

(** A constructed core whose base fragment template has been replaced by
    [bareTemplate]. *)
Definition world_with_bareTemplate : World :=
  upd_shaderManager (_registerShaderSource "base-fragment" bareTemplate FRAGMENT_SHADER)
    (world_of permissive (constructed permissive)).

(** A geometry whose source repeats the geometry injection marker. *)
Definition echoFragment : string :=
  "float calculateLattice(vec3 p) { return 1.0; } //__GEOMETRY_CODE_INJECTION_POINT__".

Definition world_with_echo : World :=
  upd_geometryManager
    (registerGeometry "echo" (InstanceOf (GeometrySubclass (JString echoFragment))))
    (world_of permissive (constructed permissive)).

(** The program calls among the calls issued so far. *)
Definition programCalls (w : World) : list GLCall :=
  List.filter
    (fun c => match c with
              | CreateProgram _ | LinkProgram _ | DeleteProgram _ => true
              | _ => false
              end)
    (calls (context w)).

Definition compileCalls (w : World) : list GLCall :=
  List.filter (fun c => match c with CompileShader _ => true | _ => false end)
    (calls (context w)).

(** [updateParameters({ geometryType: name })] followed by the shader
    update of the next frame. *)
Definition switch_geometry (name : string) (w : World) : option World :=
  after (updateParameters [("geometryType", JString name)]) w
  ≫= after _updateShaderIfNeeded.

(** The linked program stored for the core's program name. *)
Definition storedProgram (w : World) : option (option nat) :=
  programs (shaderManager w) !! "maleficarumViz".

(** The state key whose [case] in [_markUniformDirty] pushes a uniform:
    the inverse of [uniformNames]. *)
Definition stateKeyOf (uniform : string) : option string :=
  if String.eqb uniform "u_time" then Some "time"
  else if String.eqb uniform "u_resolution" then Some "resolution"
  else if String.eqb uniform "u_dimension" then Some "dimensions"
  else if String.eqb uniform "u_morphFactor" then Some "morphFactor"
  else if String.eqb uniform "u_rotationSpeed" then Some "rotationSpeed"
  else if String.eqb uniform "u_universeModifier" then Some "universeModifier"
  else if String.eqb uniform "u_patternIntensity" then Some "patternIntensity"
  else if String.eqb uniform "u_gridDensity" then Some "gridDensity"
  else if String.eqb uniform "u_lineThickness" then Some "lineThickness"
  else if String.eqb uniform "u_shellWidth" then Some "shellWidth"
  else if String.eqb uniform "u_tetraThickness" then Some "tetraThickness"
  else if String.eqb uniform "u_glitchIntensity" then Some "glitchIntensity"
  else if String.eqb uniform "u_colorShift" then Some "colorShift"
  else if String.eqb uniform "u_audioBass" then Some "audioLevels"
  else if String.eqb uniform "u_audioMid" then Some "audioLevels"
  else if String.eqb uniform "u_audioHigh" then Some "audioLevels"
  else if String.eqb uniform "u_primaryColor" then Some "colorScheme"
  else if String.eqb uniform "u_secondaryColor" then Some "colorScheme"
  else if String.eqb uniform "u_backgroundColor" then Some "colorScheme"
  else None.

(** What [updateParameters] leaves alone: the context, the scheduler, the
    callbacks, the shader manager and the registries. *)
Definition same_outside_state (w w' : World) : Prop :=
  context w' = context w /\ scheduler w' = scheduler w /\
  callbackLog w' = callbackLog w /\ shaderManager w' = shaderManager w /\
  geometryManager w' = geometryManager w /\
  projectionManager w' = projectionManager w /\ gl w' = gl w.

(** The stored value of [key] is [v], and no uniform of [key] has become
    dirty since [w0]. *)
Definition untouched (w0 : World) (key : string) (v : JSValue) (w' : World) : Prop :=
  state w' !! key = Some v /\
  forall u, u ∈ uniformNames key -> u ∈ _dirtyUniforms w' -> u ∈ _dirtyUniforms w0.

(** The shader manager has the linked program [p] in use under [name],
    with a location cache for it. *)
Definition program_in_use (name : string) (p : nat) (w : World) : Prop :=
  currentProgramName (shaderManager w) = Some name /\
  name ≠ "" /\
  programs (shaderManager w) !! name = Some (Some p) /\
  is_Some (uniformLocations (shaderManager w) !! name).

(** The world once [_createProgram] has disposed of the program [old]
    stored under [name]. *)
Definition disposed (name : string) (old : nat) (w : World) : World :=
  let attached := GL.getAttachedShaders old (context w) in
  upd_shaderManager (upd_attributeLocations (delete name))
    (upd_shaderManager (upd_uniformLocations (delete name))
       (upd_shaderManager (upd_programs (delete name))
          (upd_context (GL.deleteProgram old)
             (upd_context
                (fun gl => fold_left (fun gl s => GL.detachShader old s gl) attached gl)
                w)))).




(** Nothing is scheduled: no animation frame and no timer. *)
Definition idle (w : World) : Prop :=
  animationFrames (scheduler w) = [] /\ timeouts (scheduler w) = [].

(** The host events of a recovery whose context comes back at once: the
    loss, the frame that notices it, the restoration, and the timer of the
    first attempt, which acquires a live context. *)
Definition restored_recovery : list Event :=
  [ContextLost; AnimationFrame 1032; ContextRestored; TimerFires 0 true].

(** What a caller can see of the render loop: the flag, the pending frames
    and timers, the dirty set, the counter and the callbacks. *)
Definition loop_status (w : World)
    : JSValue * list Z * list Timer * list string * option JSValue * list CallbackCall :=
  (isAnimating w, animationFrames (scheduler w), timeouts (scheduler w),
   _dirtyUniforms w, state w !! "contextRecoveryAttempts", callbackLog w).

(** The dirty set left by [_markAllUniformsDirty]. *)
Definition marked_by_all (w : World) : list string :=
  match _markAllUniformsDirty w with
  | Returns _ w' => _dirtyUniforms w'
  | _ => []
  end.

(** No animation frame has been requested since the counter of requests
    was [n]. *)
Definition no_request (n : Z) (w : World) : Prop := nextRequestId (scheduler w) = n.

(** The same recovery, with a live context acquired by every timer. *)
Definition retried_recovery : list Event :=
  restored_recovery
  ++ [TimerFires 0 true; TimerFires 0 true; TimerFires 0 true; TimerFires 0 true].

(** A loss and a restoration announced by the canvas events. *)
Definition announced_recovery : list Event :=
  [WebglContextLostEvent; ContextLost; ContextRestored; WebglContextRestoredEvent 2000].

(** The classes of the file that [_initGeometries] and [_initProjections]
    register. *)
Definition builtinGeometries : list BaseGeometry :=
  [HypercubeGeometry; HypersphereGeometry; HypertetrahedronGeometry; TorusGeometry;
   KleinGeometry; FractalGeometry; WaveGeometry; CrystalGeometry].

Definition builtinProjections : list BaseProjection :=
  [PerspectiveProjection; OrthographicProjection; StereographicProjection].

(** The GLSL text of a strategy; the empty text when it has none. *)
Definition codeOf {A} `{ShaderProvider A} (x : A) : string :=
  match getShaderCode x with
  | inr (JString code) => code
  | _ => ""
  end.

(** A constructed core in whose registry a bare [new BaseGeometry()] is
    registered. *)
Definition world_with_bare : World :=
  upd_geometryManager
    (registerGeometry "bare" (InstanceOf NewBaseGeometry))
    (world_of permissive (constructed permissive)).

(** A constructed core in which the torus class has been registered under
    the name of the hypercube, after the hypercube stage was compiled. *)
Definition world_reregistered : World :=
  upd_geometryManager
    (registerGeometry "hypercube" (InstanceOf TorusGeometry))
    (world_of permissive (constructed permissive)).

(** * Properties *)

(** ** Stepping through computations *)

Section Stepping.

Context {A B : Type}.
Implicit Types (k : A -> M B) (w : World).

Lemma bind_ret (a : A) k w : bind (ret a) k w = k a w.
Proof. done. Qed.

Lemma bind_throw (e : JSError) k w : bind (throw e) k w = Throws e w.
Proof. done. Qed.

Lemma bind_unsupported k w : bind unsupported k w = Unsupported.
Proof. done. Qed.

Lemma bind_gets (f : World -> A) k w : bind (gets f) k w = k (f w) w.
Proof. done. Qed.

Lemma bind_gl_read (f : WebGLContext -> A) k w :
  bind (gl_read f) k w = k (f (context w)) w.
Proof. done. Qed.

Lemma bind_gl_call (f : WebGLContext -> A * WebGLContext) k w :
  bind (gl_call f) k w
  = k (f (context w)).1 (upd_context (fun _ => (f (context w)).2) w).
Proof. done. Qed.

Lemma bind_lift_sum_inr (a : A) k w : bind (lift_sum (inr a)) k w = k a w.
Proof. done. Qed.

Lemma bind_lift_sum_inl (e : JSError) k w :
  bind (lift_sum (inl e)) k w = Throws e w.
Proof. done. Qed.

Lemma bind_Returns (m : M A) k w (a : A) w' :
  m w = Returns a w' -> bind m k w = k a w'.
Proof. unfold bind. by intros ->. Qed.

Lemma bind_Throws (m : M A) k w (e : JSError) w' :
  m w = Throws e w' -> bind m k w = Throws e w'.
Proof. unfold bind. by intros ->. Qed.

End Stepping.

Section SteppingEffects.

Context {B : Type}.
Implicit Types (k : unit -> M B) (w : World).

Lemma bind_modify (f : World -> World) k w : bind (modify f) k w = k tt (f w).
Proof. done. Qed.

Lemma bind_gl_do (f : WebGLContext -> WebGLContext) k w :
  bind (gl_do f) k w = k tt (upd_context f w).
Proof. done. Qed.

Lemma bind_sm_modify (f : ShaderManager -> ShaderManager) k w :
  bind (sm_modify f) k w = k tt (upd_shaderManager f w).
Proof. done. Qed.

Lemma bind_state_set (key : string) (v : JSValue) k w :
  bind (state_set key v) k w = k tt (upd_state (insert key v) w).
Proof. done. Qed.

Lemma bind_state_get (key : string) (k : JSValue -> M B) w :
  bind (state_get key) k w = k (default JUndefined (state w !! key)) w.
Proof. done. Qed.

End SteppingEffects.

Lemma bind_assoc {A B C} (m : M A) (k1 : A -> M B) (k2 : B -> M C) (w : World) :
  bind (bind m k1) k2 w = bind m (fun a => bind (k1 a) k2) w.
Proof. unfold bind. by destruct (m w). Qed.

Ltac mstep :=
  first
    [ rewrite bind_assoc | rewrite bind_ret | rewrite bind_gets
    | rewrite bind_gl_read | rewrite bind_gl_call
    | rewrite bind_lift_sum_inr | rewrite bind_lift_sum_inl
    | rewrite bind_modify | rewrite bind_gl_do | rewrite bind_sm_modify
    | rewrite bind_state_set | rewrite bind_state_get | rewrite bind_throw
    | rewrite bind_unsupported ].

Ltac msteps := repeat mstep.

(** Closed equations between computed values are checked by evaluation. *)
Ltac vm_refl :=
  lazymatch goal with
  | |- @eq ?T ?x ?y => vm_cast_no_check (@eq_refl T y)
  end.

(** ** Preservation *)

Section Preserves.

Context (I : World -> Prop).

Lemma preserves_ret {A} (a : A) : preserves I (ret a).
Proof. by intros w Hw. Qed.

Lemma preserves_throw {A} (e : JSError) : preserves I (@throw A e).
Proof. by intros w Hw. Qed.

Lemma preserves_unsupported {A} : preserves I (@unsupported A).
Proof. by intros w Hw. Qed.

Lemma preserves_gets {A} (f : World -> A) : preserves I (gets f).
Proof. by intros w Hw. Qed.

Lemma preserves_modify (f : World -> World) :
  (forall w, I w -> I (f w)) -> preserves I (modify f).
Proof. intros Hf w Hw. by apply Hf. Qed.

Lemma preserves_gl_call {A} (f : WebGLContext -> A * WebGLContext) :
  (forall w, I w -> I (upd_context (fun _ => (f (context w)).2) w)) ->
  preserves I (gl_call f).
Proof. intros Hf w Hw. by apply Hf. Qed.

Lemma preserves_after {A} (m : M A) (w w' : World) :
  preserves I m -> I w -> after m w = Some w' -> I w'.
Proof.
  intros Hm Hw. unfold after. specialize (Hm w Hw).
  destruct (m w); intros [= <-]; done.
Qed.

Lemma preserves_at {A} (m : M A) (w : World) :
  preserves I m -> I w ->
  match m w with
  | Returns _ w' | Throws _ w' => I w'
  | Unsupported => True
  end.
Proof. intros Hm Hw. by apply Hm. Qed.

Lemma preserves_bind {A B} (m : M A) (k : A -> M B) :
  preserves I m -> (forall a, preserves I (k a)) -> preserves I (bind m k).
Proof.
  intros Hm Hk w Hw. unfold bind. specialize (Hm w Hw).
  destruct (m w) as [a w'| |]; [|done..]. by apply Hk.
Qed.

Lemma preserves_try_catch {A} (m : M A) (h : JSError -> M A) :
  preserves I m -> (forall e, preserves I (h e)) -> preserves I (try_catch m h).
Proof.
  intros Hm Hh w Hw. unfold try_catch. specialize (Hm w Hw).
  destruct (m w) as [a w'|e w'|]; [done| |done]. by apply Hh.
Qed.

Lemma preserves_lift_sum {A} (r : JSError + A) : preserves I (lift_sum r).
Proof. destruct r; [apply preserves_throw | apply preserves_ret]. Qed.

End Preserves.

Section Supported.

Lemma supported_ret {A} (a : A) : supported (ret a).
Proof. by intros w. Qed.

Lemma supported_throw {A} (e : JSError) : supported (@throw A e).
Proof. by intros w. Qed.

Lemma supported_gets {A} (f : World -> A) : supported (gets f).
Proof. by intros w. Qed.

Lemma supported_modify (f : World -> World) : supported (modify f).
Proof. by intros w. Qed.

Lemma supported_gl_call {A} (f : WebGLContext -> A * WebGLContext) :
  supported (gl_call f).
Proof. by intros w. Qed.

Lemma supported_bind {A B} (m : M A) (k : A -> M B) :
  supported m -> (forall a, supported (k a)) -> supported (bind m k).
Proof.
  intros Hm Hk w. unfold bind. specialize (Hm w).
  destruct (m w) as [a w'| |]; [apply Hk|done..].
Qed.

Lemma supported_try_catch {A} (m : M A) (h : JSError -> M A) :
  supported m -> (forall e, supported (h e)) -> supported (try_catch m h).
Proof.
  intros Hm Hh w. unfold try_catch. specialize (Hm w).
  destruct (m w) as [a w'|e w'|]; [done|apply Hh|done].
Qed.

Lemma supported_lift_sum {A} (r : JSError + A) : supported (lift_sum r).
Proof. destruct r; [apply supported_throw | apply supported_ret]. Qed.

Lemma ends_intro {A} (I : World -> Prop) (m : M A) (w : World) :
  preserves I m -> supported m -> I w -> ends (m w) I.
Proof.
  intros Hp Hs Hw. unfold ends. specialize (Hp w Hw). specialize (Hs w).
  by destruct (m w).
Qed.

Lemma ends_bind {A B} (Q P : World -> Prop) (m : M A) (k : A -> M B) (w : World) :
  preserves Q m -> supported m -> Q w ->
  (forall w', Q w' -> P w') ->
  (forall a w', Q w' -> ends (k a w') P) ->
  ends (bind m k w) P.
Proof.
  intros Hp Hs Hw HQP Hk. unfold bind. specialize (Hp w Hw). specialize (Hs w).
  destruct (m w) as [a w'|e w'|]; [by apply Hk|by apply HQP|done].
Qed.


End Supported.

Create HintDb methods discriminated.

#[local] Hint Unfold
  _compileShader _createProgram createDynamicProgram useProgram
  getUniformLocation getAttributeLocation setupShaderPrograms
  _markUniformDirty requestAnimationFrame cancelAnimationFrame setTimeout
  onError onRender stop programNameOf _updateShaderIfNeeded gl_uniform
  uploadUniform programArgument _setUniforms toNumberM _checkResize
  clearColor_background start initWebGL _setupWebGLState _initBuffers
  on_webglcontextlost set_contextLost take_frame take_timer : methods.

(** One step of a preservation proof: [known] closes calls that have a
    lemma of their own, [leaf] the field updates. *)
Ltac preserves_step known leaf :=
  lazymatch goal with
  | |- preserves _ (bind _ _) => apply preserves_bind; [|intros ?]
  | |- preserves _ (ret _) => apply preserves_ret
  | |- preserves _ (throw _) => apply preserves_throw
  | |- preserves _ unsupported => apply preserves_unsupported
  | |- preserves _ (gets _) => apply preserves_gets
  | |- preserves _ (lift_sum _) => apply preserves_lift_sum
  | |- preserves _ (try_catch _ _) => apply preserves_try_catch; [|intros ?]
  | |- preserves _ (gl_read _) => apply preserves_gets
  | |- preserves _ (state_get _) => apply preserves_gets
  | |- preserves _ (gl_call _) => apply preserves_gl_call; leaf
  | |- preserves _ (modify _) => apply preserves_modify; leaf
  | |- preserves _ (gl_do _) => apply preserves_modify; leaf
  | |- preserves _ (sm_modify _) => apply preserves_modify; leaf
  | |- preserves _ (state_set _ _) => apply preserves_modify; leaf
  | |- preserves _ (if ?b then _ else _) => destruct b eqn:?
  | |- preserves _ (match ?x with _ => _ end) => destruct x eqn:?
  | |- preserves _ _ => first [known | progress autounfold with methods]
  end.

Ltac preserves_with known leaf := repeat (preserves_step known leaf).

(** Calls closed by a lemma: the lemma is tried on the matching call only. *)
Ltac call_lemma lem :=
  lazymatch type of lem with
  | context [preserves _ (?f _ _ _)] =>
      lazymatch goal with |- preserves _ (f _ _ _) => apply lem end
  | context [preserves _ (?f _ _)] =>
      lazymatch goal with |- preserves _ (f _ _) => apply lem end
  | context [preserves _ (?f _)] =>
      lazymatch goal with |- preserves _ (f _) => apply lem end
  | context [preserves _ ?f] =>
      lazymatch goal with |- preserves _ f => apply lem end
  end.

(** One step of a proof that a computation stays within the embedding. *)
Ltac supported_step known :=
  lazymatch goal with
  | |- supported (bind _ _) => apply supported_bind; [|intros ?]
  | |- supported (ret _) => apply supported_ret
  | |- supported (throw _) => apply supported_throw
  | |- supported (gets _) => apply supported_gets
  | |- supported (lift_sum _) => apply supported_lift_sum
  | |- supported (try_catch _ _) => apply supported_try_catch; [|intros ?]
  | |- supported (gl_read _) => apply supported_gets
  | |- supported (state_get _) => apply supported_gets
  | |- supported (gl_call _) => apply supported_gl_call
  | |- supported (modify _) => apply supported_modify
  | |- supported (gl_do _) => apply supported_modify
  | |- supported (sm_modify _) => apply supported_modify
  | |- supported (state_set _ _) => apply supported_modify
  | |- supported (if ?b then _ else _) => destruct b eqn:?
  | |- supported (match ?x with _ => _ end) => destruct x eqn:?
  | |- supported _ => first [known | progress autounfold with methods]
  end.

Ltac supported_with known := repeat (supported_step known).

(** ** Strings *)



(** A pattern that does not occur is not replaced. *)
Lemma replace_absent (s p r : string) :
  JSString.includes s p = false -> JSString.replace s p r = s.
Proof.
  unfold JSString.includes, JSString.replace.
  by destruct (JSString.indexOf s p).
Qed.

(** ** Serialisations *)

Lemma Json_eqb_eq (a b : Json) : Json_eqb a b = true <-> a = b.
Proof.
  revert a b. fix IH 1.
  intros a b.
  destruct a as [| x | x | x | xs | ps], b as [| y | y | y | ys | qs];
    cbn [Json_eqb]; try (split; [discriminate | discriminate]); try done.
  - rewrite Bool.eqb_true_iff. split; congruence.
  - destruct x as [xn xd], y as [yn yd]. cbn [Qnum Qden].
    rewrite andb_true_iff, Z.eqb_eq, Pos.eqb_eq.
    split; [intros []; congruence | intros [= -> ->]; done].
  - rewrite String.eqb_eq. split; congruence.
  - revert ys. induction xs as [|x xs IHxs]; intros [|y ys];
      try (split; [discriminate | discriminate]); try done.
    rewrite andb_true_iff, IH. specialize (IHxs ys). split.
    + intros [-> H]. apply IHxs in H. congruence.
    + intros [= -> ->]. split; [done|]. by apply IHxs.
  - revert qs. induction ps as [|[k x] ps IHps]; intros [|[l y] qs];
      try (split; [discriminate | discriminate]); try done.
    rewrite !andb_true_iff, IH, String.eqb_eq. specialize (IHps qs). split.
    + intros [[-> ->] H]. apply IHps in H. congruence.
    + intros [= -> -> ->]. split; [done|]. by apply IHps.
Qed.

(** [stringify_differs] decides whether the two serialisations differ. *)
Lemma stringify_differs_spec (a b : JSValue) :
  stringify_differs a b = false <-> JSON_stringify a = JSON_stringify b.
Proof.
  unfold stringify_differs.
  destruct (JSON_stringify a) as [x|], (JSON_stringify b) as [y|]; try done.
  rewrite negb_false_iff, Json_eqb_eq. split; congruence.
Qed.

Lemma stringify_differs_refl (a : JSValue) : stringify_differs a a = false.
Proof. by apply stringify_differs_spec. Qed.

(** ** Registries *)

Section Registries.

Implicit Types (gm : GeometryManager) (pm : ProjectionManager).









End Registries.



(** ** Registration and composition *)

(** Compiling a stage never throws, and touches neither the registries nor
    the shader sources. *)
Lemma _compileShader_returns (id src : string) (ty : ShaderType) (w : World) :
  exists r w', _compileShader id src ty w = Returns r w' /\
    geometryManager w' = geometryManager w /\
    projectionManager w' = projectionManager w /\
    shaderSources (shaderManager w') = shaderSources (shaderManager w) /\
    baseFragmentShaderName (shaderManager w') = baseFragmentShaderName (shaderManager w).
Proof.
  unfold _compileShader. msteps.
  destruct (compiledShaders (shaderManager w) !! id) as [[h|]|]; eauto 10.
  all: msteps; destruct (GL.createShader ty (context w)) as [[h|] gl'] eqn:E;
    cbn [fst snd]; msteps; eauto 10.
  all: match goal with |- context [negb ?b] => destruct b end; cbn [negb];
    msteps; eauto 10.
Qed.

Lemma createDynamicProgram_missing_calculateLattice (w : World) (prog : string)
    (gn pn : JSValue) (g : BaseGeometry) (p : BaseProjection)
    (gcode : string) (pcode : JSValue) :
  getGeometry gn (geometryManager w) = inr (Some g) ->
  getProjection pn (projectionManager w) = inr (Some p) ->
  getShaderCode g = inr (JString gcode) ->
  getShaderCode p = inr pcode ->
  JSString.includes gcode "calculateLattice" = false ->
  exists w', createDynamicProgram prog gn pn w = Returns None w' /\
    geometryManager w' = geometryManager w /\
    projectionManager w' = projectionManager w.
Proof.
  intros Hg Hp Hgc Hpc Hinc.
  unfold createDynamicProgram. msteps.
  destruct (shaderSources (shaderManager w) !! baseVertexShaderName (shaderManager w))
    as [[vsrc vty]|]; [|by eexists].
  destruct (_compileShader_returns (baseVertexShaderName (shaderManager w)) vsrc vty w)
    as (r & w1 & Hvs & Hgm & Hpm & _).
  rewrite (bind_Returns _ _ _ _ _ Hvs).
  destruct r as [vs|]; [|by eexists].
  msteps. rewrite Hgm, Hg. msteps. rewrite Hpm, Hp. msteps.
  rewrite Hgc, Hpc. msteps. cbn [asString].
  destruct (asString pcode); [|by eexists].
  rewrite Hinc. cbn [negb]. by eexists.
Qed.

Lemma createDynamicProgram_missing_project4Dto3D (w : World) (prog : string)
    (gn pn : JSValue) (g : BaseGeometry) (p : BaseProjection)
    (gcode : JSValue) (pcode : string) :
  getGeometry gn (geometryManager w) = inr (Some g) ->
  getProjection pn (projectionManager w) = inr (Some p) ->
  getShaderCode g = inr gcode ->
  getShaderCode p = inr (JString pcode) ->
  JSString.includes pcode "project4Dto3D" = false ->
  exists w', createDynamicProgram prog gn pn w = Returns None w' /\
    geometryManager w' = geometryManager w /\
    projectionManager w' = projectionManager w.
Proof.
  intros Hg Hp Hgc Hpc Hinc.
  unfold createDynamicProgram. msteps.
  destruct (shaderSources (shaderManager w) !! baseVertexShaderName (shaderManager w))
    as [[vsrc vty]|]; [|by eexists].
  destruct (_compileShader_returns (baseVertexShaderName (shaderManager w)) vsrc vty w)
    as (r & w1 & Hvs & Hgm & Hpm & _).
  rewrite (bind_Returns _ _ _ _ _ Hvs).
  destruct r as [vs|]; [|by eexists].
  msteps. rewrite Hgm, Hg. msteps. rewrite Hpm, Hp. msteps.
  rewrite Hgc, Hpc. msteps. cbn [asString].
  destruct (asString gcode); [|by eexists].
  rewrite Hinc. cbn [negb].
  destruct (negb (JSString.includes _ "calculateLattice")); by eexists.
Qed.

(** C7 (as stated, false).  A fragment that contains neither [densityField]
    nor any other required name is registered: the call returns normally
    and the registry has a new entry. *)
Lemma C7_counterexample :
  JSString.includes plainFragment "densityField" = false /\
  geometries (new_GeometryManager None) !! "plain" = None /\
  geometries
    (registerGeometry "plain" (InstanceOf (GeometrySubclass (JString plainFragment)))
       (new_GeometryManager None)) !! "plain"
  = Some (GeometrySubclass (JString plainFragment)).
Proof. by vm_compute. Qed.

(** C7 (amended).  Registration looks at the class of the object, not at
    its fragment source: a value that is not an instance of the role's base
    class is refused and leaves the registry unchanged, while every
    instance is stored under the lowercased name whatever its source.  A
    fragment without the function the template calls ([calculateLattice]
    for a geometry, [project4Dto3D] for a projection) is rejected later,
    when a program is composed from it: [createDynamicProgram] returns null
    and both registries stay as they were. *)
Theorem C7_registration_checks_the_class :
  (forall (name : string) (v : JSValue) (gm : GeometryManager),
      registerGeometry name (NotAnInstance v) gm = gm) /\
  (forall (name : string) (v : JSValue) (pm : ProjectionManager),
      registerProjection name (NotAnInstance v) pm = pm) /\
  (forall (name : string) (g : BaseGeometry) (gm : GeometryManager),
      geometries (registerGeometry name (InstanceOf g) gm)
      = <[JSString.toLowerCase name := g]> (geometries gm)) /\
  (forall (name : string) (p : BaseProjection) (pm : ProjectionManager),
      projections (registerProjection name (InstanceOf p) pm)
      = <[JSString.toLowerCase name := p]> (projections pm)) /\
  (forall (w : World) (prog : string) (gn pn : JSValue)
          (g : BaseGeometry) (p : BaseProjection) (gcode pcode : string),
      getGeometry gn (geometryManager w) = inr (Some g) ->
      getProjection pn (projectionManager w) = inr (Some p) ->
      getShaderCode g = inr (JString gcode) ->
      getShaderCode p = inr (JString pcode) ->
      JSString.includes gcode "calculateLattice" = false \/
      JSString.includes pcode "project4Dto3D" = false ->
      exists w', createDynamicProgram prog gn pn w = Returns None w' /\
        geometryManager w' = geometryManager w /\
        projectionManager w' = projectionManager w).
Proof.
  split_and!; try done.
  intros w prog gn pn g p gcode pcode Hg Hp Hgc Hpc [Hinc|Hinc].
  - by eapply createDynamicProgram_missing_calculateLattice.
  - by eapply createDynamicProgram_missing_project4Dto3D.
Qed.

Lemma C7_witness :
  exists w',
    createDynamicProgram "maleficarumViz" (JString "plain") (JString "perspective")
      world_with_plain
    = Returns None w' /\
    geometryManager w' = geometryManager world_with_plain /\
    projectionManager w' = projectionManager world_with_plain.
Proof.
  destruct C7_registration_checks_the_class as (_ & _ & _ & _ & H).
  apply (H world_with_plain "maleficarumViz" (JString "plain") (JString "perspective")
           (GeometrySubclass (JString plainFragment)) PerspectiveProjection
           plainFragment GLSL.PerspectiveProjection).
  - by vm_compute.
  - by vm_compute.
  - reflexivity.
  - reflexivity.
  - left. by vm_compute.
Defined.

(** ** Frames of the shader manager *)

Section GpuFrame.

(** An invariant that reads neither the context nor the shader manager. *)
Context (I : World -> Prop).
Context (Hcontext : forall f w, I w -> I (upd_context f w)).
Context (HshaderManager : forall f w, I w -> I (upd_shaderManager f w)).

Ltac gpu_leaf := intros; first [by apply Hcontext | by apply HshaderManager].

Lemma _compileShader_frame (id src : string) (ty : ShaderType) :
  preserves I (_compileShader id src ty).
Proof. preserves_with fail gpu_leaf. Qed.

Lemma _createProgram_frame (name : string) (vs fs : nat) :
  preserves I (_createProgram name vs fs).
Proof. preserves_with fail gpu_leaf. Qed.

Lemma createDynamicProgram_frame (prog : string) (gn pn : JSValue) :
  preserves I (createDynamicProgram prog gn pn).
Proof.
  unfold createDynamicProgram.
  preserves_with
    ltac:(first [call_lemma _compileShader_frame | call_lemma _createProgram_frame])
    gpu_leaf.
Qed.

Lemma useProgram_frame (name : option string) : preserves I (useProgram name).
Proof. preserves_with fail gpu_leaf. Qed.


Lemma getAttributeLocation_frame (name : string) :
  preserves I (getAttributeLocation name).
Proof. preserves_with fail gpu_leaf. Qed.

End GpuFrame.

(** ** The shader manager stays within the embedding *)

Lemma _compileShader_supported (id src : string) (ty : ShaderType) :
  supported (_compileShader id src ty).
Proof. supported_with fail. Qed.

Lemma _createProgram_supported (name : string) (vs fs : nat) :
  supported (_createProgram name vs fs).
Proof. supported_with fail. Qed.


Lemma getUniformLocation_supported (name : string) :
  supported (getUniformLocation name).
Proof. supported_with fail. Qed.




(** ** Unregistered names (C2) *)



Lemma _markAllUniformsDirty_frame (I : World -> Prop) :
  (forall f w, I w -> I (upd__dirtyUniforms f w)) ->
  preserves I _markAllUniformsDirty.
Proof.
  intros Hdirty. unfold _markAllUniformsDirty, DEFAULT_STATE_keys.
  cbn [fold_left].
  preserves_with fail ltac:(intros; by apply Hdirty).
Qed.







(** ** Calls on the context only accumulate *)

Lemma calls_detach_all (old : nat) (l : list nat) (gl : WebGLContext) :
  calls (fold_left (fun gl s => GL.detachShader old s gl) l gl)
  = calls gl ++ (DetachShader old <$> l).
Proof.
  revert gl. induction l as [|s l IH]; intros gl; cbn [fold_left fmap list_fmap].
  - by rewrite app_nil_r.
  - rewrite IH. cbn. by rewrite <- app_assoc.
Qed.

Ltac issued_leaf :=
  intros; unfold issued in *; cbn;
  repeat match goal with
         | |- context [GL.createShader ?t ?g] =>
             unfold GL.createShader; destruct (contextLost g); cbn
         | |- context [GL.createProgram ?g] =>
             unfold GL.createProgram; destruct (contextLost g); cbn
         | |- context [GL.createBuffer ?g] =>
             unfold GL.createBuffer; destruct (contextLost g); cbn
         end;
  rewrite ?calls_detach_all, ?elem_of_app; auto.

Section Issued.

Context (c : GLCall).

Lemma _compileShader_issued (id src : string) (ty : ShaderType) :
  preserves (issued c) (_compileShader id src ty).
Proof. preserves_with fail issued_leaf. Qed.

Lemma _createProgram_issued (name : string) (vs fs : nat) :
  preserves (issued c) (_createProgram name vs fs).
Proof. preserves_with fail issued_leaf. Qed.

End Issued.

Lemma _createProgram_returns (name : string) (vs fs : nat) (w : World) :
  exists r w', _createProgram name vs fs w = Returns r w'.
Proof.
  unfold _createProgram. msteps.
  destruct (programs (shaderManager w) !! name) as [[old|]|]; msteps.
  all: match goal with
       | |- context [GL.createProgram ?g] =>
           destruct (GL.createProgram g) as [[h|] gl'] eqn:E
       end; cbn [fst snd]; msteps; eauto.
  all: match goal with |- context [negb ?b] => destruct b end; cbn [negb];
    msteps; eauto.
Qed.

(** ** Injection (C8) *)

Lemma assembledSource_no_markers (template geomGLSL projGLSL : string) :
  JSString.includes template GLSL.GEOMETRY_CODE_INJECTION_POINT = false ->
  JSString.includes template GLSL.PROJECTION_CODE_INJECTION_POINT = false ->
  assembledSource template geomGLSL projGLSL = template /\
  marker_left (assembledSource template geomGLSL projGLSL) = false.
Proof.
  intros Hg Hp. unfold assembledSource, marker_left.
  rewrite (replace_absent _ _ _ Hg), (replace_absent _ _ _ Hp).
  by rewrite Hg, Hp.
Qed.

Section Composition.

Context (w : World) (prog : string) (gn pn : JSValue).
Context (g : BaseGeometry) (p : BaseProjection) (gcode pcode template : string).
Context (fty : ShaderType).
Context (Hg : getGeometry gn (geometryManager w) = inr (Some g)).
Context (Hp : getProjection pn (projectionManager w) = inr (Some p)).
Context (Hgcode : getShaderCode g = inr (JString gcode)).
Context (Hpcode : getShaderCode p = inr (JString pcode)).
Context (Hcalc : JSString.includes gcode "calculateLattice" = true).
Context (Hproj : JSString.includes pcode "project4Dto3D" = true).
Context (Htemplate :
  shaderSources (shaderManager w) !! baseFragmentShaderName (shaderManager w)
  = Some (template, fty)).

Lemma createDynamicProgram_marker_left :
  marker_left (assembledSource template gcode pcode) = true ->
  exists w', createDynamicProgram prog gn pn w = Returns None w'.
Proof using All.
  intros Hleft. unfold createDynamicProgram. msteps.
  destruct (shaderSources (shaderManager w) !! baseVertexShaderName (shaderManager w))
    as [[vsrc vty]|]; [|by eexists].
  destruct (_compileShader_returns (baseVertexShaderName (shaderManager w)) vsrc vty w)
    as (r & w1 & Hvs & Hgm & Hpm & _).
  rewrite (bind_Returns _ _ _ _ _ Hvs).
  destruct r as [vs|]; [|by eexists].
  msteps. rewrite Hgm, Hg. msteps. rewrite Hpm, Hp. msteps.
  rewrite Hgcode, Hpcode. msteps. cbn [asString].
  rewrite Hcalc, Hproj. cbn [negb]. rewrite Htemplate.
  unfold marker_left, assembledSource in Hleft. rewrite Hleft. by eexists.
Qed.

Lemma createDynamicProgram_compiles_fragment
    (vsrc : string) (vty : ShaderType) (vs : nat) (gtxt ptxt : string) :
  shaderSources (shaderManager w) !! baseVertexShaderName (shaderManager w)
  = Some (vsrc, vty) ->
  compiledShaders (shaderManager w) !! baseVertexShaderName (shaderManager w)
  = Some (Some vs) ->
  templateText gn = Some gtxt ->
  templateText pn = Some ptxt ->
  compiledShaders (shaderManager w) !! fragmentId gtxt ptxt = None ->
  contextLost (context w) = false ->
  marker_left (assembledSource template gcode pcode) = false ->
  exists r w', createDynamicProgram prog gn pn w = Returns r w' /\
    issued (ShaderSource (nextName (context w)) (assembledSource template gcode pcode)) w' /\
    issued (CompileShader (nextName (context w))) w'.
Proof using All.
  intros Hvsrc Hvs Hgt Hpt Hfresh Hlive Hclean.
  unfold createDynamicProgram. msteps. rewrite Hvsrc.
  unfold _compileShader at 1. msteps. rewrite Hvs. msteps.
  rewrite Hg. msteps. rewrite Hp. msteps.
  rewrite Hgcode, Hpcode. msteps. cbn [asString].
  rewrite Hcalc, Hproj. cbn [negb]. rewrite Htemplate.
  unfold marker_left, assembledSource in Hclean. rewrite Hclean.
  rewrite Hgt, Hpt.
  fold (assembledSource template gcode pcode). fold (fragmentId gtxt ptxt).
  unfold _compileShader. msteps. rewrite Hfresh.
  msteps. unfold GL.createShader. rewrite Hlive. cbn [fst snd]. msteps.
  match goal with |- context [negb ?b] => destruct b end; cbn [negb]; msteps.
  - match goal with
    | |- context [bind (_createProgram ?n ?a ?b) ?k ?w0] =>
        destruct (_createProgram_returns n a b w0) as (r & w2 & Hcp);
        pose proof (_createProgram_issued
                      (ShaderSource (nextName (context w)) (assembledSource template gcode pcode))
                      n a b w0) as Hsrc;
        pose proof (_createProgram_issued (CompileShader (nextName (context w)))
                      n a b w0) as Hcomp;
        rewrite (bind_Returns _ _ _ _ _ Hcp)
    end.
    rewrite Hcp in Hsrc, Hcomp.
    assert (issued (ShaderSource (nextName (context w)) (assembledSource template gcode pcode)) w2)
      as Hsrc2 by (apply Hsrc; unfold issued; cbn; set_solver).
    assert (issued (CompileShader (nextName (context w))) w2)
      as Hcomp2 by (apply Hcomp; unfold issued; cbn; set_solver).
    msteps.
    destruct (bool_decide _); [destruct r|]; msteps;
      do 2 eexists; (split; [done|]); unfold issued in *; cbn; set_solver.
  - do 2 eexists. split; [done|]. unfold issued. cbn. set_solver.
Qed.

End Composition.

(** C8 (as stated, false).  A base template that contains neither
    injection point is not rejected: the composition goes on, compiles the
    template as it is and returns a linked program. *)
Lemma C8_counterexample :
  JSString.includes bareTemplate GLSL.GEOMETRY_CODE_INJECTION_POINT = false /\
  JSString.includes bareTemplate GLSL.PROJECTION_CODE_INJECTION_POINT = false /\
  returned (createDynamicProgram "maleficarumViz" (JString "torus") (JString "perspective")
              world_with_bareTemplate)
  = Some (Some 6%nat) /\
  (fun w => last (compileCalls w))
    <$> after (createDynamicProgram "maleficarumViz" (JString "torus") (JString "perspective"))
          world_with_bareTemplate
  = Some (Some (CompileShader 5)).
Proof. split_and!; vm_refl. Qed.

(** C8 (amended).  Composition fails (returns null) when an injection
    marker is still present in the fragment source after the geometry and
    projection fragments have been substituted.  The template itself is not
    checked: a template without the injection points is left unchanged by
    the substitution and passes the check, and every assembled source
    without markers is handed to the compiler. *)
Theorem C8_injection_is_checked_after_substitution :
  (forall (w : World) (prog : string) (gn pn : JSValue)
          (g : BaseGeometry) (p : BaseProjection)
          (gcode pcode template : string) (fty : ShaderType),
      getGeometry gn (geometryManager w) = inr (Some g) ->
      getProjection pn (projectionManager w) = inr (Some p) ->
      getShaderCode g = inr (JString gcode) ->
      getShaderCode p = inr (JString pcode) ->
      JSString.includes gcode "calculateLattice" = true ->
      JSString.includes pcode "project4Dto3D" = true ->
      shaderSources (shaderManager w) !! baseFragmentShaderName (shaderManager w)
      = Some (template, fty) ->
      marker_left (assembledSource template gcode pcode) = true ->
      exists w', createDynamicProgram prog gn pn w = Returns None w') /\
  (forall template gcode pcode : string,
      JSString.includes template GLSL.GEOMETRY_CODE_INJECTION_POINT = false ->
      JSString.includes template GLSL.PROJECTION_CODE_INJECTION_POINT = false ->
      assembledSource template gcode pcode = template /\
      marker_left (assembledSource template gcode pcode) = false) /\
  (forall (w : World) (prog : string) (gn pn : JSValue)
          (g : BaseGeometry) (p : BaseProjection)
          (gcode pcode template : string) (fty : ShaderType)
          (vsrc : string) (vty : ShaderType) (vs : nat) (gtxt ptxt : string),
      getGeometry gn (geometryManager w) = inr (Some g) ->
      getProjection pn (projectionManager w) = inr (Some p) ->
      getShaderCode g = inr (JString gcode) ->
      getShaderCode p = inr (JString pcode) ->
      JSString.includes gcode "calculateLattice" = true ->
      JSString.includes pcode "project4Dto3D" = true ->
      shaderSources (shaderManager w) !! baseFragmentShaderName (shaderManager w)
      = Some (template, fty) ->
      shaderSources (shaderManager w) !! baseVertexShaderName (shaderManager w)
      = Some (vsrc, vty) ->
      compiledShaders (shaderManager w) !! baseVertexShaderName (shaderManager w)
      = Some (Some vs) ->
      templateText gn = Some gtxt ->
      templateText pn = Some ptxt ->
      compiledShaders (shaderManager w) !! fragmentId gtxt ptxt = None ->
      contextLost (context w) = false ->
      marker_left (assembledSource template gcode pcode) = false ->
      exists r w', createDynamicProgram prog gn pn w = Returns r w' /\
        issued (ShaderSource (nextName (context w)) (assembledSource template gcode pcode)) w' /\
        issued (CompileShader (nextName (context w))) w').
Proof.
  split_and!.
  - intros. by eapply createDynamicProgram_marker_left.
  - apply assembledSource_no_markers.
  - intros. by eapply createDynamicProgram_compiles_fragment.
Qed.

Lemma C8_witness :
  (exists w', createDynamicProgram "maleficarumViz" (JString "echo") (JString "perspective")
                world_with_echo = Returns None w') /\
  (assembledSource bareTemplate GLSL.TorusGeometry GLSL.PerspectiveProjection = bareTemplate /\
   marker_left (assembledSource bareTemplate GLSL.TorusGeometry GLSL.PerspectiveProjection)
   = false) /\
  (exists r w',
     createDynamicProgram "maleficarumViz" (JString "torus") (JString "perspective")
       world_with_bareTemplate = Returns r w' /\
     issued (ShaderSource (nextName (context world_with_bareTemplate))
               (assembledSource bareTemplate GLSL.TorusGeometry GLSL.PerspectiveProjection)) w' /\
     issued (CompileShader (nextName (context world_with_bareTemplate))) w').
Proof.
  destruct C8_injection_is_checked_after_substitution as (Hleft & Hbare & Hgo).
  split_and!.
  - apply (Hleft world_with_echo "maleficarumViz" (JString "echo") (JString "perspective")
             (GeometrySubclass (JString echoFragment)) PerspectiveProjection
             echoFragment GLSL.PerspectiveProjection
             GLSL.baseFragmentShaderSource FRAGMENT_SHADER); try vm_refl; reflexivity.
  - apply (Hbare bareTemplate GLSL.TorusGeometry GLSL.PerspectiveProjection); vm_refl.
  - apply (Hbare bareTemplate GLSL.TorusGeometry GLSL.PerspectiveProjection); vm_refl.
  - apply (Hgo world_with_bareTemplate "maleficarumViz" (JString "torus") (JString "perspective")
             TorusGeometry PerspectiveProjection
             GLSL.TorusGeometry GLSL.PerspectiveProjection bareTemplate FRAGMENT_SHADER
             GLSL.baseVertexShaderSource VERTEX_SHADER 2%nat "torus" "perspective");
      try vm_refl; reflexivity.
Defined.

(** ** The program cache (C9) *)

Lemma glPrograms_detach_all (old : nat) (l : list nat) (gl : WebGLContext) (h : nat) :
  glPrograms (fold_left (fun gl s => GL.detachShader old s gl) l gl) !! h = None
  <-> glPrograms gl !! h = None.
Proof.
  revert gl. induction l as [|s l IH]; intros gl; cbn [fold_left]; [done|].
  rewrite IH. cbn. rewrite lookup_alter.
  case_decide; [|done]. subst. by destruct (glPrograms gl !! h).
Qed.

Lemma contextLost_detach_all (old : nat) (l : list nat) (gl : WebGLContext) :
  contextLost (fold_left (fun gl s => GL.detachShader old s gl) l gl) = contextLost gl.
Proof. revert gl. induction l as [|s l IH]; intros gl; cbn [fold_left]; [done|]. by rewrite IH. Qed.

Lemma nextName_detach_all (old : nat) (l : list nat) (gl : WebGLContext) :
  nextName (fold_left (fun gl s => GL.detachShader old s gl) l gl) = nextName gl.
Proof. revert gl. induction l as [|s l IH]; intros gl; cbn [fold_left]; [done|]. by rewrite IH. Qed.

Lemma _createProgram_disposes (w : World) (name : string) (vs fs old : nat) :
  programs (shaderManager w) !! name = Some (Some old) ->
  _createProgram name vs fs w = _createProgram name vs fs (disposed name old w).
Proof.
  intros Hold.
  assert (programs (shaderManager (disposed name old w)) !! name = None) as Hnone
    by apply lookup_delete_eq.
  unfold _createProgram. rewrite !bind_gets, Hold, Hnone. by msteps.
Qed.

Lemma _createProgram_fresh (w : World) (name : string) (vs fs : nat) :
  programs (shaderManager w) !! name = None ->
  contextLost (context w) = false ->
  exists r w', _createProgram name vs fs w = Returns r w' /\
    (forall c, issued c w -> issued c w') /\
    (forall h, (h < nextName (context w))%nat ->
       glPrograms (context w) !! h = None -> glPrograms (context w') !! h = None) /\
    (forall p, r = Some p ->
       p = nextName (context w) /\ issued (LinkProgram p) w' /\
       programs (shaderManager w') !! name = Some (Some p)) /\
    (r = None -> programs (shaderManager w') !! name = Some None).
Proof.
  intros Hnone Hlive.
  unfold _createProgram. msteps. rewrite Hnone. msteps.
  unfold GL.createProgram. rewrite Hlive. cbn [fst snd]. msteps.
  match goal with |- context [negb ?b] => destruct b end; cbn [negb]; msteps.
  - do 2 eexists. split; [reflexivity|]. unfold issued. split_and!.
    + intros c Hc. cbn. set_solver.
    + intros h Hh Hgone. cbn.
      rewrite !lookup_alter_ne, lookup_insert_ne by lia. done.
    + intros p [= <-]. split_and!; [done|cbn; set_solver|apply lookup_insert_eq].
    + done.
  - do 2 eexists. split; [reflexivity|]. unfold issued. split_and!.
    + intros c Hc. cbn. set_solver.
    + intros h Hh Hgone. cbn.
      rewrite lookup_delete_ne, !lookup_alter_ne, lookup_insert_ne by lia. done.
    + done.
    + intros _. apply lookup_insert_eq.
Qed.

Lemma _createProgram_replaces (w : World) (name : string) (vs fs old : nat) :
  programs (shaderManager w) !! name = Some (Some old) ->
  contextLost (context w) = false ->
  (old < nextName (context w))%nat ->
  exists r w', _createProgram name vs fs w = Returns r w' /\
    issued (DeleteProgram old) w' /\
    glPrograms (context w') !! old = None /\
    (forall p, r = Some p ->
       p ≠ old /\ issued (LinkProgram p) w' /\
       programs (shaderManager w') !! name = Some (Some p)) /\
    (r = None -> programs (shaderManager w') !! name ≠ Some (Some old)).
Proof.
  intros Hold Hlive Hlt.
  rewrite (_createProgram_disposes w name vs fs old Hold).
  assert (nextName (context (disposed name old w)) = nextName (context w)) as Hnext
    by apply nextName_detach_all.
  destruct (_createProgram_fresh (disposed name old w) name vs fs)
    as (r & w' & Hrun & Hcalls & Hprogs & Hsome & Hnone).
  { apply lookup_delete_eq. }
  { unfold disposed. cbn. by rewrite contextLost_detach_all. }
  exists r, w'. split; [done|]. split_and!.
  - apply Hcalls. unfold issued, disposed. cbn.
    apply elem_of_app. right. by apply list_elem_of_singleton.
  - apply Hprogs; [by rewrite Hnext|]. apply lookup_delete_eq.
  - intros p Hp. destruct (Hsome p Hp) as (-> & Hlink & Hstored).
    split_and!; [rewrite Hnext; lia|done|done].
  - intros Hr. rewrite (Hnone Hr). discriminate.
Qed.

Lemma _compileShader_cached (w : World) (id src : string) (ty : ShaderType) (h : nat) :
  compiledShaders (shaderManager w) !! id = Some (Some h) ->
  _compileShader id src ty w = Returns (Some h) w.
Proof. intros Hc. unfold _compileShader. msteps. by rewrite Hc. Qed.

(** C9 (as stated, false).  The core keeps one program, under its program
    name.  Switching from (hypercube, perspective) to (hypersphere,
    perspective) and back links three programs and deletes the first two:
    the program in use after switching back is a new one, not the one built
    for the pair before.  Only the compiled fragment stage of the pair is
    reused: the three updates compile three stages in all (the vertex stage
    and one fragment stage per pair). *)
Lemma C9_counterexample :
  storedProgram <$> constructed permissive = Some (Some (Some 4%nat)) /\
  (fun w => (storedProgram w, programCalls w, compileCalls w))
    <$> (constructed permissive
         ≫= steps [switch_geometry "hypersphere"; switch_geometry "hypercube"])
  = Some (Some (Some 7%nat),
          [CreateProgram 4; LinkProgram 4;
           DeleteProgram 4; CreateProgram 6; LinkProgram 6;
           DeleteProgram 6; CreateProgram 7; LinkProgram 7],
          [CompileShader 2; CompileShader 3; CompileShader 5]).
Proof. split; vm_refl. Qed.

(** C9 (amended).  Linked programs are stored under the program name, not
    under the (geometry, projection) pair: building a program for a name
    that already has one deletes the old program and links a new one, which
    takes its place under the name (or leaves the name without a program
    when the new one fails to link).  What is cached per pair is the
    compiled fragment stage: a stage compiled before is returned as it is,
    without a call on the context. *)
Theorem C9_program_is_rebuilt_under_its_name :
  (forall (w : World) (name : string) (vs fs old : nat),
      programs (shaderManager w) !! name = Some (Some old) ->
      contextLost (context w) = false ->
      (old < nextName (context w))%nat ->
      exists r w', _createProgram name vs fs w = Returns r w' /\
        issued (DeleteProgram old) w' /\
        glPrograms (context w') !! old = None /\
        (forall p, r = Some p ->
           p ≠ old /\ issued (LinkProgram p) w' /\
           programs (shaderManager w') !! name = Some (Some p)) /\
        (r = None -> programs (shaderManager w') !! name ≠ Some (Some old))) /\
  (forall (w : World) (id src : string) (ty : ShaderType) (h : nat),
      compiledShaders (shaderManager w) !! id = Some (Some h) ->
      _compileShader id src ty w = Returns (Some h) w).
Proof.
  split.
  - apply _createProgram_replaces.
  - apply _compileShader_cached.
Qed.

Lemma C9_witness :
  (exists r w',
     _createProgram "maleficarumViz" 2 3 (world_of permissive (constructed permissive))
     = Returns r w' /\
     issued (DeleteProgram 4) w' /\
     glPrograms (context w') !! 4%nat = None /\
     (forall p, r = Some p ->
        p ≠ 4%nat /\ issued (LinkProgram p) w' /\
        programs (shaderManager w') !! "maleficarumViz" = Some (Some p)) /\
     (r = None -> programs (shaderManager w') !! "maleficarumViz" ≠ Some (Some 4%nat))) /\
  _compileShader "fragment-hypercube-perspective" "" FRAGMENT_SHADER
    (world_of permissive (constructed permissive))
  = Returns (Some 3%nat) (world_of permissive (constructed permissive)).
Proof.
  destruct C9_program_is_rebuilt_under_its_name as [Hrebuild Hcached].
  split.
  - apply (Hrebuild (world_of permissive (constructed permissive)) "maleficarumViz"
             2%nat 3%nat 4%nat).
    + vm_refl.
    + vm_refl.
    + vm_compute. lia.
  - apply (Hcached (world_of permissive (constructed permissive))
             "fragment-hypercube-perspective" "" FRAGMENT_SHADER 3%nat).
    vm_refl.
Defined.

(** ** The dirty set *)

Lemma elem_of_Set_add (u name : string) (s : list string) :
  u ∈ Set_add name s <-> u = name \/ u ∈ s.
Proof.
  unfold Set_add. case_bool_decide as Hin.
  - split; [by right|]. by intros [->|?].
  - rewrite elem_of_app, list_elem_of_singleton. tauto.
Qed.

Lemma elem_of_Set_add_all (u : string) (names s : list string) :
  u ∈ fold_left (fun s name => Set_add name s) names s <-> u ∈ names \/ u ∈ s.
Proof.
  revert s. induction names as [|n names IH]; intros s; cbn [fold_left].
  - rewrite elem_of_nil. tauto.
  - rewrite IH, elem_of_Set_add, elem_of_cons. tauto.
Qed.

Lemma NoDup_Set_add (name : string) (s : list string) :
  NoDup s -> NoDup (Set_add name s).
Proof.
  intros Hs. unfold Set_add. case_bool_decide; [done|].
  apply NoDup_app. split_and!; [done| |apply NoDup_singleton].
  intros x Hx ->%list_elem_of_singleton. done.
Qed.

(** Each uniform belongs to one state key. *)
Lemma uniformNames_stateKeyOf (key u : string) :
  u ∈ uniformNames key -> stateKeyOf u = Some key.
Proof.
  unfold uniformNames.
  repeat match goal with
         | |- context [String.eqb key ?s] =>
             destruct (String.eqb_spec key s) as [->|_];
             [intros Hu;
              repeat (apply elem_of_cons in Hu as [->|Hu]; [reflexivity|]);
              by apply elem_of_nil in Hu|]
         end.
  by intros ?%elem_of_nil.
Qed.

Lemma uniformNames_disjoint (key key' u : string) :
  u ∈ uniformNames key -> u ∈ uniformNames key' -> key = key'.
Proof.
  intros H1%uniformNames_stateKeyOf H2%uniformNames_stateKeyOf. congruence.
Qed.

Lemma uniformNames_not_special (key : string) :
  uniformNames key ≠ [] ->
  (String.eqb key "_dirtyUniforms" || String.eqb key "callbacks") = false /\
  key ≠ "needsShaderUpdate".
Proof.
  intros Hne. split.
  - destruct (String.eqb_spec key "_dirtyUniforms") as [->|_]; [done|].
    destruct (String.eqb_spec key "callbacks") as [->|_]; done.
  - by intros ->.
Qed.

(** ** updateParameters *)


(** A write of the current value changes nothing. *)
Lemma updateParameter_same (w : World) (key : string) (v : JSValue) (flag : bool) :
  (String.eqb key "_dirtyUniforms" || String.eqb key "callbacks") = false ->
  state w !! key = Some v ->
  updateParameter key v flag w = Returns flag w.
Proof.
  intros Hspecial Hv. unfold updateParameter. rewrite Hspecial. msteps.
  rewrite Hv, stringify_differs_refl. by destruct (JS.isPlainObject v).
Qed.

Lemma updateParameter_unknown (w : World) (key : string) (v : JSValue) (flag : bool) :
  (String.eqb key "_dirtyUniforms" || String.eqb key "callbacks") = false ->
  state w !! key = None ->
  updateParameter key v flag w = Returns flag w.
Proof.
  intros Hspecial Hv. unfold updateParameter. rewrite Hspecial. msteps.
  by rewrite Hv.
Qed.

Section UpdateFrame.

(** An invariant that reads neither the state nor the dirty set. *)
Context (I : World -> Prop).
Context (Hstate : forall f w, I w -> I (upd_state f w)).
Context (Hdirty : forall f w, I w -> I (upd__dirtyUniforms f w)).





End UpdateFrame.

(** A write that names data properties only stays within the embedding. *)
Lemma updateParameter_supported (key : string) (v : JSValue) (flag : bool) :
  (String.eqb key "_dirtyUniforms" || String.eqb key "callbacks") = false ->
  supported (updateParameter key v flag).
Proof. intros Hspecial. unfold updateParameter. rewrite Hspecial. supported_with fail. Qed.

Lemma data_write_special (key : string) (v : JSValue) (rest : list (string * JSValue)) :
  data_write ((key, v) :: rest) ->
  (String.eqb key "_dirtyUniforms" || String.eqb key "callbacks") = false /\
  data_write rest.
Proof.
  intros H. apply Forall_cons in H as [[H1 H2] Hrest]. cbn in *. split; [|done].
  destruct (String.eqb_spec key "_dirtyUniforms"); [done|].
  by destruct (String.eqb_spec key "callbacks").
Qed.

Lemma updateParameters_supported (newParams : list (string * JSValue)) :
  data_write newParams -> supported (updateParameters newParams).
Proof.
  intros Hdata. unfold updateParameters.
  apply supported_bind.
  - generalize false. induction newParams as [|[key v] rest IH]; intros flag;
      cbn [updateParameters_loop]; [apply supported_ret|].
    apply data_write_special in Hdata as [Hspecial Hrest].
    apply supported_bind; [by apply updateParameter_supported|].
    intros flag'. by apply IH.
  - intros []; [apply supported_modify | apply supported_ret].
Qed.



(** ** Writes are stored as written (C3) *)

Lemma updateParameters_scalar (w : World) (key : string) (old v : JSValue) :
  (String.eqb key "_dirtyUniforms" || String.eqb key "callbacks") = false ->
  state w !! key = Some old ->
  JS.isPlainObject old = false ->
  JSON_stringify old ≠ JSON_stringify v ->
  exists w', updateParameters [(key, v)] w = Returns tt w' /\
    state w' !! key = Some v.
Proof.
  intros Hspecial Hold Hplain Hdiff.
  assert (stringify_differs old v = true) as Hd.
  { destruct (stringify_differs old v) eqn:E; [done|].
    by apply stringify_differs_spec in E. }
  unfold updateParameters. cbn [updateParameters_loop]. msteps.
  unfold updateParameter. rewrite Hspecial. msteps.
  rewrite Hold, Hplain, Hd. unfold _markUniformDirty. msteps. cbn [orb].
  destruct (String.eqb_spec key "geometryType") as [->|_]; cbn [orb].
  { eexists. split; [done|]. cbn. by rewrite lookup_insert_ne, lookup_insert_eq. }
  destruct (String.eqb_spec key "projectionMethod") as [->|_]; cbn [orb].
  { eexists. split; [done|]. cbn. by rewrite lookup_insert_ne, lookup_insert_eq. }
  eexists. split; [done|]. cbn. by rewrite lookup_insert_eq.
Qed.

Lemma updateParameters_group (w : World) (key : string) (old v : JSValue) :
  (String.eqb key "_dirtyUniforms" || String.eqb key "callbacks") = false ->
  state w !! key = Some old ->
  JS.isPlainObject old = true ->
  JSON_stringify old ≠ JSON_stringify v ->
  ends (updateParameters [(key, v)] w)
    (fun w' => state w' !! key = Some (JS.spread2 old v)).
Proof.
  intros Hspecial Hold Hplain Hdiff.
  assert (stringify_differs old v = true) as Hd.
  { destruct (stringify_differs old v) eqn:E; [done|].
    by apply stringify_differs_spec in E. }
  unfold updateParameters. cbn [updateParameters_loop]. msteps.
  unfold updateParameter. rewrite Hspecial. msteps.
  rewrite Hold, Hplain, Hd.
  rewrite bind_assoc, bind_state_set, bind_assoc.
  apply (ends_bind (fun w' => state w' !! key = Some (JS.spread2 old v))).
  - preserves_with fail ltac:(idtac; by intros).
  - supported_with fail.
  - apply lookup_insert_eq.
  - done.
  - intros _ w' Hw'. by msteps.
Qed.

(** The guarded upload of a scalar uniform hands the stored value to the
    context. *)
Lemma uploadUniform_scalar (w : World) (name key : string) (loc : WebGLUniformLocation) :
  uniformSource name = Some (uniform1f, key, None) ->
  gl w = true ->
  uploadUniform name loc w
  = Returns tt (upd_context (GL.log (Uniform loc (default JUndefined (state w !! key)))) w).
Proof.
  intros Hsrc Hgl. unfold uploadUniform, try_catch. rewrite Hsrc. msteps.
  unfold gl_uniform. msteps. by rewrite Hgl.
Qed.

(** C3 (as stated, false).  A write of 1000 to [dimensions] is stored as
    1000, outside the range 3..8 declared for the dimension uniform. *)
Lemma C3_counterexample :
  (fun w => state w !! "dimensions")
    <$> (constructed permissive ≫= after (updateParameters [("dimensions", JInt 1000)]))
  = Some (Some (JInt 1000)) /\
  ~ within u_dimension_range (JInt 1000).
Proof.
  split; [vm_refl|]. intros [_ H]. by vm_compute in H.
Qed.

(** C3 (amended).  For every parameter write with a known key the value is
    stored without clamping.  A value written to a scalar parameter whose
    serialisation differs from the current one is stored exactly as
    written; a write to an object-valued group ([audioLevels],
    [colorScheme]) stores the spread of the old group and the written
    value.  A read does not clamp either: the upload of a scalar uniform
    passes the stored value on as it is. *)
Theorem C3_writes_are_stored_unclamped :
  (forall (w : World) (key : string) (old v : JSValue),
      (String.eqb key "_dirtyUniforms" || String.eqb key "callbacks") = false ->
      state w !! key = Some old ->
      JS.isPlainObject old = false ->
      JSON_stringify old ≠ JSON_stringify v ->
      exists w', updateParameters [(key, v)] w = Returns tt w' /\
        state w' !! key = Some v) /\
  (forall (w : World) (key : string) (old v : JSValue),
      (String.eqb key "_dirtyUniforms" || String.eqb key "callbacks") = false ->
      state w !! key = Some old ->
      JS.isPlainObject old = true ->
      JSON_stringify old ≠ JSON_stringify v ->
      ends (updateParameters [(key, v)] w)
        (fun w' => state w' !! key = Some (JS.spread2 old v))) /\
  (forall (w : World) (name key : string) (loc : WebGLUniformLocation),
      uniformSource name = Some (uniform1f, key, None) ->
      gl w = true ->
      uploadUniform name loc w
      = Returns tt
          (upd_context (GL.log (Uniform loc (default JUndefined (state w !! key)))) w)).
Proof.
  split_and!.
  - apply updateParameters_scalar.
  - apply updateParameters_group.
  - apply uploadUniform_scalar.
Qed.

Lemma C3_witness :
  (exists w',
     updateParameters [("dimensions", JInt 1000)] (world_of permissive (constructed permissive))
     = Returns tt w' /\
     state w' !! "dimensions" = Some (JInt 1000)) /\
  ends (updateParameters [("audioLevels", JObject [("bass", JInt 7)])]
          (world_of permissive (constructed permissive)))
    (fun w' =>
       state w' !! "audioLevels"
       = Some (JS.spread2
                 (JObject [("bass", JInt 0); ("mid", JInt 0); ("high", JInt 0)])
                 (JObject [("bass", JInt 7)]))) /\
  uploadUniform "u_dimension" {| ofProgram := 4; uniformName := "u_dimension" |}
    (world_of permissive (constructed permissive))
  = Returns tt
      (upd_context
         (GL.log (Uniform {| ofProgram := 4; uniformName := "u_dimension" |}
                    (default JUndefined
                       (state (world_of permissive (constructed permissive)) !! "dimensions"))))
         (world_of permissive (constructed permissive))).
Proof.
  destruct C3_writes_are_stored_unclamped as (Hscalar & Hgroup & Hread).
  split_and!.
  - apply (Hscalar (world_of permissive (constructed permissive)) "dimensions"
             (JInt 4) (JInt 1000)).
    + reflexivity.
    + vm_refl.
    + reflexivity.
    + vm_compute. discriminate.
  - apply (Hgroup (world_of permissive (constructed permissive)) "audioLevels"
             (JObject [("bass", JInt 0); ("mid", JInt 0); ("high", JInt 0)])
             (JObject [("bass", JInt 7)])).
    + reflexivity.
    + vm_refl.
    + reflexivity.
    + vm_compute. discriminate.
  - apply (Hread (world_of permissive (constructed permissive)) "u_dimension" "dimensions").
    + reflexivity.
    + vm_refl.
Defined.

(** ** No-op writes (C4) *)

Lemma NoDup_fst_functional {A B} (l : list (A * B)) (k : A) (v v' : B) :
  NoDup l.*1 -> (k, v) ∈ l -> (k, v') ∈ l -> v = v'.
Proof.
  induction l as [|[k0 v0] l IH]; intros Hnd Hv Hv'.
  - by apply elem_of_nil in Hv.
  - cbn in Hnd. apply NoDup_cons in Hnd as [Hnotin Hnd].
    assert (forall x, (k0, x) ∈ l -> False) as Habsent.
    { intros x Hx. apply Hnotin. apply list_elem_of_fmap. by exists (k0, x). }
    apply elem_of_cons in Hv as [Hv|Hv]; apply elem_of_cons in Hv' as [Hv'|Hv'].
    + congruence.
    + injection Hv as -> ->. by destruct (Habsent v').
    + injection Hv' as -> ->. by destruct (Habsent v).
    + by apply IH.
Qed.

Section NoOpWrite.

Context (w0 : World) (key : string) (v : JSValue).
Context (Hparameter : uniformNames key ≠ []).

Lemma _markUniformDirty_other (stateKey : string) :
  (forall u, u ∈ uniformNames key -> u ∉ uniformNames stateKey) ->
  preserves (untouched w0 key v) (_markUniformDirty stateKey).
Proof.
  intros Hdisjoint. unfold _markUniformDirty. apply preserves_modify.
  intros w [Hs Hd]. split; [done|]. cbn. intros u Hu Hin.
  apply elem_of_Set_add_all in Hin as [Hin|Hin]; [|by apply Hd].
  exfalso. by eapply Hdisjoint.
Qed.

Lemma updateParameter_other (key' : string) (v' : JSValue) (flag : bool) :
  key' ≠ key -> preserves (untouched w0 key v) (updateParameter key' v' flag).
Proof using Hparameter.
  intros Hne. unfold updateParameter.
  preserves_with
    ltac:(idtac; lazymatch goal with
          | |- preserves _ (_markUniformDirty key') =>
              apply _markUniformDirty_other; intros u Hu Hu';
              apply Hne; symmetry; by eapply uniformNames_disjoint
          | |- preserves _ (_markUniformDirty _) =>
              apply _markUniformDirty_other; intros u _ Hu';
              by apply elem_of_nil in Hu'
          end)
    ltac:(intros w [Hs Hd]; split; cbn; [by rewrite lookup_insert_ne | done]).
Qed.

Lemma updateParameters_loop_untouched (l : list (string * JSValue)) (flag : bool) :
  (forall k' v', (k', v') ∈ l -> k' = key -> v' = v) ->
  preserves (untouched w0 key v) (updateParameters_loop l flag).
Proof using Hparameter.
  revert flag. induction l as [|[k' v'] l IH]; intros flag Hfun;
    cbn [updateParameters_loop]; [apply preserves_ret|].
  apply preserves_bind.
  - destruct (decide (k' = key)) as [->|Hne].
    + rewrite (Hfun key v') by (done || left).
      intros w [Hs Hd].
      rewrite updateParameter_same;
        [done | by apply uniformNames_not_special | done].
    + by apply updateParameter_other.
  - intros flag'. apply IH. intros k'' v'' Hin. apply Hfun. by right.
Qed.

Lemma updateParameters_untouched (l : list (string * JSValue)) :
  (forall k' v', (k', v') ∈ l -> k' = key -> v' = v) ->
  preserves (untouched w0 key v) (updateParameters l).
Proof using Hparameter.
  intros Hfun. unfold updateParameters.
  apply preserves_bind; [by apply updateParameters_loop_untouched|].
  intros []; [|apply preserves_ret].
  apply preserves_modify. intros w [Hs Hd]. split; [|done]. cbn.
  rewrite lookup_insert_ne; [done|].
  intros <-. by apply uniformNames_not_special in Hparameter as [_ ?].
Qed.

End NoOpWrite.

(** C4.  A write that sets a parameter to the value it has leaves the
    stored value as it is and adds none of the parameter's uniforms to the
    dirty set, whatever else the same call writes.  A parameter is a state
    key that feeds a uniform; the write names data properties only, with
    each key once. *)
Theorem C4_noop_writes_do_not_mark_dirty
    (w : World) (newParams : list (string * JSValue)) (key : string) (v : JSValue) :
  uniformNames key ≠ [] ->
  NoDup newParams.*1 ->
  data_write newParams ->
  (key, v) ∈ newParams ->
  state w !! key = Some v ->
  ends (updateParameters newParams w)
    (fun w' =>
       state w' !! key = Some v /\
       forall u, u ∈ uniformNames key -> u ∈ _dirtyUniforms w' -> u ∈ _dirtyUniforms w).
Proof.
  intros Hparameter Hnodup Hdata Hin Hv.
  apply ends_intro.
  - apply updateParameters_untouched; [done|].
    intros k' v' Hin' ->. by eapply NoDup_fst_functional.
  - by apply updateParameters_supported.
  - done.
Qed.

Lemma C4_witness :
  ends (updateParameters [("morphFactor", JInt 1); ("dimensions", JInt 4)]
          (world_of permissive (running permissive)))
    (fun w' =>
       state w' !! "dimensions" = Some (JInt 4) /\
       forall u, u ∈ uniformNames "dimensions" -> u ∈ _dirtyUniforms w' ->
                 u ∈ _dirtyUniforms (world_of permissive (running permissive))).
Proof.
  apply (C4_noop_writes_do_not_mark_dirty (world_of permissive (running permissive))
           [("morphFactor", JInt 1); ("dimensions", JInt 4)] "dimensions" (JInt 4)).
  - discriminate.
  - compute_done.
  - repeat constructor; discriminate.
  - apply elem_of_cons. right. apply elem_of_cons. by left.
  - vm_refl.
Defined.

(** ** Flushing the dirty set (C5) *)

Lemma uploadUniform_effect (name : string) (loc : WebGLUniformLocation) (w : World) :
  uploadUniform name loc w = Returns tt w \/
  exists v, uploadUniform name loc w
            = Returns tt (upd_context (GL.log (Uniform loc v)) w).
Proof.
  unfold uploadUniform, try_catch.
  destruct (uniformSource name) as [[[setter key] sub]|]; [|by left].
  msteps.
  assert (forall v : JSValue,
             gl_uniform setter loc v w = Returns tt (upd_context (GL.log (Uniform loc v)) w) \/
             exists e, gl_uniform setter loc v w = Throws e w) as Hset.
  { intros v. unfold gl_uniform. msteps. destruct (gl w); cbn [negb]; [|by eauto].
    destruct setter, v; eauto. }
  destruct sub as [k|].
  - destruct (member (default JUndefined (state w !! key)) k) as [e|v]; msteps; [by left|].
    destruct (Hset v) as [->|[e ->]]; eauto.
  - msteps. destruct (Hset (default JUndefined (state w !! key))) as [->|[e ->]]; eauto.
Qed.

Lemma resolved_log (name : string) (p : nat) (w : World) (c : GLCall) (u : string) :
  resolved name p (upd_context (GL.log c) w) u = resolved name p w u.
Proof. done. Qed.

Lemma program_in_use_log (name : string) (p : nat) (w : World) (c : GLCall) :
  program_in_use name p w -> program_in_use name p (upd_context (GL.log c) w).
Proof. done. Qed.

Section Flush.

Context (name : string) (p : nat).

Lemma currentProgram_in_use (w : World) :
  program_in_use name p w -> currentProgram (shaderManager w) = Some (name, p).
Proof.
  intros (Hcur & Hname & Hprog & _). unfold currentProgram. rewrite Hcur, Hprog.
  by destruct (String.eqb_spec name "").
Qed.

(** A lookup returns the resolved location; afterwards every name still
    resolves as before. *)
Lemma getUniformLocation_resolved (w : World) (u : string) :
  program_in_use name p w ->
  exists w', getUniformLocation u w = Returns (resolved name p w u) w' /\
    program_in_use name p w' /\
    (forall u', resolved name p w' u' = resolved name p w u') /\
    _dirtyUniforms w' = _dirtyUniforms w /\ gl w' = gl w.
Proof.
  intros Huse. pose proof (currentProgram_in_use w Huse) as Hcp.
  destruct Huse as (Hcur & Hname & Hprog & [cache Hcache]).
  unfold getUniformLocation. msteps. rewrite Hcp, Hcache.
  unfold resolved. rewrite Hcache.
  destruct (cache !! u) as [loc|] eqn:Hu.
  - exists w. split; [done|]. split; [by repeat split; eauto|]. by rewrite Hcache.
  - msteps. eexists. split; [done|]. split.
    + repeat split; try done. cbn. rewrite lookup_insert_eq. by eexists.
    + split; [|done]. intros u'. cbn. rewrite lookup_insert_eq.
      destruct (decide (u = u')) as [->|Hne].
      * by rewrite lookup_insert_eq, Hu.
      * by rewrite lookup_insert_ne.
Qed.

Lemma useProgram_in_use (w : World) :
  name ≠ "" ->
  programs (shaderManager w) !! name = Some (Some p) ->
  is_Some (uniformLocations (shaderManager w) !! name) ->
  exists w', useProgram (Some name) w = Returns true w' /\
    program_in_use name p w' /\
    (forall u, resolved name p w' u = resolved name p w u) /\
    _dirtyUniforms w' = _dirtyUniforms w /\ gl w' = gl w /\ state w' = state w.
Proof.
  intros Hname Hprog Hcache. unfold useProgram. msteps. rewrite Hprog. msteps.
  case_bool_decide; msteps; eexists; (split; [done|]); by repeat split.
Qed.

(** The loop keeps the names that do not resolve, [u_time] apart. *)
Lemma forEachDirty_retries (w0 : World) (dirty : list string) :
  forall (acc : list string) (w : World),
    program_in_use name p w ->
    (forall u, resolved name p w u = resolved name p w0 u) ->
    exists acc' w', forEachDirty dirty acc w = Returns acc' w' /\
      forall u, u ∈ acc' <->
        u ∈ acc \/ (u ∈ dirty /\ u ≠ "u_time" /\ resolved name p w0 u = None).
Proof.
  induction dirty as [|d dirty IH]; intros acc w Huse Hres; cbn [forEachDirty].
  - exists acc, w. split; [done|]. intros u. rewrite elem_of_nil. tauto.
  - destruct (String.eqb_spec d "u_time") as [->|Hd].
    + destruct (IH acc w Huse Hres) as (acc' & w' & -> & Hacc).
      exists acc', w'. split; [done|]. intros u. rewrite Hacc, elem_of_cons.
      split; [tauto|]. intros [?|([->|?] & ? & ?)]; tauto.
    + destruct (getUniformLocation_resolved w d Huse)
        as (w1 & Hget & Huse1 & Hres1 & _).
      rewrite (bind_Returns _ _ _ _ _ Hget), Hres.
      assert (forall u, resolved name p w1 u = resolved name p w0 u) as Hres1'
        by (intros u; by rewrite Hres1).
      destruct (resolved name p w0 d) as [loc|] eqn:Hloc.
      * assert (exists w2, uploadUniform d loc w1 = Returns tt w2 /\
                  program_in_use name p w2 /\
                  forall u, resolved name p w2 u = resolved name p w0 u)
          as (w2 & Hup & Huse2 & Hres2).
        { destruct (uploadUniform_effect d loc w1) as [->|[v ->]]; eauto. }
        rewrite (bind_Returns _ _ _ _ _ Hup).
        destruct (IH acc w2 Huse2 Hres2) as (acc' & w' & -> & Hacc).
        exists acc', w'. split; [done|]. intros u. rewrite Hacc, elem_of_cons.
        split; [tauto|]. intros [?|([->|?] & ? & ?)]; [tauto|congruence|tauto].
      * destruct (IH (Set_add d acc) w1 Huse1 Hres1') as (acc' & w' & -> & Hacc).
        exists acc', w'. split; [done|]. intros u.
        rewrite Hacc, elem_of_Set_add, elem_of_cons.
        split; [|tauto]. intros [[->|?]|?]; tauto.
Qed.

End Flush.

(** C5, as the specification has it, fails: with a driver that optimizes
    [u_glitchIntensity] out, the name is still in the dirty set after the
    first rendered frame, and after the second. *)
Lemma C5_counterexample :
  (_dirtyUniforms <$> running optimizing) = Some ["u_glitchIntensity"] /\
  (_dirtyUniforms <$> (running optimizing ≫= run [AnimationFrame 1032]))
    = Some ["u_glitchIntensity"].
Proof. split; vm_refl. Qed.

(** C5, amended: a flush with the program of [state.shaderProgramName] in
    place returns, and the dirty set it leaves holds the dirty names,
    [u_time] apart, whose location does not resolve: they are looked up
    again by the next flush, and the set is empty only when every dirty
    name resolves. *)
Theorem C5_unresolved_uniforms_stay_dirty (name : string) (p : nat) (w : World) :
  state w !! "shaderProgramName" = Some (JString name) ->
  name ≠ "" ->
  programs (shaderManager w) !! name = Some (Some p) ->
  is_Some (uniformLocations (shaderManager w) !! name) ->
  gl w = true ->
  exists w', _setUniforms w = Returns tt w' /\
    forall u, u ∈ _dirtyUniforms w' <->
      u ∈ _dirtyUniforms w /\ u ≠ "u_time" /\ resolved name p w u = None.
Proof.
  intros Hstate Hname Hprog Hcache Hgl.
  destruct (useProgram_in_use name p w Hname Hprog Hcache)
    as (w1 & Huse & Hin1 & Hres1 & Hdirty1 & Hgl1 & Hstate1).
  unfold _setUniforms, state_get. msteps. rewrite Hstate.
  cbn [default id programArgument]. msteps.
  rewrite (bind_Returns _ _ _ _ _ Huse). msteps.
  destruct Hin1 as (Hcur & Hin1'). pose proof (conj Hcur Hin1') as Hin1.
  rewrite Hcur, bool_decide_eq_true_2 by done. cbn [negb orb].
  destruct (getUniformLocation_resolved name p w1 "u_time" Hin1)
    as (w2 & Hget & Hin2 & Hres2 & Hdirty2 & Hgl2).
  rewrite (bind_Returns _ _ _ _ _ Hget).
  assert (exists w3,
      (match resolved name p w1 "u_time" with
       | Some loc => let* time := gets (fun w0 => default JUndefined (state w0 !! "time")) in
                     gl_uniform uniform1f loc time
       | None => modify (upd__dirtyUniforms (Set_add "u_time"))
       end) w2 = Returns tt w3 /\
      program_in_use name p w3 /\
      (forall u, resolved name p w3 u = resolved name p w u) /\
      (forall u, u ∈ _dirtyUniforms w3 -> u ≠ "u_time" -> u ∈ _dirtyUniforms w) /\
      (forall u, u ∈ _dirtyUniforms w -> u ∈ _dirtyUniforms w3))
    as (w3 & Htime & Hin3 & Hres3 & Hd3 & Hd3').
  { destruct (resolved name p w1 "u_time") as [loc|].
    - msteps. unfold gl_uniform. msteps. rewrite Hgl2, Hgl1, Hgl. cbn [negb].
      eexists. split; [done|]. split; [by apply program_in_use_log|].
      split; [intros u; by rewrite resolved_log, Hres2, Hres1|].
      cbn. rewrite Hdirty2, Hdirty1. by split.
    - eexists. split; [done|]. split; [done|].
      split; [intros u; change (resolved name p w2 u = resolved name p w u);
              by rewrite Hres2, Hres1|].
      cbn. split; intros u; rewrite elem_of_Set_add, Hdirty2, Hdirty1; [|tauto].
      by intros [->|?]. }
  rewrite (bind_Returns _ _ _ _ _ Htime). msteps.
  destruct (forEachDirty_retries name p w (_dirtyUniforms w3) [] w3 Hin3 Hres3)
    as (acc & w4 & Hloop & Hacc).
  rewrite (bind_Returns _ _ _ _ _ Hloop).
  eexists. split; [done|]. intros u. cbn. rewrite Hacc, elem_of_nil.
  split.
  - intros [[]|(Hu & Hne & Hnone)]. auto.
  - intros (Hu & Hne & Hnone). right. auto.
Qed.

(** C5 at a core whose driver reports no location for
    [u_glitchIntensity]: after [start] the flush of the first frame keeps
    that name, and only that name. *)
Lemma C5_witness :
  exists w',
    _setUniforms (world_of optimizing (constructed optimizing ≫= after (start 1000)))
    = Returns tt w' /\
    forall u, u ∈ _dirtyUniforms w' <->
      u ∈ _dirtyUniforms (world_of optimizing (constructed optimizing ≫= after (start 1000))) /\
      u ≠ "u_time" /\
      resolved "maleficarumViz" 4
        (world_of optimizing (constructed optimizing ≫= after (start 1000))) u = None.
Proof.
  apply (C5_unresolved_uniforms_stay_dirty "maleficarumViz" 4
           (world_of optimizing (constructed optimizing ≫= after (start 1000)))).
  - vm_refl.
  - discriminate.
  - vm_refl.
  - exists ∅. vm_refl.
  - vm_refl.
Defined.

(** ** Context recovery (C6) *)




Section FlushFrame.

(** An invariant that reads neither the context, nor the shader manager,
    nor the dirty set. *)
Context (I : World -> Prop).
Context (Hcontext : forall f w, I w -> I (upd_context f w)).
Context (HshaderManager : forall f w, I w -> I (upd_shaderManager f w)).
Context (Hdirty : forall f w, I w -> I (upd__dirtyUniforms f w)).





End FlushFrame.



















(** The timer of an attempt always ends in its [catch] branch: without a
    live context it throws by itself, and with one the call
    [new ShaderManager(this.gl)] throws for want of the managers. *)
Lemma recoveryTimer_fails (w : World) (acquired : bool) :
  recoveryTimer acquired w
  = (let* attempts := bind (state_get "contextRecoveryAttempts") toNumberM in
     if JS.num_lt attempts (JFinite 3) then setTimeout RetryTimer
     else
       stop;;
       onError (Error "WebGL context recovery failed permanently"))
      (upd_gl (fun _ => acquired) w).
Proof.
  unfold recoveryTimer, try_catch. rewrite bind_modify, bind_gl_read.
  by destruct (acquired && negb _).
Qed.






(** ** Recovery after a reacquired context (C1) *)

(** [start()] on a core whose flag is set returns at once. *)
Lemma start_running (w : World) (now : Q) :
  JS.truthy (isAnimating w) = true -> start now w = Returns tt w.
Proof. intros Hon. unfold start, isAnimating in *. msteps. by rewrite Hon. Qed.

Section NoFrame.

Context (n : Z).

Ltac no_request_leaf := intros; unfold no_request in *; assumption.

Lemma stop_no_request : preserves (no_request n) stop.
Proof. preserves_with fail no_request_leaf. Qed.

Lemma recoveryTimer_no_request (acquired : bool) :
  preserves (no_request n) (recoveryTimer acquired).
Proof.
  intros w Hw. rewrite recoveryTimer_fails.
  apply preserves_at; [|done].
  preserves_with ltac:(idtac; call_lemma stop_no_request) no_request_leaf.
Qed.

Lemma _updateShaderIfNeeded_no_request : preserves (no_request n) _updateShaderIfNeeded.
Proof.
  unfold _updateShaderIfNeeded.
  preserves_with
    ltac:(first [ call_lemma (createDynamicProgram_frame (no_request n))
                | call_lemma (useProgram_frame (no_request n))
                | call_lemma (getAttributeLocation_frame (no_request n))
                | call_lemma stop_no_request
                | call_lemma (_markAllUniformsDirty_frame (no_request n)) ])
    no_request_leaf.
  all: by intros.
Qed.

(** The listener of [webglcontextrestored] restarts nothing: [start] is
    called only when the flag is set, and then returns at once. *)
Lemma _reinitializeAfterContextRestore_no_request (now : Q) :
  preserves (no_request n) (_reinitializeAfterContextRestore now).
Proof.
  unfold _reinitializeAfterContextRestore.
  apply preserves_try_catch; [|intros ?; apply preserves_ret].
  do 5 (apply preserves_bind;
        [preserves_with ltac:(idtac; call_lemma _updateShaderIfNeeded_no_request)
           no_request_leaf
        |intros ?]).
  intros w Hw. rewrite bind_state_get.
  destruct (JS.truthy _) eqn:Hon; [|done].
  by rewrite (start_running w now Hon).
Qed.

End NoFrame.

(** The timer of an attempt leaves the dirty set and the counter as they
    were. *)
Lemma recoveryTimer_keeps (dirty : list string) (attempts : option JSValue)
    (acquired : bool) :
  preserves (fun w => _dirtyUniforms w = dirty /\
                      state w !! "contextRecoveryAttempts" = attempts)
    (recoveryTimer acquired).
Proof.
  intros w Hw. rewrite recoveryTimer_fails.
  apply preserves_at; [|done].
  preserves_with fail
    ltac:(idtac; intros ? [? ?]; split; [done|];
          cbn [state upd_state upd_scheduler upd_callbackLog];
          rewrite ?lookup_insert_ne by discriminate; done).
Qed.

(** [_markAllUniformsDirty] replaces the dirty set by the nineteen
    uniforms of the state keys, in the order of the keys. *)
Lemma _markAllUniformsDirty_marks (w : World) :
  _markAllUniformsDirty w
  = Returns tt (upd__dirtyUniforms (fun _ =>
      ["u_time"; "u_resolution"; "u_dimension"; "u_morphFactor";
       "u_rotationSpeed"; "u_universeModifier"; "u_patternIntensity";
       "u_gridDensity"; "u_lineThickness"; "u_shellWidth";
       "u_tetraThickness"; "u_glitchIntensity"; "u_colorShift";
       "u_audioBass"; "u_audioMid"; "u_audioHigh"; "u_primaryColor";
       "u_secondaryColor"; "u_backgroundColor"]) w).
Proof. vm_refl. Qed.

(** C1 (as stated, false).  A running core loses its context and the
    first recovery timer acquires a live one: no frame is requested, the
    dirty set is still empty, the counter is not reset, and a retry is
    pending.  With a live context at every retry the core ends stopped,
    with the fatal error reported.  When the loss and the restoration are
    announced by the canvas events, the dirty set is filled but the loop is
    not restarted. *)
Lemma C1_counterexample :
  (loop_status <$> (running permissive ≫= run restored_recovery))
  = Some (JBoolean true, [], [RetryTimer], [], Some (JInt 1), [OnRender]) /\
  (loop_status <$> (running permissive ≫= run retried_recovery))
  = Some (JBoolean false, [], [], [], Some (JInt 3),
          [OnRender; OnError (Error "WebGL context recovery failed permanently")]) /\
  (fun w => (isAnimating w, animationFrames (scheduler w), length (_dirtyUniforms w)))
    <$> (running permissive ≫= run announced_recovery)
  = Some (JBoolean false, [], 19%nat).
Proof. split_and!; vm_refl. Qed.

(** C1 (the code's behaviour).  Neither recovery path brings the core back
    to a running loop.  The timer of an attempt never completes its
    success branch, whether or not a live context is acquired: it requests
    no frame and leaves the dirty set and the counter as they were.  The
    listener of [webglcontextrestored] requests no frame either.  And the
    list the success branch would write as the dirty set lacks two of the
    uniforms that [_markAllUniformsDirty] marks. *)
Theorem C1_recovery_restarts_nothing :
  (forall (w : World) (acquired : bool),
      match recoveryTimer acquired w with
      | Returns _ w' | Throws _ w' =>
          nextRequestId (scheduler w') = nextRequestId (scheduler w) /\
          _dirtyUniforms w' = _dirtyUniforms w /\
          state w' !! "contextRecoveryAttempts" = state w !! "contextRecoveryAttempts"
      | Unsupported => True
      end) /\
  (forall (w : World) (now : Q),
      match _reinitializeAfterContextRestore now w with
      | Returns _ w' | Throws _ w' =>
          nextRequestId (scheduler w') = nextRequestId (scheduler w)
      | Unsupported => True
      end) /\
  (forall w : World,
      "u_secondaryColor" ∈ marked_by_all w /\ "u_backgroundColor" ∈ marked_by_all w) /\
  ("u_secondaryColor" ∉ recoveredDirtyUniforms) /\
  ("u_backgroundColor" ∉ recoveredDirtyUniforms).
Proof.
  split_and!.
  - intros w acquired.
    pose proof (recoveryTimer_no_request _ acquired w eq_refl) as Hframe.
    pose proof (recoveryTimer_keeps _ _ acquired w (conj eq_refl eq_refl)) as Hkeep.
    unfold no_request in Hframe. by destruct (recoveryTimer acquired w).
  - intros w now.
    by apply (_reinitializeAfterContextRestore_no_request _ now w).
  - intros w. unfold marked_by_all. rewrite _markAllUniformsDirty_marks.
    cbn [_dirtyUniforms upd__dirtyUniforms]. split; compute_done.
  - compute_done.
  - compute_done.
Qed.

(** * Further properties of the shader manager *)

(** [_compileShader] returns, and what it returns is what it has stored
    under the identifier: the shader, or null after a failure. *)
Theorem _compileShader_stores_its_result (w : World) (id src : string) (ty : ShaderType) :
  exists r w', _compileShader id src ty w = Returns r w' /\
    compiledShaders (shaderManager w') !! id = Some r.
Proof.
  unfold _compileShader. msteps.
  destruct (compiledShaders (shaderManager w) !! id) as [[h|]|] eqn:Hid;
    [by eauto| |].
  all: msteps; unfold GL.createShader; destruct (contextLost (context w));
    cbn [fst snd]; msteps;
    [do 2 eexists; (split; [done|]); apply lookup_insert_eq|].
  all: match goal with |- context [negb ?b] => destruct b end; cbn [negb]; msteps.
  all: do 2 eexists; (split; [done|]); apply lookup_insert_eq.
Qed.

(** A failure is stored as null, and null is no cache entry: the next call
    for the identifier goes to the context again. *)
Theorem _compileShader_retries_a_failure (w : World) (id src : string) (ty : ShaderType) :
  compiledShaders (shaderManager w) !! id = Some None ->
  contextLost (context w) = false ->
  exists r w', _compileShader id src ty w = Returns r w' /\
    issued (CreateShader (nextName (context w))) w' /\
    issued (ShaderSource (nextName (context w)) src) w' /\
    issued (CompileShader (nextName (context w))) w'.
Proof.
  intros Hid Hlive. unfold _compileShader. msteps. rewrite Hid. msteps.
  unfold GL.createShader. rewrite Hlive. cbn [fst snd]. msteps.
  match goal with |- context [negb ?b] => destruct b end; cbn [negb]; msteps.
  all: do 2 eexists; (split; [done|]); unfold issued; cbn;
    rewrite !elem_of_app, !list_elem_of_singleton; tauto.
Qed.

Lemma _compileShader_retries_a_failure_witness :
  exists r w',
    _compileShader "base-vertex" "void main() {}" VERTEX_SHADER
      (world_of rejecting (constructed rejecting)) = Returns r w' /\
    issued (CreateShader (nextName (context (world_of rejecting (constructed rejecting))))) w' /\
    issued (ShaderSource (nextName (context (world_of rejecting (constructed rejecting))))
              "void main() {}") w' /\
    issued (CompileShader (nextName (context (world_of rejecting (constructed rejecting))))) w'.
Proof.
  apply (_compileShader_retries_a_failure (world_of rejecting (constructed rejecting))
           "base-vertex" "void main() {}" VERTEX_SHADER); vm_refl.
Defined.

(** On a live context [_createProgram] returns, and the entry of the name
    is what it returns: the linked program with two empty location caches,
    or null after a link failure. *)
Theorem _createProgram_stores_its_result (w : World) (name : string) (vs fs : nat) :
  contextLost (context w) = false ->
  exists r w', _createProgram name vs fs w = Returns r w' /\
    programs (shaderManager w') !! name = Some r /\
    (is_Some r ->
       uniformLocations (shaderManager w') !! name = Some ∅ /\
       attributeLocations (shaderManager w') !! name = Some ∅).
Proof.
  assert (forall w0 : World,
             (forall old, programs (shaderManager w0) !! name ≠ Some (Some old)) ->
             contextLost (context w0) = false ->
             exists r w', _createProgram name vs fs w0 = Returns r w' /\
               programs (shaderManager w') !! name = Some r /\
               (is_Some r ->
                  uniformLocations (shaderManager w') !! name = Some ∅ /\
                  attributeLocations (shaderManager w') !! name = Some ∅)) as Hlink.
  { intros w0 Hnone Hlive. unfold _createProgram. msteps.
    destruct (programs (shaderManager w0) !! name) as [[old|]|] eqn:Hname;
      [by destruct (Hnone old)| |].
    all: msteps; unfold GL.createProgram; rewrite Hlive; cbn [fst snd]; msteps.
    all: match goal with |- context [negb ?b] => destruct b end; cbn [negb]; msteps.
    all: do 2 eexists; (split; [done|]); cbn; rewrite ?lookup_insert_eq;
      (split; [done|]); by intros [? [=]] || done. }
  intros Hlive.
  destruct (programs (shaderManager w) !! name) as [[old|]|] eqn:Hname.
  - rewrite (_createProgram_disposes w name vs fs old Hname).
    apply Hlink.
    + intros old'. change (delete name (programs (shaderManager w)) !! name ≠ Some (Some old')).
      by rewrite lookup_delete_eq.
    + unfold disposed. cbn. by rewrite contextLost_detach_all.
  - apply Hlink; [|done]. intros old. by rewrite Hname.
  - apply Hlink; [|done]. intros old. by rewrite Hname.
Qed.

Lemma _createProgram_stores_its_result_witness :
  exists r w',
    _createProgram "maleficarumViz" 2 3 (world_of permissive (constructed permissive))
    = Returns r w' /\
    programs (shaderManager w') !! "maleficarumViz" = Some r /\
    (is_Some r ->
       uniformLocations (shaderManager w') !! "maleficarumViz" = Some ∅ /\
       attributeLocations (shaderManager w') !! "maleficarumViz" = Some ∅).
Proof.
  apply (_createProgram_stores_its_result (world_of permissive (constructed permissive))
           "maleficarumViz" 2%nat 3%nat).
  vm_refl.
Defined.

(** [useProgram] of a stored program selects it, in the manager and in the
    context, and asks nothing of the context when the program is already
    the current one. *)
Theorem useProgram_selects_the_program (w : World) (name : string) (p : nat) :
  programs (shaderManager w) !! name = Some (Some p) ->
  exists w', useProgram (Some name) w = Returns true w' /\
    currentProgramName (shaderManager w') = Some name /\
    CURRENT_PROGRAM (context w') = Some p /\
    (CURRENT_PROGRAM (context w) = Some p -> context w' = context w).
Proof.
  intros Hp. unfold useProgram. msteps. rewrite Hp. msteps.
  case_bool_decide as Hcur; msteps; eexists; (split; [done|]); cbn; by repeat split.
Qed.

Lemma useProgram_selects_the_program_witness :
  exists w', useProgram (Some "maleficarumViz") (world_of permissive (constructed permissive))
             = Returns true w' /\
    currentProgramName (shaderManager w') = Some "maleficarumViz" /\
    CURRENT_PROGRAM (context w') = Some 4%nat /\
    (CURRENT_PROGRAM (context (world_of permissive (constructed permissive))) = Some 4%nat ->
     context w' = context (world_of permissive (constructed permissive))).
Proof.
  apply (useProgram_selects_the_program (world_of permissive (constructed permissive))
           "maleficarumViz" 4%nat).
  vm_refl.
Defined.

Lemma useProgram_missing (w : World) (name : string) :
  (forall p, programs (shaderManager w) !! name ≠ Some (Some p)) ->
  exists w', useProgram (Some name) w = Returns false w' /\
    currentProgramName (shaderManager w') ≠ Some name /\
    (currentProgramName (shaderManager w) ≠ Some name -> w' = w) /\
    _dirtyUniforms w' = _dirtyUniforms w /\
    (forall loc v, Uniform loc v ∈ calls (context w') -> Uniform loc v ∈ calls (context w)).
Proof.
  intros Hnone. unfold useProgram. msteps.
  destruct (programs (shaderManager w) !! name) as [[p|]|] eqn:Hname;
    [by destruct (Hnone p)| |].
  all: case_bool_decide as Hcur; msteps; eexists; (split; [done|]); cbn;
    split_and!; try done; intros loc v;
    rewrite ?elem_of_app, ?list_elem_of_singleton; by intros [?|?].
Qed.

(** [useProgram] of a name without a usable program returns false and does
    not leave that name current; when the name was not current, nothing
    changes. *)
Theorem useProgram_refuses_a_missing_program (w : World) (name : string) :
  (forall p, programs (shaderManager w) !! name ≠ Some (Some p)) ->
  exists w', useProgram (Some name) w = Returns false w' /\
    currentProgramName (shaderManager w') ≠ Some name /\
    (currentProgramName (shaderManager w) ≠ Some name -> w' = w).
Proof.
  intros Hnone. destruct (useProgram_missing w name Hnone) as (w' & ? & ? & ? & _ & _).
  by exists w'.
Qed.

Lemma useProgram_refuses_a_missing_program_witness :
  exists w', useProgram (Some "noSuchProgram") (world_of permissive (constructed permissive))
             = Returns false w' /\
    currentProgramName (shaderManager w') ≠ Some "noSuchProgram" /\
    (currentProgramName (shaderManager (world_of permissive (constructed permissive)))
     ≠ Some "noSuchProgram" ->
     w' = world_of permissive (constructed permissive)).
Proof.
  apply (useProgram_refuses_a_missing_program (world_of permissive (constructed permissive))
           "noSuchProgram").
  intros p. vm_compute. discriminate.
Defined.




(** After [useProgram(null)] no program is current: both lookups answer
    null and leave the world as it is. *)
Theorem lookups_without_a_program (w : World) (u a : string) :
  exists w', useProgram None w = Returns true w' /\
    getUniformLocation u w' = Returns None w' /\
    getAttributeLocation a w' = Returns None w'.
Proof.
  unfold useProgram. msteps.
  case_bool_decide as Hcur; msteps; eexists; (split; [done|]).
  - unfold getUniformLocation, getAttributeLocation, currentProgram. msteps.
    by rewrite Hcur.
  - done.
Qed.

(** * Further properties of the core *)

(** ** The dirty set *)

(** [_markAllUniformsDirty] replaces whatever was dirty by the nineteen
    uniforms of the state keys, and touches nothing else. *)
Theorem _markAllUniformsDirty_marks_all (w : World) :
  exists w', _markAllUniformsDirty w = Returns tt w' /\
    _dirtyUniforms w'
    = ["u_time"; "u_resolution"; "u_dimension"; "u_morphFactor";
       "u_rotationSpeed"; "u_universeModifier"; "u_patternIntensity";
       "u_gridDensity"; "u_lineThickness"; "u_shellWidth";
       "u_tetraThickness"; "u_glitchIntensity"; "u_colorShift";
       "u_audioBass"; "u_audioMid"; "u_audioHigh"; "u_primaryColor";
       "u_secondaryColor"; "u_backgroundColor"] /\
    state w' = state w /\ context w' = context w /\ scheduler w' = scheduler w.
Proof. rewrite _markAllUniformsDirty_marks. by eexists. Qed.

Lemma Set_add_all_absorbed (names s : list string) :
  (forall u, u ∈ names -> u ∈ s) ->
  fold_left (fun s name => Set_add name s) names s = s.
Proof.
  revert s. induction names as [|n names IH]; intros s Hin; cbn [fold_left]; [done|].
  assert (Set_add n s = s) as ->.
  { unfold Set_add. rewrite bool_decide_eq_true_2; [done|]. apply Hin. by left. }
  apply IH. intros u Hu. apply Hin. by right.
Qed.

Lemma NoDup_Set_add_all (names s : list string) :
  NoDup s -> NoDup (fold_left (fun s name => Set_add name s) names s).
Proof.
  revert s. induction names as [|n names IH]; intros s Hs; cbn [fold_left]; [done|].
  by apply IH, NoDup_Set_add.
Qed.

(** [_markUniformDirty] adds the uniforms of its key and nothing else,
    keeps the set free of duplicates, and marking the same key again
    changes nothing. *)
Theorem _markUniformDirty_adds_once (w : World) (stateKey : string) :
  exists w', _markUniformDirty stateKey w = Returns tt w' /\
    (forall u, u ∈ _dirtyUniforms w' <-> u ∈ uniformNames stateKey \/ u ∈ _dirtyUniforms w) /\
    (NoDup (_dirtyUniforms w) -> NoDup (_dirtyUniforms w')) /\
    ends (_markUniformDirty stateKey w') (fun w'' => _dirtyUniforms w'' = _dirtyUniforms w').
Proof.
  unfold _markUniformDirty. eexists. split; [done|]. cbn. split_and!.
  - intros u. apply elem_of_Set_add_all.
  - apply NoDup_Set_add_all.
  - apply Set_add_all_absorbed. intros u Hu. apply elem_of_Set_add_all. by left.
Qed.

(** The [switch] of [_setUniforms] and the [switch] of [_markUniformDirty]
    agree: a uniform that the flush uploads from a state key is one of the
    uniforms that a change of this key marks dirty. *)
Theorem uploaded_uniforms_are_marked_by_their_key (u key : string)
    (setter : UniformSetter) (sub : option string) :
  uniformSource u = Some (setter, key, sub) -> u ∈ uniformNames key.
Proof.
  unfold uniformSource.
  repeat match goal with
         | |- context [String.eqb u ?s] =>
             destruct (String.eqb_spec u s) as [->|_];
             [intros [= <- <- <-]; compute_done|]
         end.
  discriminate.
Qed.

Lemma uploaded_uniforms_are_marked_by_their_key_witness :
  "u_audioMid" ∈ uniformNames "audioLevels".
Proof.
  apply (uploaded_uniforms_are_marked_by_their_key "u_audioMid" "audioLevels"
           uniform1f (Some "mid")).
  reflexivity.
Defined.

(** ** updateParameters *)

(** Keys that the state does not have are skipped: a write of such keys
    only leaves the core as it is. *)
Theorem updateParameters_skips_unknown_keys (w : World)
    (newParams : list (string * JSValue)) :
  data_write newParams ->
  Forall (fun p => state w !! fst p = None) newParams ->
  updateParameters newParams w = Returns tt w.
Proof.
  intros Hdata Hunknown. unfold updateParameters.
  assert (updateParameters_loop newParams false w = Returns false w) as Hloop.
  { generalize false.
    induction newParams as [|[key v] rest IH]; intros flag;
      cbn [updateParameters_loop]; [done|].
    apply data_write_special in Hdata as [Hspecial Hrest].
    apply Forall_cons in Hunknown as [Hkey Hunknown]. cbn in Hkey.
    rewrite (bind_Returns _ _ _ _ _ (updateParameter_unknown w key v flag Hspecial Hkey)).
    by apply IH. }
  by rewrite (bind_Returns _ _ _ _ _ Hloop).
Qed.

Lemma updateParameters_skips_unknown_keys_witness :
  updateParameters [("dimension", JInt 5); ("zoom", JInt 2)]
    (world_of permissive (running permissive))
  = Returns tt (world_of permissive (running permissive)).
Proof.
  apply (updateParameters_skips_unknown_keys (world_of permissive (running permissive))
           [("dimension", JInt 5); ("zoom", JInt 2)]).
  - repeat constructor; discriminate.
  - repeat constructor; vm_refl.
Defined.

(** A write to an object-valued group marks no uniform dirty: the keys it
    passes to [_markUniformDirty] ([colorScheme.primary], [audioLevels.bass]
    and the like) have no [case], so the new colours and levels wait for
    the next [_markAllUniformsDirty]. *)
Theorem updateParameters_group_marks_nothing (w : World) (key : string) (old v : JSValue) :
  (String.eqb key "_dirtyUniforms" || String.eqb key "callbacks") = false ->
  state w !! key = Some old ->
  JS.isPlainObject old = true ->
  ends (updateParameters [(key, v)] w)
    (fun w' => _dirtyUniforms w' = _dirtyUniforms w).
Proof.
  intros Hspecial Hold Hplain.
  unfold updateParameters. cbn [updateParameters_loop]. msteps.
  unfold updateParameter. rewrite Hspecial. msteps. rewrite Hold, Hplain.
  destruct (stringify_differs old v); [|by msteps].
  rewrite bind_assoc, bind_state_set, bind_assoc.
  apply (ends_bind (fun w' => _dirtyUniforms w' = _dirtyUniforms w)).
  - preserves_with fail ltac:(idtac; by intros).
  - supported_with fail.
  - done.
  - done.
  - intros _ w' Hw'. by msteps.
Qed.

Lemma updateParameters_group_marks_nothing_witness :
  ends (updateParameters
          [("colorScheme", JObject [("primary", JArray [JInt 0; JInt 1; JInt 0])])]
          (world_of permissive (running permissive)))
    (fun w' => _dirtyUniforms w' = _dirtyUniforms (world_of permissive (running permissive))).
Proof.
  apply (updateParameters_group_marks_nothing (world_of permissive (running permissive))
           "colorScheme"
           (JObject [("primary", JArray [JInt 1; JDec 2 1; JDec 8 1]);
                     ("secondary", JArray [JDec 2 1; JInt 1; JInt 1]);
                     ("background", JArray [JDec 5 2; JInt 0; JDec 2 1])])
           (JObject [("primary", JArray [JInt 0; JInt 1; JInt 0])])).
  - reflexivity.
  - vm_refl.
  - reflexivity.
Defined.

(** A write that changes a scalar parameter marks the uniforms of its key
    dirty, and a change of the geometry or of the projection asks for a
    shader update. *)
Theorem updateParameters_scalar_marks_dirty (w : World) (key : string) (old v : JSValue) :
  (String.eqb key "_dirtyUniforms" || String.eqb key "callbacks") = false ->
  state w !! key = Some old ->
  JS.isPlainObject old = false ->
  JSON_stringify old ≠ JSON_stringify v ->
  exists w', updateParameters [(key, v)] w = Returns tt w' /\
    (forall u, u ∈ uniformNames key -> u ∈ _dirtyUniforms w') /\
    (key = "geometryType" \/ key = "projectionMethod" ->
     state w' !! "needsShaderUpdate" = Some (JBoolean true)).
Proof.
  intros Hspecial Hold Hplain Hdiff.
  assert (stringify_differs old v = true) as Hd.
  { destruct (stringify_differs old v) eqn:E; [done|].
    by apply stringify_differs_spec in E. }
  unfold updateParameters. cbn [updateParameters_loop]. msteps.
  unfold updateParameter. rewrite Hspecial. msteps.
  rewrite Hold, Hplain, Hd. unfold _markUniformDirty. msteps. cbn [orb].
  assert (forall u s, u ∈ uniformNames key ->
            u ∈ fold_left (fun s name => Set_add name s) (uniformNames key) s) as Hmarked.
  { intros u s Hu. apply elem_of_Set_add_all. by left. }
  destruct (String.eqb_spec key "geometryType") as [->|Hg]; cbn [orb].
  { eexists. split; [done|].
    split; [intros u Hu; cbn [_dirtyUniforms upd_state upd__dirtyUniforms];
            by apply Hmarked|].
    intros _. cbn [state upd_state upd__dirtyUniforms]. apply lookup_insert_eq. }
  destruct (String.eqb_spec key "projectionMethod") as [->|Hp]; cbn [orb].
  { eexists. split; [done|].
    split; [intros u Hu; cbn [_dirtyUniforms upd_state upd__dirtyUniforms];
            by apply Hmarked|].
    intros _. cbn [state upd_state upd__dirtyUniforms]. apply lookup_insert_eq. }
  eexists. split; [done|].
  split; [intros u Hu; cbn [_dirtyUniforms upd_state upd__dirtyUniforms];
          by apply Hmarked|].
  by intros [?|?].
Qed.

Lemma updateParameters_scalar_marks_dirty_witness :
  exists w',
    updateParameters [("geometryType", JString "torus")]
      (world_of permissive (running permissive)) = Returns tt w' /\
    (forall u, u ∈ uniformNames "geometryType" -> u ∈ _dirtyUniforms w') /\
    ("geometryType" = "geometryType" \/ "geometryType" = "projectionMethod" ->
     state w' !! "needsShaderUpdate" = Some (JBoolean true)).
Proof.
  apply (updateParameters_scalar_marks_dirty (world_of permissive (running permissive))
           "geometryType" (JString "hypercube") (JString "torus")).
  - reflexivity.
  - vm_refl.
  - reflexivity.
  - discriminate.
Defined.

(** ** The render loop *)

(** A frame on a running core whose context is missing or lost draws
    nothing: it is one recovery attempt. *)
Theorem _render_notices_a_lost_context (w : World) (timestamp : Q) :
  JS.truthy (isAnimating w) = true ->
  gl w = false \/ contextLost (context w) = true ->
  _render timestamp w = _attemptContextRecovery w.
Proof.
  intros Hon Hlost. unfold _render, isAnimating in *. msteps. rewrite Hon. cbn [negb].
  msteps. by destruct Hlost as [-> | ->]; [|rewrite orb_true_r].
Qed.

Lemma _render_notices_a_lost_context_witness :
  _render 1032 (world_of permissive (running permissive ≫= run [ContextLost]))
  = _attemptContextRecovery (world_of permissive (running permissive ≫= run [ContextLost])).
Proof.
  apply (_render_notices_a_lost_context
           (world_of permissive (running permissive ≫= run [ContextLost])) 1032%Q).
  - vm_refl.
  - right. vm_refl.
Defined.



(** [stop()] on a running core takes the frame it had requested off the
    queue and clears the flag and the handle. *)
Theorem stop_cancels_the_frame (w : World) (frame : Z) :
  JS.truthy (isAnimating w) = true ->
  state w !! "animationFrameId" = Some (JInt frame) ->
  frame ≠ 0 ->
  exists w', stop w = Returns tt w' /\
    (frame ∉ animationFrames (scheduler w')) /\
    (forall f, f ∈ animationFrames (scheduler w') -> f ∈ animationFrames (scheduler w)) /\
    state w' !! "isRendering" = Some (JBoolean false) /\
    state w' !! "animationFrameId" = Some JNull.
Proof.
  intros Hon Hid Hne. unfold stop, isAnimating in *. msteps. rewrite Hon. cbn [negb].
  msteps. rewrite Hid. cbn [default id].
  assert (JS.truthy (JInt frame) = true) as ->.
  { cbn [JS.truthy JInt]. destruct (Qeq_bool (inject_Z frame) 0) eqn:E; [|done].
    apply Qeq_bool_iff in E. unfold Qeq in E. cbn in E. lia. }
  unfold cancelAnimationFrame. cbn [JS.toNumber JInt]. msteps.
  eexists. split; [done|]. cbn. split_and!.
  - rewrite list_elem_of_In, filter_In. intros [_ Hkeep].
    change (Qfloor (inject_Z frame)) with (frame / 1) in Hkeep.
    by rewrite Z.div_1_r, Z.eqb_refl in Hkeep.
  - intros f. rewrite !list_elem_of_In, filter_In. tauto.
  - by rewrite lookup_insert_ne, lookup_insert_eq.
  - by rewrite lookup_insert_eq.
Qed.

Lemma stop_cancels_the_frame_witness :
  exists w', stop (world_of permissive (running permissive)) = Returns tt w' /\
    (2 ∉ animationFrames (scheduler w')) /\
    (forall f, f ∈ animationFrames (scheduler w') ->
               f ∈ animationFrames (scheduler (world_of permissive (running permissive)))) /\
    state w' !! "isRendering" = Some (JBoolean false) /\
    state w' !! "animationFrameId" = Some JNull.
Proof.
  apply (stop_cancels_the_frame (world_of permissive (running permissive)) 2).
  - vm_refl.
  - vm_refl.
  - discriminate.
Defined.

(** [start()] on a stopped core without a pending shader update sets the
    flag, restarts the clock, marks every uniform dirty and requests one
    frame, whose handle it keeps. *)
Theorem start_requests_a_frame (w : World) (now : Q) :
  JS.truthy (isAnimating w) = false ->
  JS.truthy (default JUndefined (state w !! "needsShaderUpdate")) = false ->
  exists w', start now w = Returns tt w' /\
    state w' !! "isRendering" = Some (JBoolean true) /\
    state w' !! "time" = Some (JInt 0) /\
    state w' !! "startTime" = Some (JNum (JFinite now)) /\
    state w' !! "animationFrameId" = Some (JInt (nextRequestId (scheduler w))) /\
    animationFrames (scheduler w')
    = animationFrames (scheduler w) ++ [nextRequestId (scheduler w)] /\
    length (_dirtyUniforms w') = 19%nat.
Proof.
  intros Hoff Hflag. unfold start, isAnimating in *. msteps. rewrite Hoff. msteps.
  cbn [state upd_state].
  rewrite !lookup_insert_ne by discriminate. rewrite Hflag. msteps. cbn [negb].
  rewrite (bind_Returns _ _ _ _ _ (_markAllUniformsDirty_marks _)).
  unfold requestAnimationFrame. msteps.
  eexists. split; [done|]. cbn.
  rewrite lookup_insert_ne, lookup_insert_ne, lookup_insert_ne, lookup_insert_ne,
    lookup_insert_eq by discriminate.
  rewrite lookup_insert_ne, lookup_insert_ne, lookup_insert_eq by discriminate.
  rewrite lookup_insert_ne, lookup_insert_ne, lookup_insert_ne, lookup_insert_eq
    by discriminate.
  by rewrite lookup_insert_eq.
Qed.

Lemma start_requests_a_frame_witness :
  exists w', start 1000 (world_of permissive (constructed permissive)) = Returns tt w' /\
    state w' !! "isRendering" = Some (JBoolean true) /\
    state w' !! "time" = Some (JInt 0) /\
    state w' !! "startTime" = Some (JNum (JFinite 1000)) /\
    state w' !! "animationFrameId"
    = Some (JInt (nextRequestId (scheduler (world_of permissive (constructed permissive))))) /\
    animationFrames (scheduler w')
    = animationFrames (scheduler (world_of permissive (constructed permissive)))
      ++ [nextRequestId (scheduler (world_of permissive (constructed permissive)))] /\
    length (_dirtyUniforms w') = 19%nat.
Proof.
  apply (start_requests_a_frame (world_of permissive (constructed permissive)) 1000%Q);
    vm_refl.
Defined.

(** Without a usable program under [state.shaderProgramName] the flush
    uploads nothing and keeps the dirty set: the names wait for a
    program. *)
Theorem _setUniforms_waits_for_a_program (w : World) (name : string) :
  state w !! "shaderProgramName" = Some (JString name) ->
  (forall p, programs (shaderManager w) !! name ≠ Some (Some p)) ->
  exists w', _setUniforms w = Returns tt w' /\
    _dirtyUniforms w' = _dirtyUniforms w /\
    (forall loc v, Uniform loc v ∈ calls (context w') -> Uniform loc v ∈ calls (context w)).
Proof.
  intros Hstate Hnone.
  destruct (useProgram_missing w name Hnone) as (w1 & Huse & _ & _ & Hdirty & Hcalls).
  unfold _setUniforms, state_get. msteps. rewrite Hstate.
  cbn [default id programArgument]. msteps.
  rewrite (bind_Returns _ _ _ _ _ Huse). msteps. cbn [negb orb].
  by exists w1.
Qed.

Lemma _setUniforms_waits_for_a_program_witness :
  exists w', _setUniforms (world_of rejecting (constructed rejecting)) = Returns tt w' /\
    _dirtyUniforms w' = _dirtyUniforms (world_of rejecting (constructed rejecting)) /\
    (forall loc v,
        Uniform loc v ∈ calls (context w') ->
        Uniform loc v ∈ calls (context (world_of rejecting (constructed rejecting)))).
Proof.
  apply (_setUniforms_waits_for_a_program (world_of rejecting (constructed rejecting))
           "maleficarumViz").
  - vm_refl.
  - intros p. vm_compute. discriminate.
Defined.

(** ** Construction *)



(** * Further properties of the strategies and their managers *)

(** A falsy name (null, undefined, the empty string) selects the default
    strategy.  The default name is looked up as it was configured first,
    and in lower case after that. *)
Theorem lookup_of_a_falsy_name (name : JSValue)
    (gm : GeometryManager) (pm : ProjectionManager) :
  JS.truthy name = false ->
  getGeometry name gm
  = inr (match geometries gm !! defaultGeometry gm with
         | Some g => Some g
         | None => geometries gm !! JSString.toLowerCase (defaultGeometry gm)
         end) /\
  getProjection name pm
  = inr (match projections pm !! defaultProjection pm with
         | Some p => Some p
         | None => projections pm !! JSString.toLowerCase (defaultProjection pm)
         end).
Proof.
  intros Hfalsy. unfold getGeometry, getProjection, lowerCaseName_or. rewrite Hfalsy.
  split; by case_match.
Qed.

Lemma lookup_of_a_falsy_name_witness :
  getGeometry JNull (new_GeometryManager (Some "Torus"))
  = inr (match geometries (new_GeometryManager (Some "Torus"))
                 !! defaultGeometry (new_GeometryManager (Some "Torus")) with
         | Some g => Some g
         | None => geometries (new_GeometryManager (Some "Torus"))
                     !! JSString.toLowerCase (defaultGeometry (new_GeometryManager (Some "Torus")))
         end) /\
  getProjection JNull (new_ProjectionManager None)
  = inr (match projections (new_ProjectionManager None)
                 !! defaultProjection (new_ProjectionManager None) with
         | Some p => Some p
         | None => projections (new_ProjectionManager None)
                     !! JSString.toLowerCase (defaultProjection (new_ProjectionManager None))
         end).
Proof.
  apply (lookup_of_a_falsy_name JNull (new_GeometryManager (Some "Torus"))
           (new_ProjectionManager None)).
  reflexivity.
Defined.

(** A truthy name that is not a string has no [toLowerCase]: the lookup
    throws a [TypeError] instead of falling back. *)
Theorem lookup_of_a_name_that_is_no_string (name : JSValue)
    (gm : GeometryManager) (pm : ProjectionManager) :
  JS.truthy name = true ->
  asString name = None ->
  getGeometry name gm = inl (TypeError "name.toLowerCase is not a function") /\
  getProjection name pm = inl (TypeError "name.toLowerCase is not a function").
Proof.
  intros Htruthy Hstring. unfold getGeometry, getProjection, lowerCaseName_or.
  rewrite Htruthy. by destruct name.
Qed.

Lemma lookup_of_a_name_that_is_no_string_witness :
  getGeometry (JInt 5) (new_GeometryManager None)
  = inl (TypeError "name.toLowerCase is not a function") /\
  getProjection (JInt 5) (new_ProjectionManager None)
  = inl (TypeError "name.toLowerCase is not a function").
Proof.
  apply (lookup_of_a_name_that_is_no_string (JInt 5) (new_GeometryManager None)
           (new_ProjectionManager None)); reflexivity.
Defined.

(** The constructor of the shader manager checks its three arguments in
    order, and a manager it builds has the fragment template under the
    fragment name and no compiled shader and no program yet. *)
Theorem new_ShaderManager_checks_its_arguments (gl gm pm : bool)
    (vsName fsName : option string) :
  match new_ShaderManager gl gm pm vsName fsName with
  | inl e =>
      e = Error (if negb gl then "WebGL context needed."
                 else if negb gm then "GeometryManager needed."
                 else "ProjectionManager needed.") /\
      gl && gm && pm = false
  | inr this =>
      gl && gm && pm = true /\
      baseFragmentShaderName this = default "base-fragment" fsName /\
      shaderSources this !! baseFragmentShaderName this
      = Some (GLSL.baseFragmentShaderSource, FRAGMENT_SHADER) /\
      compiledShaders this = ∅ /\ programs this = ∅ /\
      currentProgramName this = None
  end.
Proof.
  unfold new_ShaderManager. destruct gl, gm, pm; cbn [negb andb]; try done.
  split_and!; try done. apply lookup_insert_eq.
Qed.

(** Every class that the managers register by themselves returns GLSL
    text with the function that [createDynamicProgram] asks for, the base
    fragment template has both injection points, and no pair of them
    leaves an injection point behind. *)
Theorem builtin_strategies_compose :
  Forall (fun g => exists code,
            getShaderCode g = inr (JString code) /\
            JSString.includes code "calculateLattice" = true) builtinGeometries /\
  Forall (fun p => exists code,
            getShaderCode p = inr (JString code) /\
            JSString.includes code "project4Dto3D" = true) builtinProjections /\
  JSString.includes GLSL.baseFragmentShaderSource GLSL.GEOMETRY_CODE_INJECTION_POINT = true /\
  JSString.includes GLSL.baseFragmentShaderSource GLSL.PROJECTION_CODE_INJECTION_POINT = true /\
  Forall (fun g =>
            Forall (fun p =>
                      marker_left
                        (assembledSource GLSL.baseFragmentShaderSource (codeOf g) (codeOf p))
                      = false) builtinProjections) builtinGeometries.
Proof.
  split_and!.
  - repeat constructor; eexists; (split; [reflexivity|vm_refl]).
  - repeat constructor; eexists; (split; [reflexivity|vm_refl]).
  - vm_refl.
  - vm_refl.
  - repeat constructor; vm_refl.
Qed.

(** * Further properties of composition and buffers *)


(** A bare [new BaseGeometry()] passes registration, but composing with it
    throws: the exception of its [getShaderCode] leaves
    [createDynamicProgram]. *)
Theorem createDynamicProgram_throws_for_a_bare_geometry (w : World) (prog : string)
    (gn pn : JSValue) (p : BaseProjection) (vsrc : string) (vty : ShaderType) (vs : nat) :
  shaderSources (shaderManager w) !! baseVertexShaderName (shaderManager w)
  = Some (vsrc, vty) ->
  compiledShaders (shaderManager w) !! baseVertexShaderName (shaderManager w)
  = Some (Some vs) ->
  getGeometry gn (geometryManager w) = inr (Some NewBaseGeometry) ->
  getProjection pn (projectionManager w) = inr (Some p) ->
  createDynamicProgram prog gn pn w
  = Throws (Error "getShaderCode() must be implemented.") w.
Proof.
  intros Hvsrc Hvs Hg Hp. unfold createDynamicProgram. msteps. rewrite Hvsrc.
  unfold _compileShader. msteps. rewrite Hvs. msteps.
  rewrite Hg. msteps. by rewrite Hp.
Qed.

Lemma createDynamicProgram_throws_for_a_bare_geometry_witness :
  createDynamicProgram "maleficarumViz" (JString "Bare") (JString "perspective")
    world_with_bare
  = Throws (Error "getShaderCode() must be implemented.") world_with_bare.
Proof.
  apply (createDynamicProgram_throws_for_a_bare_geometry world_with_bare "maleficarumViz"
           (JString "Bare") (JString "perspective") PerspectiveProjection
           GLSL.baseVertexShaderSource VERTEX_SHADER 2%nat); vm_refl.
Defined.

Lemma compileCalls_log (c : GLCall) (w : World) :
  (forall h, c ≠ CompileShader h) ->
  compileCalls (upd_context (GL.log c) w) = compileCalls w.
Proof.
  intros Hc. unfold compileCalls. cbn. rewrite List.filter_app. cbn.
  destruct c; try by rewrite app_nil_r. by destruct (Hc shader).
Qed.

Lemma compileCalls_detach_all (old : nat) (l : list nat) (w : World) :
  compileCalls
    (upd_context (fun gl => fold_left (fun gl s => GL.detachShader old s gl) l gl) w)
  = compileCalls w.
Proof.
  unfold compileCalls. cbn. rewrite calls_detach_all, List.filter_app.
  assert (List.filter (fun c => match c with CompileShader _ => true | _ => false end)
            (DetachShader old <$> l) = []) as ->; [|by rewrite app_nil_r].
  induction l as [|s l IH]; [done|]. cbn. apply IH.
Qed.

Lemma compileCalls_calls (w w' : World) (l : list GLCall) :
  calls (context w') = calls (context w) ++ l ->
  Forall (fun c => forall h, c ≠ CompileShader h) l ->
  compileCalls w' = compileCalls w.
Proof.
  intros Hcalls Hl. unfold compileCalls. rewrite Hcalls, List.filter_app.
  assert (List.filter (fun c => match c with CompileShader _ => true | _ => false end) l
          = []) as ->; [|by rewrite app_nil_r].
  clear Hcalls. induction Hl as [|c l Hc Hl IH]; [done|]. cbn.
  destruct c; try apply IH. by destruct (Hc shader).
Qed.

(** Linking issues no compile call. *)
Lemma _createProgram_compiles_nothing (done_before : list GLCall)
    (name : string) (vs fs : nat) :
  preserves (fun w => compileCalls w = done_before) (_createProgram name vs fs).
Proof.
  unfold _createProgram.
  preserves_with fail
    ltac:(idtac; intros w0 <-;
          lazymatch goal with
          | |- context [fold_left] => apply compileCalls_detach_all
          | |- context [GL.createProgram] =>
              unfold GL.createProgram; destruct (contextLost (context w0));
              [done | eapply (compileCalls_calls w0); [reflexivity|repeat constructor; done]]
          | |- compileCalls (upd_context _ _) = _ =>
              eapply (compileCalls_calls w0); [reflexivity|repeat constructor; done]
          | |- _ => done
          end).
Qed.

(** The compiled fragment stage is cached under the requested names alone.
    When a stage is cached for the names, composing for them compiles
    nothing, whatever the registries now return for the names: a strategy
    registered again under a name that was composed before does not reach
    the GPU. *)
Theorem createDynamicProgram_reuses_the_cached_stage (w : World) (prog : string)
    (gn pn : JSValue) (g : BaseGeometry) (p : BaseProjection)
    (gcode pcode template : string) (fty : ShaderType)
    (vsrc : string) (vty : ShaderType) (vs fs : nat) (gtxt ptxt : string) :
  getGeometry gn (geometryManager w) = inr (Some g) ->
  getProjection pn (projectionManager w) = inr (Some p) ->
  getShaderCode g = inr (JString gcode) ->
  getShaderCode p = inr (JString pcode) ->
  JSString.includes gcode "calculateLattice" = true ->
  JSString.includes pcode "project4Dto3D" = true ->
  shaderSources (shaderManager w) !! baseFragmentShaderName (shaderManager w)
  = Some (template, fty) ->
  marker_left (assembledSource template gcode pcode) = false ->
  shaderSources (shaderManager w) !! baseVertexShaderName (shaderManager w)
  = Some (vsrc, vty) ->
  compiledShaders (shaderManager w) !! baseVertexShaderName (shaderManager w)
  = Some (Some vs) ->
  templateText gn = Some gtxt ->
  templateText pn = Some ptxt ->
  compiledShaders (shaderManager w) !! fragmentId gtxt ptxt = Some (Some fs) ->
  exists r w', createDynamicProgram prog gn pn w = Returns r w' /\
    compileCalls w' = compileCalls w.
Proof.
  intros Hg Hp Hgcode Hpcode Hcalc Hproj Htemplate Hclean Hvsrc Hvs Hgt Hpt Hfs.
  unfold createDynamicProgram. msteps. rewrite Hvsrc.
  unfold _compileShader at 1. msteps. rewrite Hvs. msteps.
  rewrite Hg. msteps. rewrite Hp. msteps.
  rewrite Hgcode, Hpcode. msteps. cbn [asString].
  rewrite Hcalc, Hproj. cbn [negb]. rewrite Htemplate.
  unfold marker_left, assembledSource in Hclean. rewrite Hclean.
  rewrite Hgt, Hpt. fold (fragmentId gtxt ptxt).
  unfold _compileShader. msteps. rewrite Hfs. msteps.
  destruct (_createProgram_returns prog vs fs w) as (r & w1 & Hlink).
  pose proof (_createProgram_compiles_nothing _ prog vs fs w eq_refl) as Hsame.
  rewrite Hlink in Hsame. rewrite (bind_Returns _ _ _ _ _ Hlink). msteps.
  destruct (bool_decide _); [destruct r|]; msteps; do 2 eexists; (split; [done|]);
    rewrite <- Hsame; try done.
  - eapply (compileCalls_calls w1); [reflexivity|repeat constructor; done].
  - eapply (compileCalls_calls w1); [reflexivity|repeat constructor; done].
Qed.

Lemma createDynamicProgram_reuses_the_cached_stage_witness :
  exists r w',
    createDynamicProgram "maleficarumViz" (JString "hypercube") (JString "perspective")
      world_reregistered = Returns r w' /\
    compileCalls w' = compileCalls world_reregistered.
Proof.
  apply (createDynamicProgram_reuses_the_cached_stage world_reregistered "maleficarumViz"
           (JString "hypercube") (JString "perspective")
           TorusGeometry PerspectiveProjection
           GLSL.TorusGeometry GLSL.PerspectiveProjection
           GLSL.baseFragmentShaderSource FRAGMENT_SHADER
           GLSL.baseVertexShaderSource VERTEX_SHADER 2%nat 3%nat
           "hypercube" "perspective");
    try vm_refl; reflexivity.
Defined.
